(** * Comment sentiment analysis (hercules, comment_sentiment.go)

    A shallow embedding of [CommentSentimentAnalysis]: the comment merger
    and noise filter of [mergeComments], the configuration check
    [validate], the per-commit accumulation of [Consume], the batched
    scoring and deadzone reduction of [Finalize], the text serializer
    [serializeText], and [Serialize] with the message of the binary
    serializer.

    Go strings are byte sequences, modelled as [list ascii]; Go [int] is
    modelled as [Z] (no arithmetic here can leave the 64-bit range);
    [float32] is IEEE-754 binary32, modelled with the parameterized
    operations of [SpecFloat] at precision 24 and maximal exponent 128;
    Go maps are [gmap]s. *)

From Stdlib Require Import ZArith Ascii String SpecFloat.
From Stdlib Require DecimalString.
From stdpp Require Import base option list gmap sorting.

Local Open Scope Z_scope.

(** ** IEEE-754 binary32 *)

Module F32.

Definition prec : Z := 24.
Definition emax : Z := 128.

Definition f32 : Type := spec_float.

Definition add : f32 -> f32 -> f32 := SFadd prec emax.
Definition sub : f32 -> f32 -> f32 := SFsub prec emax.
Definition mul : f32 -> f32 -> f32 := SFmul prec emax.
Definition div : f32 -> f32 -> f32 := SFdiv prec emax.

(** Go's [x < y], [x > y], [x >= y] on float32: false as soon as one
    side is a NaN. *)
Definition lt (x y : f32) : bool := SFltb x y.
Definition gt (x y : f32) : bool := SFltb y x.
Definition ge (x y : f32) : bool := SFleb y x.

(** The conversion [float32(n)] of an integer: round to nearest even. *)
Definition of_int (n : Z) : f32 := binary_normalize prec emax n 0 false.

(** The conversion [int(x)]: the fractional part is discarded.  The
    result for NaN and the infinities is implementation-specific in Go;
    amd64 yields the smallest int64. *)
Definition to_int (x : f32) : Z :=
  match x with
  | S754_zero _ => 0
  | S754_finite s m e =>
      let a := if 0 <=? e then Z.shiftl (Zpos m) e
               else Z.shiftr (Zpos m) (- e) in
      if s then - a else a
  | S754_infinity _ | S754_nan => - 2 ^ 63
  end.

Definition zero : f32 := S754_zero false.
Definition one : f32 := of_int 1.
(** The constant [0.5] converted to float32. *)
Definition half : f32 := div (of_int 1) (of_int 2).
(** The constant [0.6] converted to float32: the binary32 number nearest
    to 3/5. *)
Definition ratio06 : f32 := div (of_int 3) (of_int 5).

Definition is_nan (x : f32) : bool :=
  match x with S754_nan => true | _ => false end.

End F32.

(** ** Go strings and the library functions used on them *)

Abbreviation gostring := (list ascii).

Definition str (s : string) : gostring := list_ascii_of_string s.

Definition code (c : ascii) : Z := Z.of_N (N_of_ascii c).

Definition between (lo hi : Z) (c : ascii) : bool :=
  (lo <=? code c) && (code c <=? hi).

Definition byteIs (n : Z) (c : ascii) : bool := code c =? n.

Definition isEmpty (s : gostring) : bool :=
  match s with [] => true | _ => false end.

Module Strings.

(** [unicode.IsSpace] on the UTF-8 encodings of the White_Space runes:
    one byte for the ASCII ones, two for U+0085 and U+00A0, three for
    U+1680, U+2000..U+200A, U+2028, U+2029, U+202F, U+205F, U+3000. *)
Definition space1 (c : ascii) : bool := between 9 13 c || byteIs 32 c.

Definition space2 (c1 c2 : ascii) : bool :=
  byteIs 194 c1 && (byteIs 133 c2 || byteIs 160 c2).

Definition space3 (c1 c2 c3 : ascii) : bool :=
  (byteIs 225 c1 && byteIs 154 c2 && byteIs 128 c3)
  || (byteIs 226 c1 && byteIs 128 c2
      && (between 128 138 c3 || byteIs 168 c3 || byteIs 169 c3 || byteIs 175 c3))
  || (byteIs 226 c1 && byteIs 129 c2 && byteIs 159 c3)
  || (byteIs 227 c1 && byteIs 128 c2 && byteIs 128 c3).

(** Strips the runes at the front of [s] that are white space; [sp2]
    and [sp3] receive the bytes in the order they are met, so that the
    same function serves from the back on the reversed string. *)
Fixpoint trimFront (sp2 : ascii -> ascii -> bool)
    (sp3 : ascii -> ascii -> ascii -> bool) (s : gostring) : gostring :=
  match s with
  | [] => []
  | c1 :: s1 =>
      if space1 c1 then trimFront sp2 sp3 s1
      else match s1 with
           | [] => s
           | c2 :: s2 =>
               if sp2 c1 c2 then trimFront sp2 sp3 s2
               else match s2 with
                    | [] => s
                    | c3 :: s3 =>
                        if sp3 c1 c2 c3 then trimFront sp2 sp3 s3 else s
                    end
           end
  end.

Definition TrimLeft (s : gostring) : gostring := trimFront space2 space3 s.

Definition TrimRight (s : gostring) : gostring :=
  rev (trimFront (fun c2 c1 => space2 c1 c2)
                 (fun c3 c2 c1 => space3 c1 c2 c3) (rev s)).

(** [strings.TrimSpace]: leading white space goes first, then trailing. *)
Definition TrimSpace (s : gostring) : gostring := TrimRight (TrimLeft s).

(** [strings.Join]. *)
Fixpoint Join (a : list gostring) (sep : gostring) : gostring :=
  match a with
  | [] => []
  | x :: a' =>
      match a' with
      | [] => x
      | _ :: _ => x ++ sep ++ Join a' sep
      end
  end.

End Strings.

(** ** The package-level regular expressions

    Every pattern of the file is built from classes of ASCII characters,
    so matching on the bytes agrees with Go's matching on the decoded
    runes: a byte above 127 belongs to a rune outside every positive
    class and inside every negated one. *)

Module Regexp.

Definition isLower : ascii -> bool := between 97 122.
Definition isUpper : ascii -> bool := between 65 90.
Definition isLetter (c : ascii) : bool := isLower c || isUpper c.
Definition isDigit : ascii -> bool := between 48 57.
Definition isAlnum (c : ascii) : bool := isLetter c || isDigit c.

(** The class [\s] of Go's regexp: tab, newline, form feed, carriage
    return, space. *)
Definition isSpace (c : ascii) : bool :=
  byteIs 9 c || byteIs 10 c || byteIs 12 c || byteIs 13 c || byteIs 32 c.

Definition isIdentStart (c : ascii) : bool := isLetter c || byteIs 95 c.
Definition isIdentChar (c : ascii) : bool := isAlnum c || byteIs 95 c.

(** The characters [filteredCharsRE] leaves in place:
    [-a-zA-Z0-9_:;,./?!#&%+*=\n \t()]. *)
Definition isAllowed (c : ascii) : bool :=
  isAlnum c
  || existsb (fun n => byteIs n c)
       [45; 95; 58; 59; 44; 46; 47; 63; 33; 35; 38; 37; 43; 42; 61;
        10; 32; 9; 40; 41].

Fixpoint dropWhile (p : ascii -> bool) (s : gostring) : gostring :=
  match s with
  | [] => []
  | c :: s' => if p c then dropWhile p s' else s
  end.

Fixpoint takeWhile (p : ascii -> bool) (s : gostring) : gostring :=
  match s with
  | [] => []
  | c :: s' => if p c then c :: takeWhile p s' else []
  end.

(** [filteredFirstCharRE.MatchString]: the pattern [[^a-zA-Z0-9]] occurs
    somewhere in [s]. *)
Definition filteredFirstCharRE_Match (s : gostring) : bool :=
  existsb (fun c => negb (isAlnum c)) s.

(** A match of [functionNameRE], [\s*[a-zA-Z_][a-zA-Z_0-9]*\(\)],
    starting at the head of [s]: its length.  Both stars are followed by
    a character outside their class, so they take their whole run. *)
Definition functionNameRE_at (s : gostring) : option nat :=
  let ws := takeWhile isSpace s in
  match dropWhile isSpace s with
  | c :: s1 =>
      if isIdentStart c then
        let name := takeWhile isIdentChar s1 in
        match dropWhile isIdentChar s1 with
        | o :: c' :: _ =>
            if byteIs 40 o && byteIs 41 c'
            then Some (length ws + 1 + length name + 2)%nat
            else None
        | _ => None
        end
      else None
  | [] => None
  end.

(** Deletes the successive leftmost matches; [skip] counts the bytes of
    the current match still to be dropped. *)
Fixpoint deleteFunctionNames (skip : nat) (s : gostring) : gostring :=
  match s with
  | [] => []
  | c :: s' =>
      match skip with
      | S k => deleteFunctionNames k s'
      | O =>
          match functionNameRE_at s with
          | Some (S k) => deleteFunctionNames k s'
          | _ => c :: deleteFunctionNames 0 s'
          end
      end
  end.

(** [functionNameRE.ReplaceAllString(s, "")]. *)
Definition functionNameRE_Delete (s : gostring) : gostring :=
  deleteFunctionNames 0 s.

(** [filteredCharsRE.ReplaceAllString(s, "")]: every run of characters
    outside the allowed ones is deleted. *)
Definition filteredCharsRE_Delete (s : gostring) : gostring :=
  List.filter isAllowed s.

(** [whitespaceRE.ReplaceAllString(s, " ")]: [inRun] tells that the
    previous byte was white space, already replaced. *)
Fixpoint collapseSpace (inRun : bool) (s : gostring) : gostring :=
  match s with
  | [] => []
  | c :: s' =>
      if isSpace c then
        if inRun then collapseSpace true s'
        else " "%char :: collapseSpace true s'
      else c :: collapseSpace false s'
  end.

Definition whitespaceRE_Collapse (s : gostring) : gostring :=
  collapseSpace false s.

(** [charsRE.FindAllStringIndex(s, -1)]: the [start, end) byte indices
    of the maximal runs of letters; [pos] is the index of the head of
    [s] and [run] the start of the run under way. *)
Fixpoint findLetterRuns (pos : Z) (run : option Z) (s : gostring)
    : list (Z * Z) :=
  match s with
  | [] => match run with Some b => [(b, pos)] | None => [] end
  | c :: s' =>
      if isLetter c then
        findLetterRuns (pos + 1)
          (Some (match run with Some b => b | None => pos end)) s'
      else
        match run with
        | Some b => (b, pos) :: findLetterRuns (pos + 1) None s'
        | None => findLetterRuns (pos + 1) None s'
        end
  end.

Definition charsRE_FindAllIndex (s : gostring) : list (Z * Z) :=
  findLetterRuns 0 None s.

(** Case folding of [(?i)] on one ASCII letter. *)
Definition foldsTo (l : ascii) (c : ascii) : bool :=
  byteIs (code l) c || byteIs (code l - 32) c.

(** One step of a case-insensitive class: a byte folding to one of
    [letters] or equal to one of [others]; when the class holds [s], also
    the two bytes of U+017F (long s), which folds to it. *)
Definition eatClass (letters others : list ascii) (s : gostring)
    : option gostring :=
  match s with
  | [] => None
  | c :: s1 =>
      if existsb (fun l => foldsTo l c) letters
         || existsb (fun o => byteIs (code o) c) others
      then Some s1
      else if existsb (fun l => byteIs 115 l) letters then
        match s1 with
        | c2 :: s2 => if byteIs 197 c && byteIs 191 c2 then Some s2 else None
        | [] => None
        end
      else None
  end.

Fixpoint eatClasses (cls : list (list ascii * list ascii)) (s : gostring)
    : bool :=
  match cls with
  | [] => true
  | (letters, others) :: cls' =>
      match eatClass letters others s with
      | Some s' => eatClasses cls' s'
      | None => false
      end
  end.

Definition lit (w : string) : list (list ascii * list ascii) :=
  map (fun c => ([c], [])) (str w).

(** The three alternatives of [licenseRE],
    [(?i)[li[cs]en[cs][ei]|copyright|(c)-sign]: the first class holds the
    five characters l, i, [, c and s. *)
Definition licenseRE_at (s : gostring) : bool :=
  eatClasses ((str "lics", str "[") :: lit "en"
              ++ [(str "cs", []); (str "ei", [])]) s
  || eatClasses (lit "copyright") s
  || match s with
     | c1 :: c2 :: _ => byteIs 194 c1 && byteIs 169 c2
     | _ => false
     end.

(** [licenseRE.MatchString]: a match starts at some position. *)
Fixpoint licenseRE_Match (s : gostring) : bool :=
  licenseRE_at s
  || match s with
     | [] => false
     | _ :: s' => licenseRE_Match s'
     end.

End Regexp.

(** ** UAST nodes *)

(** [uast.Position]: only the line is read here. *)
Record Position := { Line : Z }.

(** [uast.Node], reduced to the fields [mergeComments] reads; a nil
    position pointer is [None]. *)
Record Node := {
  Token : gostring;
  StartPosition : option Position;
  EndPosition : option Position
}.

(** The [for i, x := range l] loop: [body] receives the state, the index
    and the element. *)
Fixpoint rangeLoop {A St : Type} (body : St -> nat -> A -> St) (i : nat)
    (l : list A) (st : St) : St :=
  match l with
  | [] => st
  | x :: l' => rangeLoop body (S i) l' (body st i x)
  end.

(** The keys of a map, collected and passed to [sort.Ints]. *)
Definition sortedKeys {A : Type} (m : gmap Z A) : list Z :=
  merge_sort Z.le (map fst (map_to_list m)).

(** ** mergeComments *)

Module Merge.

(** First loop: the nodes bucketed by start line. *)
Definition addNode (lines : gmap Z (list Node)) (node : Node)
    : gmap Z (list Node) :=
  match StartPosition node with
  | None => lines
  | Some p =>
      let lineno := Line p in
      let subnodes := default [] (lines !! lineno) in
      <[lineno := subnodes ++ [node]]> lines
  end.

Definition bucketLines (nodes : list Node) : gmap Z (list Node) :=
  foldl addNode ∅ nodes.

(** The inner loop over the nodes of one line: [maxEnd] and [buffer]. *)
Definition nodeStep (st : Z * list gostring) (node : Node)
    : Z * list gostring :=
  let '(maxEnd, buffer) := st in
  let maxEnd :=
    match EndPosition node with
    | Some e => if maxEnd <? Line e then Line e else maxEnd
    | None => maxEnd
    end in
  let token := Strings.TrimSpace (Token node) in
  (maxEnd, if isEmpty token then buffer else buffer ++ [token]).

Record state := { buffer : list gostring; mergedComments : list gostring }.

Definition newline : gostring := [ascii_of_nat 10].

(** The body of the loop over [lineNums]. *)
Definition lineStep (lines : gmap Z (list Node)) (lineNums : list Z)
    (st : state) (i : nat) (line : Z) : state :=
  let lineNodes := default [] (lines !! line) in
  let '(maxEnd, buf) := foldl nodeStep (line, buffer st) lineNodes in
  if (Z.of_nat i <? Z.of_nat (length lineNums) - 1)
     && match lineNums !! S i with
        | Some next => next <=? maxEnd + 1
        | None => false
        end
  then {| buffer := buf; mergedComments := mergedComments st |}
  else {| buffer := [];
          mergedComments :=
            mergedComments st ++ [Strings.Join buf newline] |}.

(** The first half of [mergeComments]: the merged comments. *)
Definition mergePhase (nodes : list Node) : list gostring :=
  let lines := bucketLines nodes in
  let lineNums := sortedKeys lines in
  mergedComments
    (rangeLoop (lineStep lines lineNums) 0 lineNums
       {| buffer := []; mergedComments := [] |}).

(** [charsCount] of the letter-density step. *)
Definition charsCount (comment : gostring) : Z :=
  foldl (fun n m => n + (snd m - fst m)) 0
    (Regexp.charsRE_FindAllIndex comment).

Definition len (s : gostring) : Z := Z.of_nat (length s).

(** [int(float32(n) * CommentLettersRatio)]. *)
Definition thresholdOf (n : Z) : Z :=
  F32.to_int (F32.mul (F32.of_int n) F32.ratio06).

(** [int(float32(len(comment)) * CommentLettersRatio)]. *)
Definition lettersThreshold (comment : gostring) : Z :=
  thresholdOf (len comment).

(** The body of the second loop: [None] stands for [continue]. *)
Definition filterComment (MinCommentLength : Z) (comment : gostring)
    : option gostring :=
  let comment := Strings.TrimSpace comment in
  if isEmpty comment
     || Regexp.filteredFirstCharRE_Match (take 1 comment)
  then None
  else
    let comment := Regexp.functionNameRE_Delete comment in
    let comment := Regexp.filteredCharsRE_Delete comment in
    if len comment <? MinCommentLength then None
    else
      let comment := Regexp.whitespaceRE_Collapse comment in
      if charsCount comment <? lettersThreshold comment then None
      else if Regexp.licenseRE_Match comment then None
      else Some comment.

(** The second half of [mergeComments]: the noise filter. *)
Definition filterPhase (MinCommentLength : Z) (merged : list gostring)
    : list gostring :=
  omap (filterComment MinCommentLength) merged.

Definition mergeComments (MinCommentLength : Z) (nodes : list Node)
    : list gostring :=
  filterPhase MinCommentLength (mergePhase nodes).

End Merge.

Definition mkNode (tok : string) (startLine endLine : Z) : Node :=
  {| Token := str tok;
     StartPosition := Some {| Line := startLine |};
     EndPosition := Some {| Line := endLine |} |}.

(** ** The analysis state and its configuration *)

(** [plumbing.Hash]: the bytes of a commit hash. *)
Abbreviation Hash := (list ascii).

Record CommentSentimentAnalysis := {
  MinCommentLength : Z;
  Gap : F32.f32;
  commentsByDay : gmap Z (list gostring);
  commitsByDay : gmap Z (list Hash)
}.

Definition DefaultCommentSentimentCommentMinLength : Z := 20.
Definition DefaultCommentSentimentGap : F32.f32 := F32.half.

(** What [log.Printf] receives in [validate]: the rejected value and the
    default it is replaced with. *)
Inductive logEntry :=
| GapTooBig (gap dflt : F32.f32)
| MinLengthTooSmall (minLength dflt : Z).

Definition setGap (g : F32.f32) (sent : CommentSentimentAnalysis) :=
  {| MinCommentLength := MinCommentLength sent; Gap := g;
     commentsByDay := commentsByDay sent;
     commitsByDay := commitsByDay sent |}.

Definition setMinCommentLength (n : Z) (sent : CommentSentimentAnalysis) :=
  {| MinCommentLength := n; Gap := Gap sent;
     commentsByDay := commentsByDay sent;
     commitsByDay := commitsByDay sent |}.

Definition setCommentsByDay (m : gmap Z (list gostring))
    (sent : CommentSentimentAnalysis) :=
  {| MinCommentLength := MinCommentLength sent; Gap := Gap sent;
     commentsByDay := m; commitsByDay := commitsByDay sent |}.

(** The first [if] of [validate]: the state after it and what it logs. *)
Definition validateGap (sent : CommentSentimentAnalysis)
    : CommentSentimentAnalysis * list logEntry :=
  if F32.lt (Gap sent) F32.zero || F32.ge (Gap sent) F32.one
  then (setGap DefaultCommentSentimentGap sent,
        [GapTooBig (Gap sent) DefaultCommentSentimentGap])
  else (sent, []).

(** The second [if] of [validate]. *)
Definition validateMinLength (sent : CommentSentimentAnalysis)
    : CommentSentimentAnalysis * list logEntry :=
  if MinCommentLength sent <? 10
  then (setMinCommentLength DefaultCommentSentimentCommentMinLength sent,
        [MinLengthTooSmall (MinCommentLength sent)
           DefaultCommentSentimentCommentMinLength])
  else (sent, []).

(** [validate]: the state after it and the lines it logs. *)
Definition validate (sent : CommentSentimentAnalysis)
    : CommentSentimentAnalysis * list logEntry :=
  let '(sent, log1) := validateGap sent in
  let '(sent, log2) := validateMinLength sent in
  (sent, log1 ++ log2).

(** The entries of [facts] that [Configure] reads; an option that was
    not supplied is [None]. *)
Record Facts := {
  factGap : option F32.f32;
  factMinLength : option Z;
  factCommitsByDay : gmap Z (list Hash)
}.

(** [Configure]: the options supplied are stored, the configuration is
    checked, the commits per day are taken from the facts. *)
Definition Configure (sent : CommentSentimentAnalysis) (facts : Facts)
    : CommentSentimentAnalysis * list logEntry :=
  let sent := match factGap facts with
              | Some val => setGap val sent
              | None => sent
              end in
  let sent := match factMinLength facts with
              | Some val => setMinCommentLength val sent
              | None => sent
              end in
  let '(sent, log) := validate sent in
  ({| MinCommentLength := MinCommentLength sent; Gap := Gap sent;
      commentsByDay := commentsByDay sent;
      commitsByDay := factCommitsByDay facts |}, log).

(** [Initialize]: the comment cache is emptied, the configuration is
    checked again. *)
Definition Initialize (sent : CommentSentimentAnalysis)
    : CommentSentimentAnalysis * list logEntry :=
  validate (setCommentsByDay ∅ sent).

(** ** Consume *)

Section Consume.

(** [UASTChange] and [ChangesXPather.Extract] are declared in other
    files of the package; [Consume] is generic in them. *)
Variable UASTChange : Type.
Variable Extract : list UASTChange -> list Node.

(** The two entries of [deps] that [Consume] reads. *)
Record Deps := { uastChanges : list UASTChange; day : Z }.

(** [Consume]: the state after the call, the returned map and the
    returned error, both nil. *)
Definition Consume (sent : CommentSentimentAnalysis) (deps : Deps)
    : CommentSentimentAnalysis
      * (option (gmap string unit) * option string) :=
  let changes := uastChanges deps in
  let day := day deps in
  let commentNodes := Extract changes in
  let comments :=
    Merge.mergeComments (MinCommentLength sent) commentNodes in
  let dayComments := default [] (commentsByDay sent !! day) in
  let dayComments := dayComments ++ comments in
  (setCommentsByDay (<[day := dayComments]> (commentsByDay sent)) sent,
   (None, None)).

End Consume.

Arguments uastChanges {UASTChange} _.
Arguments day {UASTChange} _.
Arguments Consume {UASTChange} Extract sent deps.

(** ** Finalize *)

Record CommentSentimentResult := {
  EmotionsByDay : gmap Z F32.f32;
  CommentsByDay : gmap Z (list gostring);
  resultCommitsByDay : gmap Z (list Hash)
}.

(** The BiDiSentiment package as [Finalize] sees it: whether
    [OpenSession] succeeds, and what [EvaluateWithProgress] returns on a
    list of texts ([None] for an error). *)
Record Scorer := {
  OpenSession : bool;
  EvaluateWithProgress : list gostring -> option (list F32.f32)
}.

Inductive outcome (A : Type) :=
| Returned (a : A)
| Panicked.
Arguments Returned {A} a.
Arguments Panicked {A}.

Module Reduce.

(** The test of the deadzone:
    [w < 0.5*(1-Gap) || w > 0.5*(1+Gap)]. *)
Definition lower (gap : F32.f32) : F32.f32 :=
  F32.mul F32.half (F32.sub F32.one gap).
Definition upper (gap : F32.f32) : F32.f32 :=
  F32.mul F32.half (F32.add F32.one gap).
Definition kept (gap w : F32.f32) : bool :=
  F32.lt w (lower gap) || F32.gt w (upper gap).

(** The loop over one day's comments: the position in [weights], the
    running sum and the kept comments; [None] when [weights[pos]] is out
    of range. *)
Definition commentStep (gap : F32.f32) (weights : list F32.f32)
    (st : option (nat * F32.f32 * list gostring)) (comment : gostring)
    : option (nat * F32.f32 * list gostring) :=
  match st with
  | None => None
  | Some (pos, sum, comments) =>
      match weights !! pos with
      | None => None
      | Some w =>
          if kept gap w
          then Some (S pos, F32.add sum w, comments ++ [comment])
          else Some (S pos, sum, comments)
      end
  end.

Definition putDay (key : Z) (sum : F32.f32) (comments : list gostring)
    (result : CommentSentimentResult) : CommentSentimentResult :=
  {| EmotionsByDay :=
       <[key := F32.div sum (F32.of_int (Z.of_nat (length comments)))]>
         (EmotionsByDay result);
     CommentsByDay := <[key := comments]> (CommentsByDay result);
     resultCommitsByDay := resultCommitsByDay result |}.

(** The loop over the days. *)
Definition dayStep (sent : CommentSentimentAnalysis)
    (weights : list F32.f32)
    (st : option (nat * CommentSentimentResult)) (key : Z)
    : option (nat * CommentSentimentResult) :=
  match st with
  | None => None
  | Some (pos, result) =>
      match foldl (commentStep (Gap sent) weights)
              (Some (pos, F32.zero, []))
              (default [] (commentsByDay sent !! key)) with
      | None => None
      | Some (pos', sum, comments) =>
          Some (pos',
                if 0 <? Z.of_nat (length comments)
                then putDay key sum comments result
                else result)
      end
  end.

End Reduce.

(** The flat list handed to the scorer. *)
Definition flatTexts (sent : CommentSentimentAnalysis) (days : list Z)
    : list gostring :=
  foldl (fun texts key => texts ++ default [] (commentsByDay sent !! key))
    [] days.

(** [Finalize]: the arguments of the successive calls of
    [EvaluateWithProgress], and the result unless the function panics. *)
Definition Finalize (sent : CommentSentimentAnalysis) (scorer : Scorer)
    : list (list gostring) * outcome CommentSentimentResult :=
  let result := {| EmotionsByDay := ∅; CommentsByDay := ∅;
                   resultCommitsByDay := commitsByDay sent |} in
  let days := sortedKeys (commentsByDay sent) in
  let texts := flatTexts sent days in
  if negb (OpenSession scorer) then ([], Panicked)
  else
    match EvaluateWithProgress scorer texts with
    | None => ([texts], Panicked)
    | Some weights =>
        ([texts],
         match foldl (Reduce.dayStep sent weights) (Some (O, result)) days with
         | Some (_, result) => Returned result
         | None => Panicked
         end)
    end.

(** ** The text serializer *)

Module Fmt.

Definition quote : ascii := ascii_of_nat 34.
Definition digit (n : Z) : ascii := ascii_of_N (Z.to_N (48 + n)).

(** [%d] of an int. *)
Definition formatInt (n : Z) : gostring :=
  str (DecimalString.NilZero.string_of_int (Z.to_int n)).

(** The integer nearest to [m * 2^e], ties to the even one. *)
Definition roundHalfEven (m e : Z) : Z :=
  if 0 <=? e then m * 2 ^ e
  else
    let d := 2 ^ (- e) in
    let q := m / d in
    match 2 * (m mod d) ?= d with
    | Lt => q
    | Gt => q + 1
    | Eq => if Z.even q then q else q + 1
    end.

Definition sign (s : bool) : gostring := if s then str "-" else [].

(** [%.4f] of a float32: the exact value rounded to four decimals. *)
Definition formatFloat4 (x : F32.f32) : gostring :=
  match x with
  | S754_nan => str "NaN"
  | S754_infinity s => if s then str "-Inf" else str "+Inf"
  | S754_zero s => sign s ++ str "0.0000"
  | S754_finite s m e =>
      let n := roundHalfEven (Zpos m * 10000) e in
      let f := n mod 10000 in
      sign s ++ formatInt (n / 10000) ++ str "."
      ++ [digit (f / 1000); digit (f / 100 mod 10);
          digit (f / 10 mod 10); digit (f mod 10)]
  end.

Inductive arg :=
| Int (n : Z)
| Float32 (x : F32.f32)
| String (s : gostring).

(** What fmt prints for a verb without a fitting operand. *)
Definition bad : gostring := str "%!".

(** [fmt.Sprintf] for the verbs [%d], [%.4f] and [%s]. *)
Fixpoint Sprintf (format : gostring) (args : list arg) : gostring :=
  match format with
  | [] => []
  | c :: f1 =>
      if negb (byteIs 37 c) then c :: Sprintf f1 args
      else
        match f1 with
        | [] => bad
        | v :: f2 =>
            if byteIs 100 v then
              match args with
              | Int n :: args' => formatInt n ++ Sprintf f2 args'
              | _ :: args' => bad ++ Sprintf f2 args'
              | [] => bad ++ Sprintf f2 []
              end
            else if byteIs 115 v then
              match args with
              | String s :: args' => s ++ Sprintf f2 args'
              | _ :: args' => bad ++ Sprintf f2 args'
              | [] => bad ++ Sprintf f2 []
              end
            else
              match f2 with
              | p :: v' :: f4 =>
                  if byteIs 46 v && byteIs 52 p && byteIs 102 v' then
                    match args with
                    | Float32 x :: args' =>
                        formatFloat4 x ++ Sprintf f4 args'
                    | _ :: args' => bad ++ Sprintf f4 args'
                    | [] => bad ++ Sprintf f4 []
                    end
                  else bad ++ Sprintf f2 args
              | _ => bad ++ Sprintf f2 args
              end
        end
  end.

Definition hexDigit (n : Z) : ascii :=
  if n <? 10 then digit n else ascii_of_N (Z.to_N (87 + n)).

(** [Hash.String]: two lower-case hexadecimal digits a byte. *)
Definition hashString (h : Hash) : gostring :=
  flat_map (fun b => [hexDigit (code b / 16); hexDigit (code b mod 16)]) h.

End Fmt.

(** The format of a line: two spaces, [%d], a colon, the bracketed
    [%.4f] score, hashes and quoted comments, a newline. *)
Definition lineFormat : gostring :=
  str "  %d: [%.4f, [%s], " ++ [Fmt.quote] ++ str "%s" ++ [Fmt.quote]
  ++ str "]" ++ Merge.newline.

(** The body of the loop of [serializeText]: what is written for [day]. *)
Definition writeDay (result : CommentSentimentResult) (writer : gostring)
    (day : Z) : gostring :=
  let commits := default [] (resultCommitsByDay result !! day) in
  let hashes := map Fmt.hashString commits in
  writer
  ++ Fmt.Sprintf lineFormat
       [Fmt.Int day;
        Fmt.Float32 (default F32.zero (EmotionsByDay result !! day));
        Fmt.String (Strings.Join hashes (str ","));
        Fmt.String
          (Strings.Join (default [] (CommentsByDay result !! day))
             (str "|"))].

(** [serializeText]: the bytes written. *)
Definition serializeText (result : CommentSentimentResult) : gostring :=
  let days := sortedKeys (EmotionsByDay result) in
  foldl (writeDay result) [] days.

(** ** The published configuration options *)

Definition ConfigCommentSentimentMinLength : gostring :=
  str "CommentSentiment.MinLength".
Definition ConfigCommentSentimentGap : gostring :=
  str "CommentSentiment.Gap".

(** [ConfigurationOption] is declared in another file of the package;
    these are the fields [ListConfigurationOptions] fills in, the default
    being an [interface{}] that holds an int or a float32. *)
Inductive ConfigurationOptionType :=
| IntConfigurationOption
| FloatConfigurationOption.

Inductive optionValue :=
| IntValue (n : Z)
| Float32Value (x : F32.f32).

Record ConfigurationOption := {
  optionName : gostring;
  optionDescription : gostring;
  optionFlag : gostring;
  optionType : ConfigurationOptionType;
  optionDefault : optionValue
}.

Definition ListConfigurationOptions : list ConfigurationOption :=
  [ {| optionName := ConfigCommentSentimentMinLength;
       optionDescription :=
         str "Minimum length of the comment to be analyzed.";
       optionFlag := str "min-comment-len";
       optionType := IntConfigurationOption;
       optionDefault := IntValue DefaultCommentSentimentCommentMinLength |};
    {| optionName := ConfigCommentSentimentGap;
       optionDescription :=
         str "Sentiment value threshold, values between 0.5 - X/2 and 0.5 + x/2 will not be "
         ++ str "considered. Must be >= 0 and < 1. The purpose is to exclude neutral comments.";
       optionFlag := str "sentiment-gap";
       optionType := FloatConfigurationOption;
       optionDefault := Float32Value DefaultCommentSentimentGap |} ].

(** ** Serialize and the binary serializer *)

(** [pb.Sentiment], the value type of the message's map. *)
Record Sentiment := {
  Value : F32.f32;
  Comments : list gostring;
  Commits : list gostring
}.

(** The conversion [int32(key)] of an int: the low 32 bits, signed. *)
Definition int32 (n : Z) : Z := (n + 2 ^ 31) mod 2 ^ 32 - 2 ^ 31.

(** The body of the loop of [serializeBinary] for the entry
    [(key, val)] of [EmotionsByDay]. *)
Definition messageStep (result : CommentSentimentResult)
    (message : gmap Z Sentiment) (entry : Z * F32.f32) : gmap Z Sentiment :=
  let '(key, val) := entry in
  let commits :=
    map Fmt.hashString (default [] (resultCommitsByDay result !! key)) in
  <[int32 key :=
      {| Value := val;
         Comments := default [] (CommentsByDay result !! key);
         Commits := commits |}]> message.

Section Serialize.

(** An [io.Writer]: its state, and what [Write] makes of it, with the
    error it returns if any. *)
Variable Writer : Type.
Variable WriteError : Type.
Variable Write : Writer -> gostring -> Writer * option WriteError.

(** [proto.Marshal] on the message: the bytes or an error. *)
Variable MarshalError : Type.
Variable Marshal : gmap Z Sentiment -> gostring + MarshalError.

(** The order in which [range] yields the entries of a map, which Go
    leaves unspecified. *)
Variable mapRange : gmap Z F32.f32 -> list (Z * F32.f32).

(** [serializeBinary]: the writer after the call and the returned
    error; what [writer.Write] returns is dropped. *)
Definition serializeBinary (result : CommentSentimentResult)
    (writer : Writer) : Writer * option MarshalError :=
  let message :=
    foldl (messageStep result) ∅ (mapRange (EmotionsByDay result)) in
  match Marshal message with
  | inr err => (writer, Some err)
  | inl serialized => (fst (Write writer serialized), None)
  end.

(** [serializeText] on any writer: [fmt.Fprintf] formats the line and
    hands it to [Write] in one call, and what it returns is dropped. *)
Definition serializeTextTo (result : CommentSentimentResult)
    (writer : Writer) : Writer :=
  let days := sortedKeys (EmotionsByDay result) in
  foldl (fun w day => fst (Write w (writeDay result [] day))) writer days.

(** [Serialize]. *)
Definition Serialize (result : CommentSentimentResult) (binary : bool)
    (writer : Writer) : Writer * option MarshalError :=
  if binary then serializeBinary result writer
  else (serializeTextTo result writer, None).

End Serialize.

Arguments serializeBinary {Writer WriteError} Write {MarshalError}
  Marshal mapRange result writer.
Arguments serializeTextTo {Writer WriteError} Write result writer.
Arguments Serialize {Writer WriteError} Write {MarshalError}
  Marshal mapRange result binary writer.

(** * The vocabulary of the properties *)

(** The stages a comment goes through before the letter-density and
    license checks. *)
Definition stripped (c : gostring) : gostring :=
  Regexp.filteredCharsRE_Delete
    (Regexp.functionNameRE_Delete (Strings.TrimSpace c)).

(** The number of letter bytes of [s]. *)
Definition countLetters (s : gostring) : Z :=
  Z.of_nat (length (List.filter Regexp.isLetter s)).

(** The invariant C2 states for a filtered comment: long enough, at
    least 60% letters, no license match, an alphanumeric first byte. *)
Definition FilteredComment (minLen : Z) (s : gostring) : Prop :=
  minLen <= Merge.len s
  /\ 3 * Merge.len s <= 5 * countLetters s
  /\ Regexp.licenseRE_Match s = false
  /\ exists a rest, s = a :: rest /\ Regexp.isAlnum a = true.

(** The comments of a day, nil when the day has none. *)
Definition dayComments (sent : CommentSentimentAnalysis) (d : Z)
    : list gostring :=
  default [] (commentsByDay sent !! d).

(** The scores of the [n] comments that start at position [pos] of the
    flat list. *)
Definition scoresAt (weights : list F32.f32) (pos n : nat)
    : list F32.f32 :=
  take n (drop pos weights).

(** The (comment, score) pairs outside the deadzone, in their order. *)
Definition keptPairs (gap : F32.f32) (cs : list gostring)
    (ws : list F32.f32) : list (gostring * F32.f32) :=
  List.filter (fun p => Reduce.kept gap (snd p)) (zip cs ws).

(** The mean as [Finalize] computes it: the float32 sum from the left,
    divided by the count converted to float32. *)
Definition mean (ws : list F32.f32) : F32.f32 :=
  F32.div (foldl F32.add F32.zero ws) (F32.of_int (Z.of_nat (length ws))).

(** The position in the flat list where the comments of day [d] start,
    when the days are enumerated as [ds]. *)
Fixpoint offsetOf (sent : CommentSentimentAnalysis) (ds : list Z) (d : Z)
    : nat :=
  match ds with
  | [] => O
  | k :: ds' =>
      if k =? d then O
      else (length (dayComments sent k) + offsetOf sent ds' d)%nat
  end.

Definition totalComments (sent : CommentSentimentAnalysis) (ds : list Z)
    : nat :=
  length (concat (map (dayComments sent) ds)).

(** The pairs of day [d] that survive, its comments starting at [off]. *)
Definition keptOfDay (sent : CommentSentimentAnalysis)
    (weights : list F32.f32) (off : nat) (d : Z)
    : list (gostring * F32.f32) :=
  keptPairs (Gap sent) (dayComments sent d)
    (scoresAt weights off (length (dayComments sent d))).

(** The position of the first comment of day [d] in the flat list. *)
Definition dayOffset (sent : CommentSentimentAnalysis) (d : Z) : nat :=
  offsetOf sent (sortedKeys (commentsByDay sent)) d.

(** A state for the examples: day 5 holds three comments, day 7 one. *)
Definition exampleState (gap : F32.f32) : CommentSentimentAnalysis :=
  {| MinCommentLength := 20; Gap := gap;
     commentsByDay :=
       <[7 := [str "later"]]>
         (<[5 := [str "bad"; str "so so"; str "good"]]> ∅);
     commitsByDay := ∅ |}.

Definition tenth (n : Z) : F32.f32 := F32.div (F32.of_int n) (F32.of_int 10).

(** A scorer that answers 0.1, 0.6, 0.9 and 0.5 whatever it is asked. *)
Definition exampleWeights : list F32.f32 :=
  [tenth 1; tenth 6; tenth 9; F32.half].

Definition exampleScorer : Scorer :=
  {| OpenSession := true;
     EvaluateWithProgress := fun _ => Some exampleWeights |}.

(** What C3 states of a result [r]: each accumulated day is reduced from
    the pairs of its comments with the scores at its positions. *)
Definition dayReduced (sent : CommentSentimentAnalysis)
    (weights : list F32.f32) (r : CommentSentimentResult) : Prop :=
  forall d cs,
    commentsByDay sent !! d = Some cs ->
    let kept := keptPairs (Gap sent) cs
                  (scoresAt weights (dayOffset sent d) (length cs)) in
    map fst kept `sublist_of` cs
    /\ (kept = [] ->
        EmotionsByDay r !! d = None /\ CommentsByDay r !! d = None)
    /\ (kept <> [] ->
        EmotionsByDay r !! d = Some (mean (map snd kept))
        /\ CommentsByDay r !! d = Some (map fst kept)).

Definition allTexts (sent : CommentSentimentAnalysis) : list gostring :=
  concat (map (dayComments sent) (sortedKeys (commentsByDay sent))).

(** What C7 states of a result [r]: day [d] is decided by pairing its
    [j]-th comment with the score at position [dayOffset d + j]. *)
Definition scoredByPosition (sent : CommentSentimentAnalysis)
    (weights : list F32.f32) (r : CommentSentimentResult) : Prop :=
  forall d cs,
    commentsByDay sent !! d = Some cs ->
    let ws := scoresAt weights (dayOffset sent d) (length cs) in
    let kept := keptPairs (Gap sent) cs ws in
    (forall j c, cs !! j = Some c ->
       allTexts sent !! (dayOffset sent d + j)%nat = Some c
       /\ ws !! j = weights !! (dayOffset sent d + j)%nat)
    /\ EmotionsByDay r !! d
       = (if decide (kept = []) then None else Some (mean (map snd kept)))
    /\ CommentsByDay r !! d
       = (if decide (kept = []) then None else Some (map fst kept)).

Definition isGapWarning (e : logEntry) : bool :=
  match e with GapTooBig _ _ => true | MinLengthTooSmall _ _ => false end.

(** The line of day [d], as the spec words it. *)
Definition lineOf (result : CommentSentimentResult) (d : Z) : gostring :=
  str "  " ++ Fmt.formatInt d ++ str ": ["
  ++ Fmt.formatFloat4 (default F32.zero (EmotionsByDay result !! d))
  ++ str ", ["
  ++ Strings.Join
       (map Fmt.hashString (default [] (resultCommitsByDay result !! d)))
       (str ",")
  ++ str "], " ++ [Fmt.quote]
  ++ Strings.Join (default [] (CommentsByDay result !! d)) (str "|")
  ++ [Fmt.quote] ++ str "]" ++ Merge.newline.

Definition startsAt (l : Z) (n : Node) : bool :=
  match StartPosition n with
  | Some p => Line p =? l
  | None => false
  end.

(** The nodes that start on line [l], in their order. *)
Definition nodesAt (nodes : list Node) (l : Z) : list Node :=
  List.filter (startsAt l) nodes.

(** The largest of [line] and the end lines of [ns]. *)
Definition maxEndOf (line : Z) (ns : list Node) : Z :=
  foldl (fun m n => match EndPosition n with
                    | Some e => Z.max m (Line e)
                    | None => m
                    end) line ns.

(** The trimmed tokens of [ns] that are not empty. *)
Definition tokensOf (ns : list Node) : list gostring :=
  List.filter (fun t => negb (isEmpty t))
    (map (fun n => Strings.TrimSpace (Token n)) ns).

(** The merger as the spec words it: walking the ascending lines, a run
    goes on to the next line when that line is at most [maxEnd + 1]; when
    it breaks, the tokens gathered in [cur] are joined by newlines. *)
Fixpoint runs (nodes : list Node) (lineNums : list Z) (cur : list gostring)
    : list gostring :=
  match lineNums with
  | [] => []
  | line :: rest =>
      let ns := nodesAt nodes line in
      let cur' := cur ++ tokensOf ns in
      match rest with
      | next :: _ =>
          if next <=? maxEndOf line ns + 1
          then runs nodes rest cur'
          else Strings.Join cur' Merge.newline :: runs nodes rest []
      | [] => [Strings.Join cur' Merge.newline]
      end
  end.

(** A binary32 number in normal form: 24 significant bits. *)
Definition normal (m : positive) : Prop := 2 ^ 23 <= Zpos m < 2 ^ 24.

(** A gap of the valid domain: a binary32 number with [0 <= gap < 1]. *)
Definition validGap (gap : F32.f32) : Prop :=
  valid_binary 24 128 gap = true
  /\ F32.ge gap F32.zero = true
  /\ F32.lt gap F32.one = true.

Definition strictlyInside (gap w : F32.f32) : Prop :=
  F32.lt (Reduce.lower gap) w = true /\ F32.lt w (Reduce.upper gap) = true.

Definition onBoundary (gap w : F32.f32) : Prop :=
  SFeqb w (Reduce.lower gap) = true \/ SFeqb w (Reduce.upper gap) = true.

(** C1 as it is stated: inside the open interval a pair is dropped, on
    either boundary it is kept. *)
Definition deadzoneClaim : Prop :=
  forall gap w,
    validGap gap ->
    (strictlyInside gap w -> Reduce.kept gap w = false)
    /\ (onBoundary gap w -> Reduce.kept gap w = true).

Definition quarter : F32.f32 := F32.div (F32.of_int 1) (F32.of_int 4).

(** [thresholdOf] is the integer part of 60% on the [k] lengths from
    [n] on. *)
Fixpoint thresholdIsFloor (n : Z) (k : nat) : bool :=
  match k with
  | O => true
  | S k' =>
      (Merge.thresholdOf n =? 3 * n / 5) && thresholdIsFloor (n + 1) k'
  end.

(** A configuration that [validate] lets through: a minimum length of at
    least 10, and a gap that is a NaN or lies in [0, 1). *)
Definition validated (sent : CommentSentimentAnalysis) : Prop :=
  10 <= MinCommentLength sent
  /\ (F32.is_nan (Gap sent) = true
      \/ (F32.ge (Gap sent) F32.zero = true
          /\ F32.lt (Gap sent) F32.one = true)).

(** [Consume] run over the commits of a history, in their order. *)
Definition consumeAll {UASTChange : Type}
    (Extract : list UASTChange -> list Node)
    (sent : CommentSentimentAnalysis) (commits : list (Deps UASTChange))
    : CommentSentimentAnalysis :=
  foldl (fun s deps => fst (Consume Extract s deps)) sent commits.

(** The comments [Consume] extracts from one commit. *)
Definition commitComments {UASTChange : Type}
    (Extract : list UASTChange -> list Node) (minLen : Z)
    (deps : Deps UASTChange) : list gostring :=
  Merge.mergeComments minLen (Extract (uastChanges deps)).

(** The commits of day [d], in their order. *)
Definition commitsOfDay {UASTChange : Type} (d : Z)
    (commits : list (Deps UASTChange)) : list (Deps UASTChange) :=
  List.filter (fun deps => day deps =? d) commits.

(** A scorer that answers with two scores more than [exampleScorer]. *)
Definition verboseScorer : Scorer :=
  {| OpenSession := true;
     EvaluateWithProgress :=
       fun _ => Some (exampleWeights ++ [F32.zero; F32.one]) |}.

(** A state whose days hold no comment. *)
Definition idleState : CommentSentimentAnalysis :=
  {| MinCommentLength := 20; Gap := F32.half;
     commentsByDay := <[3 := []]> ∅; commitsByDay := ∅ |}.

(** A history of two commits, of days 4 and 2, whose changes are the
    comment nodes themselves. *)
Definition exampleHistory : list (Deps Node) :=
  [ {| uastChanges := [mkNode "the parser accepts nested lists now" 1 1];
       day := 4 |};
    {| uastChanges := [mkNode "this loop is slow and ugly, sorry" 7 7;
                       mkNode "x()" 9 9];
       day := 2 |} ].

(** A node with a start position. *)
Definition hasStart (n : Node) : bool :=
  match StartPosition n with Some _ => true | None => false end.

(** [maxEnd] after the inner loop on a line that holds the one node [n]. *)
Definition maxEndOfNode (line : Z) (n : Node) : Z :=
  match EndPosition n with
  | Some e => Z.max line (Line e)
  | None => line
  end.

(** The bytes a filtered comment can hold: those [filteredCharsRE]
    leaves in place, the newline and the tab apart, which the collapse of
    white space turns into spaces. *)
Definition isOutputByte (c : ascii) : bool :=
  Regexp.isAllowed c && (negb (Regexp.isSpace c) || byteIs 32 c).

(** No two spaces in a row. *)
Fixpoint singleSpaced (s : gostring) : bool :=
  match s with
  | c1 :: s' =>
      match s' with
      | c2 :: _ => negb (byteIs 32 c1 && byteIs 32 c2) && singleSpaced s'
      | [] => true
      end
  | [] => true
  end.


(** The comment after the deletions and the collapse of white space. *)
Definition cleaned (c : gostring) : gostring :=
  Regexp.whitespaceRE_Collapse (stripped c).


(** The value [serializeBinary] stores for day [key] with score [val]. *)
Definition sentimentOf (result : CommentSentimentResult) (key : Z)
    (val : F32.f32) : Sentiment :=
  {| Value := val;
     Comments := default [] (CommentsByDay result !! key);
     Commits :=
       map Fmt.hashString (default [] (resultCommitsByDay result !! key)) |}.

(** The message with one entry for every day of the result. *)
Definition messageOf (result : CommentSentimentResult) : gmap Z Sentiment :=
  map_imap (fun key val => Some (sentimentOf result key val))
    (EmotionsByDay result).

Definition inInt32 (n : Z) : Prop := - 2 ^ 31 <= n < 2 ^ 31.

(** A writer that keeps the bytes it is given and never fails. *)
Definition bufferWrite (w : gostring) (b : gostring)
    : gostring * option unit :=
  (w ++ b, None).

(** A writer that fails on every call and keeps the count of the calls. *)
Definition failingWrite (w : nat) (b : gostring) : nat * option unit :=
  (S w, Some tt).

(** A stand-in for [proto.Marshal] in the examples: it fails on the
    empty message and answers with one byte a day otherwise. *)
Definition exampleMarshal (m : gmap Z Sentiment) : gostring + unit :=
  if decide (m = ∅) then inr tt
  else inl (map (fun _ => "d"%char) (map_to_list m)).

Definition exampleResult : CommentSentimentResult :=
  {| EmotionsByDay := <[12 := tenth 9]> (<[5 := F32.half]> ∅);
     CommentsByDay :=
       <[12 := [str "nice"]]> (<[5 := [str "bad"; str "good"]]> ∅);
     resultCommitsByDay :=
       <[5 := [[ascii_of_nat 171; ascii_of_nat 5]; [ascii_of_nat 255]]]> ∅ |}.

(** The number of newline bytes of [s]. *)
Definition countNewlines (s : gostring) : nat :=
  length (List.filter (byteIs 10) s).

(** The default published for the option [name], if there is one. *)
Definition defaultOf (name : gostring) : option optionValue :=
  optionDefault
    <$> List.find (fun o => bool_decide (optionName o = name))
          ListConfigurationOptions.

(** The facts of a run that sets no option: every option holds its
    published default. *)
Definition defaultFacts (commits : gmap Z (list Hash)) : Facts :=
  {| factGap :=
       match defaultOf ConfigCommentSentimentGap with
       | Some (Float32Value x) => Some x
       | _ => None
       end;
     factMinLength :=
       match defaultOf ConfigCommentSentimentMinLength with
       | Some (IntValue n) => Some n
       | _ => None
       end;
     factCommitsByDay := commits |}.

(** The type an option declares is the type of its default. *)
Definition wellTyped (o : ConfigurationOption) : bool :=
  match optionType o, optionDefault o with
  | IntConfigurationOption, IntValue _ => true
  | FloatConfigurationOption, Float32Value _ => true
  | _, _ => false
  end.

(** * Properties *)

(** ** Examples of the embedding *)

Example f32_half_bits : F32.half = S754_finite false 8388608 (-24).
Proof. reflexivity. Qed.

Example f32_ratio06_bits : F32.ratio06 = S754_finite false 10066330 (-24).
Proof. reflexivity. Qed.

Example f32_to_int_21 : F32.to_int (F32.mul (F32.of_int 21) F32.ratio06) = 12.
Proof. reflexivity. Qed.

Example trim_example :
  Strings.TrimSpace (str "  a b  ") = str "a b".
Proof. reflexivity. Qed.

Example function_name_example :
  Regexp.functionNameRE_Delete (str "see foo() and bar_1()!") = str "see and!".
Proof. reflexivity. Qed.

Example license_example :
  Regexp.licenseRE_Match (str "makes no SENSE") = true
  /\ Regexp.licenseRE_Match (str "a licence") = true
  /\ Regexp.licenseRE_Match (str "CopyRight 2018") = true
  /\ Regexp.licenseRE_Match (str "plain words") = false.
Proof. repeat split; reflexivity. Qed.

Example letter_runs_example :
  Regexp.charsRE_FindAllIndex (str "ab 1cd") = [(0, 2); (4, 6)].
Proof. reflexivity. Qed.

Example merge_two_blocks :
  Merge.mergePhase
    [mkNode "// c" 20 20; mkNode "// a" 10 10; mkNode " // b " 11 11]
  = [str "// a" ++ Merge.newline ++ str "// b"; str "// c"].
Proof. vm_compute. reflexivity. Qed.

Example filter_keeps_prose :
  Merge.filterComment 20 (str "  this is   a plain comment about foo() ")
  = Some (str "this is a plain comment about").
Proof. vm_compute. reflexivity. Qed.

Example format_examples :
  Fmt.formatFloat4 F32.half = str "0.5000"
  /\ Fmt.formatFloat4 F32.ratio06 = str "0.6000"
  /\ Fmt.formatFloat4 (F32.div (F32.of_int (-1)) (F32.of_int 32)) = str "-0.0312"
  /\ Fmt.formatFloat4 (F32.of_int 12) = str "12.0000"
  /\ Fmt.formatInt (-17) = str "-17"
  /\ Fmt.hashString [ascii_of_nat 171; ascii_of_nat 5] = str "ab05".
Proof. repeat split; vm_compute; reflexivity. Qed.

Example license_header_is_dropped :
  Merge.filterComment 20 (str "# Licensed under the Apache License 2.0")
  = None
  /\ Merge.filterComment 20 (str "Licensed under the Apache License 2.0")
     = None.
Proof. split; vm_compute; reflexivity. Qed.

Example short_minimum_is_reset :
  validate {| MinCommentLength := 5; Gap := F32.half;
              commentsByDay := ∅; commitsByDay := ∅ |}
  = ({| MinCommentLength := 20; Gap := F32.half;
        commentsByDay := ∅; commitsByDay := ∅ |},
     [MinLengthTooSmall 5 20]).
Proof. reflexivity. Qed.

(** ** The noise filter *)

Section FilterLemmas.

Import Strings Regexp.

Lemma trimFront_length sp2 sp3 (s : gostring) :
  (length (trimFront sp2 sp3 s) <= length s)%nat.
Proof.
  remember (length s) as n eqn:Hn.
  assert (Hle : (length s <= n)%nat) by lia. clear Hn.
  revert s Hle. induction n as [|n IH]; intros s Hle.
  - destruct s; simpl in *; lia.
  - destruct s as [|c1 s1]; simpl in *; [lia|].
    destruct (space1 c1).
    { etransitivity; [apply IH; lia|lia]. }
    destruct s1 as [|c2 s2]; simpl in *; [lia|].
    destruct (sp2 c1 c2).
    { etransitivity; [apply IH; lia|lia]. }
    destruct s2 as [|c3 s3]; simpl in *; [lia|].
    destruct (sp3 c1 c2 c3); simpl; [|lia].
    etransitivity; [apply IH; lia|lia].
Qed.

Lemma TrimSpace_length (s : gostring) :
  (length (TrimSpace s) <= length s)%nat.
Proof.
  unfold TrimSpace, TrimRight, TrimLeft.
  rewrite length_rev.
  etransitivity; [apply trimFront_length|].
  rewrite length_rev. apply trimFront_length.
Qed.

Lemma deleteFunctionNames_length skip (s : gostring) :
  (length (deleteFunctionNames skip s) <= length s)%nat.
Proof.
  revert skip. induction s as [|c s IH]; intros skip; simpl; [lia|].
  destruct skip as [|k].
  - destruct (functionNameRE_at (c :: s)) as [[|k]|]; simpl;
      try (specialize (IH 0%nat); lia).
    specialize (IH k); lia.
  - specialize (IH k); lia.
Qed.

Lemma filteredCharsRE_Delete_length (s : gostring) :
  (length (filteredCharsRE_Delete s) <= length s)%nat.
Proof. apply List.filter_length_le. Qed.

Lemma collapseSpace_length inRun (s : gostring) :
  (length (collapseSpace inRun s) <= length s)%nat.
Proof.
  revert inRun. induction s as [|c s IH]; intros inRun; simpl; [lia|].
  destruct (isSpace c); [destruct inRun|]; simpl;
    try (specialize (IH true); lia).
  specialize (IH false); lia.
Qed.

Lemma stripped_length (c : gostring) :
  (length (stripped c) <= length c)%nat.
Proof.
  unfold stripped, functionNameRE_Delete.
  etransitivity; [apply filteredCharsRE_Delete_length|].
  etransitivity; [apply deleteFunctionNames_length|].
  apply TrimSpace_length.
Qed.

(** What [filterComment] has checked when it keeps a comment. *)
Lemma filterComment_Some minLen (c out : gostring) :
  Merge.filterComment minLen c = Some out ->
  out = whitespaceRE_Collapse (stripped c)
  /\ (exists a rest, TrimSpace c = a :: rest /\ isAlnum a = true)
  /\ minLen <= Merge.len (stripped c)
  /\ Merge.lettersThreshold out <= Merge.charsCount out
  /\ licenseRE_Match out = false.
Proof.
  unfold Merge.filterComment. fold (stripped c).
  destruct (TrimSpace c) as [|a rest] eqn:Ht; simpl; [discriminate|].
  destruct (isAlnum a) eqn:Ha; simpl; [|discriminate].
  destruct (Merge.len (stripped c) <? minLen) eqn:Hl; [discriminate|].
  destruct (Merge.charsCount _ <? Merge.lettersThreshold _) eqn:Hc;
    [discriminate|].
  destruct (licenseRE_Match _) eqn:Hlic; [discriminate|].
  intros [= <-]. repeat split; eauto; lia.
Qed.

Lemma filterPhase_elem minLen (merged : list gostring) (out : gostring) :
  out ∈ Merge.filterPhase minLen merged ->
  exists c, c ∈ merged /\ Merge.filterComment minLen c = Some out.
Proof.
  unfold Merge.filterPhase. rewrite list_elem_of_omap.
  intros (c & Hc & Hf). eauto.
Qed.

End FilterLemmas.

(** C8. Every string the noise filter outputs comes from one of the merged
    comments it was given and is no longer than that comment: trimming,
    deleting matches and collapsing white space never add a byte. *)
Theorem noise_filter_never_lengthens minLen (merged : list gostring)
    (out : gostring) :
  out ∈ Merge.filterPhase minLen merged ->
  exists c, c ∈ merged
    /\ Merge.filterComment minLen c = Some out
    /\ (length out <= length c)%nat.
Proof.
  intros Hin. destruct (filterPhase_elem _ _ _ Hin) as (c & Hc & Hf).
  exists c. repeat split; trivial.
  destruct (filterComment_Some _ _ _ Hf) as (-> & _).
  etransitivity; [apply collapseSpace_length|apply stripped_length].
Qed.

Lemma noise_filter_never_lengthens_witness :
  let merged := [str "  this is   a plain comment about foo() "] in
  let out := str "this is a plain comment about" in
  out ∈ Merge.filterPhase 20 merged
  /\ exists c, c ∈ merged
       /\ Merge.filterComment 20 c = Some out
       /\ (length out <= length c)%nat.
Proof.
  assert (H : str "this is a plain comment about"
              ∈ Merge.filterPhase 20
                  [str "  this is   a plain comment about foo() "]).
  { vm_compute. left. }
  split; [exact H|].
  exact (noise_filter_never_lengthens 20 _ _ H).
Defined.

(** C2, as stated, fails: the length is checked before the white space
    is collapsed, the first byte is checked before a leading call such as
    [foo()] is deleted, and the letter count is compared with a truncated
    threshold. *)
Lemma filtered_comment_invariant_fails :
  (exists out,
      out ∈ Merge.filterPhase 20 [str "abcdefghij          k"]
      /\ Merge.len out < 20 /\ ~ FilteredComment 20 out)
  /\ (exists out,
      out ∈ Merge.filterPhase 20 [str "foo() does something useful here ok"]
      /\ out !! 0%nat = Some " "%char /\ ~ FilteredComment 20 out)
  /\ (exists out,
      out ∈ Merge.filterPhase 20 [str "abcdefghijkl 12345678"]
      /\ 5 * countLetters out < 3 * Merge.len out
      /\ ~ FilteredComment 20 out).
Proof.
  split; [|split].
  - exists (str "abcdefghij k"). split; [vm_compute; left|].
    split; [reflexivity|]. intros (H & _). vm_compute in H. auto.
  - exists (str " does something useful here ok").
    split; [vm_compute; left|]. split; [reflexivity|].
    intros (_ & _ & _ & a & rest & [= <- _] & Ha). discriminate Ha.
  - exists (str "abcdefghijkl 12345678"). split; [vm_compute; left|].
    split; [reflexivity|]. intros (_ & H & _). vm_compute in H. auto.
Qed.

(** C2, amended. Every string the noise filter outputs is the
    white-space-collapsed form of a stripped merged comment; that stripped
    form (before the collapse) has at least the minimum length, the
    trimmed merged comment (before the stripping) starts with an
    alphanumeric byte, and the output does not match the license
    pattern. *)
Theorem filtered_comment_invariant minLen (merged : list gostring)
    (out : gostring) :
  out ∈ Merge.filterPhase minLen merged ->
  exists c, c ∈ merged
    /\ out = Regexp.whitespaceRE_Collapse (stripped c)
    /\ minLen <= Merge.len (stripped c)
    /\ (exists a rest,
          Strings.TrimSpace c = a :: rest /\ Regexp.isAlnum a = true)
    /\ Regexp.licenseRE_Match out = false.
Proof.
  intros Hin. destruct (filterPhase_elem _ _ _ Hin) as (c & Hc & Hf).
  destruct (filterComment_Some _ _ _ Hf) as (H1 & H2 & H3 & _ & H5).
  exists c. auto.
Qed.

Lemma filtered_comment_invariant_witness :
  let merged := [str "abcdefghij          k"] in
  let out := str "abcdefghij k" in
  out ∈ Merge.filterPhase 20 merged
  /\ exists c, c ∈ merged
       /\ out = Regexp.whitespaceRE_Collapse (stripped c)
       /\ 20 <= Merge.len (stripped c)
       /\ (exists a rest,
             Strings.TrimSpace c = a :: rest /\ Regexp.isAlnum a = true)
       /\ Regexp.licenseRE_Match out = false.
Proof.
  assert (H : str "abcdefghij k"
              ∈ Merge.filterPhase 20 [str "abcdefghij          k"]).
  { vm_compute. left. }
  split; [exact H|].
  exact (filtered_comment_invariant 20 _ _ H).
Defined.

(** The letters counted by the runs of [charsRE] are the letter bytes. *)
Lemma sumRuns_acc (l : list (Z * Z)) (a : Z) :
  foldl (fun n m => n + (snd m - fst m)) a l
  = a + foldl (fun n m => n + (snd m - fst m)) 0 l.
Proof.
  revert a. induction l as [|m l IH]; intros a; simpl; [lia|].
  rewrite (IH (a + _)), (IH (0 + _)). lia.
Qed.

Lemma findLetterRuns_count (s : gostring) (pos : Z) (run : option Z) :
  foldl (fun n m => n + (snd m - fst m)) 0
    (Regexp.findLetterRuns pos run s)
  = match run with Some b => pos - b | None => 0 end + countLetters s.
Proof.
  unfold countLetters.
  revert pos run. induction s as [|c s IH]; intros pos run; simpl.
  - destruct run; simpl; lia.
  - destruct (Regexp.isLetter c); simpl.
    + rewrite IH. destruct run; lia.
    + destruct run; simpl; [rewrite sumRuns_acc|]; rewrite IH; lia.
Qed.

Lemma charsCount_countLetters (s : gostring) :
  Merge.charsCount s = countLetters s.
Proof.
  unfold Merge.charsCount, Regexp.charsRE_FindAllIndex.
  rewrite findLetterRuns_count. lia.
Qed.

(** C4, at the failing input.  A comment of 21 bytes with 12 letters
    (57%) reaches the letter-density step and passes it: the letters are
    compared with [int(21 * 0.6)], which is 12. *)
Theorem letter_density_truncates :
  let comment := str "abcdefghijkl 12345678" in
  Merge.len comment = 21
  /\ Merge.charsCount comment = 12
  /\ 5 * Merge.charsCount comment < 3 * Merge.len comment
  /\ Merge.lettersThreshold comment = 12
  /\ Merge.filterComment 20 comment = Some comment.
Proof. vm_compute. repeat split. Qed.

(** ** Sorted keys *)

Lemma sortedKeys_Permutation {A : Type} (m : gmap Z A) :
  sortedKeys m ≡ₚ map fst (map_to_list m).
Proof. apply merge_sort_Permutation. Qed.

Lemma sortedKeys_elem {A : Type} (m : gmap Z A) (k : Z) :
  k ∈ sortedKeys m <-> is_Some (m !! k).
Proof.
  rewrite sortedKeys_Permutation, list_elem_of_fmap. split.
  - intros ([k' a] & -> & Hin). apply elem_of_map_to_list in Hin. eauto.
  - intros [a Ha]. exists (k, a). split; [reflexivity|].
    by apply elem_of_map_to_list.
Qed.

Lemma sortedKeys_NoDup {A : Type} (m : gmap Z A) : NoDup (sortedKeys m).
Proof.
  rewrite sortedKeys_Permutation. apply NoDup_fst_map_to_list.
Qed.

Lemma StronglySorted_le_lt (l : list Z) :
  StronglySorted Z.le l -> NoDup l -> StronglySorted Z.lt l.
Proof.
  induction 1 as [|x l Hs IH Hall]; intros Hnd; constructor.
  - apply IH. by apply NoDup_cons in Hnd as [_ ?].
  - apply NoDup_cons in Hnd as [Hx _].
    rewrite Forall_forall in Hall |- *. intros y Hy.
    specialize (Hall y Hy). assert (x <> y) by (intros ->; auto). lia.
Qed.

Lemma sortedKeys_sorted {A : Type} (m : gmap Z A) :
  StronglySorted Z.lt (sortedKeys m).
Proof.
  apply StronglySorted_le_lt; [|apply sortedKeys_NoDup].
  apply StronglySorted_merge_sort; apply _.
Qed.

(** A strictly ascending list is determined by its elements. *)
Lemma StronglySorted_lt_unique (l1 l2 : list Z) :
  StronglySorted Z.lt l1 -> StronglySorted Z.lt l2 ->
  (forall k, k ∈ l1 <-> k ∈ l2) -> l1 = l2.
Proof.
  intros H1. revert l2. induction H1 as [|x l1 Hs1 IH Hall1];
    intros l2 H2 Heq.
  - destruct l2 as [|y l2]; [reflexivity|].
    exfalso. apply (not_elem_of_nil y), Heq. left.
  - destruct H2 as [|y l2 Hs2 Hall2].
    { exfalso. apply (not_elem_of_nil x), Heq. left. }
    rewrite Forall_forall in Hall1, Hall2.
    assert (x = y) as <-.
    { assert (Hx : x ∈ y :: l2) by (apply Heq; left).
      assert (Hy : y ∈ x :: l1) by (apply Heq; left).
      apply elem_of_cons in Hx as [?|Hx]; [done|].
      apply elem_of_cons in Hy as [?|Hy]; [done|].
      specialize (Hall1 _ Hy). specialize (Hall2 _ Hx). lia. }
    f_equal. apply IH; [done|]. intros k. split; intros Hk.
    + assert (Hk' : k ∈ x :: l2) by (apply Heq; by right).
      apply elem_of_cons in Hk' as [->|?]; [|done].
      specialize (Hall1 _ Hk). lia.
    + assert (Hk' : k ∈ x :: l1) by (apply Heq; by right).
      apply elem_of_cons in Hk' as [->|?]; [|done].
      specialize (Hall2 _ Hk). lia.
Qed.

(** ** The deadzone and the reduction of a day *)

Lemma SFcompare_antisym (x y : spec_float) :
  SFcompare y x = option_map CompOpp (SFcompare x y).
Proof.
  destruct x as [sx|sx| |sx mx ex], y as [sy|sy| |sy my ey]; simpl;
    try reflexivity;
    try (destruct sx; reflexivity);
    try (destruct sy; reflexivity);
    try (destruct sx, sy; reflexivity).
  destruct sx, sy; simpl; try reflexivity;
    rewrite (Z.compare_antisym ex ey);
    destruct (ex ?= ey); simpl; try reflexivity;
    rewrite !Pos.compare_cont_spec, (Pos.compare_antisym mx my); simpl;
    destruct (mx ?= my)%positive; reflexivity.
Qed.

Lemma SFltb_asym (x y : spec_float) : SFltb x y = true -> SFltb y x = false.
Proof.
  unfold SFltb. rewrite (SFcompare_antisym x y).
  by destruct (SFcompare x y) as [[]|].
Qed.

Lemma SFltb_not_leb (x y : spec_float) :
  SFltb x y = true -> SFleb y x = false.
Proof.
  unfold SFltb, SFleb. rewrite (SFcompare_antisym x y).
  by destruct (SFcompare x y) as [[]|].
Qed.

Lemma SFltb_irrefl (x : spec_float) : SFltb x x = false.
Proof.
  destruct (SFltb x x) eqn:H; [|reflexivity].
  by rewrite (SFltb_asym _ _ H) in H.
Qed.

Lemma commentLoop gap (weights : list F32.f32) (cs : list gostring) :
  forall (pos : nat) sum acc,
    (pos + length cs <= length weights)%nat ->
    foldl (Reduce.commentStep gap weights) (Some (pos, sum, acc)) cs
    = let kept := keptPairs gap cs (scoresAt weights pos (length cs)) in
      Some ((pos + length cs)%nat,
            foldl F32.add sum (map snd kept),
            acc ++ map fst kept).
Proof.
  unfold keptPairs, scoresAt.
  induction cs as [|c cs IH]; intros pos sum acc Hlen; simpl in *.
  - rewrite Nat.add_0_r, app_nil_r. reflexivity.
  - destruct (weights !! pos) as [w|] eqn:Hw.
    2:{ apply lookup_ge_None in Hw. lia. }
    rewrite (drop_S _ _ _ Hw). simpl.
    destruct (Reduce.kept gap w); simpl.
    + rewrite IH by lia. simpl. rewrite <- app_assoc. simpl.
      f_equal. f_equal. f_equal. lia.
    + rewrite IH by lia. simpl. f_equal. f_equal. f_equal. lia.
Qed.

Lemma dayLoop (sent : CommentSentimentAnalysis) (weights : list F32.f32)
    (ds : list Z) :
  forall (pos : nat) (r : CommentSentimentResult),
    NoDup ds ->
    (pos + totalComments sent ds <= length weights)%nat ->
    exists r',
      foldl (Reduce.dayStep sent weights) (Some (pos, r)) ds
      = Some ((pos + totalComments sent ds)%nat, r')
      /\ resultCommitsByDay r' = resultCommitsByDay r
      /\ forall d,
           let kept := keptOfDay sent weights
                         (pos + offsetOf sent ds d) d in
           if decide (d ∈ ds /\ kept <> []) then
             EmotionsByDay r' !! d = Some (mean (map snd kept))
             /\ CommentsByDay r' !! d = Some (map fst kept)
           else
             EmotionsByDay r' !! d = EmotionsByDay r !! d
             /\ CommentsByDay r' !! d = CommentsByDay r !! d.
Proof.
  unfold totalComments.
  induction ds as [|k ds IH]; intros pos r Hnd Hlen; simpl in *.
  - exists r. rewrite Nat.add_0_r. split; [reflexivity|]. split; [reflexivity|].
    intros d. done.
  - apply NoDup_cons in Hnd as [Hk Hnd].
    rewrite length_app in Hlen.
    fold (dayComments sent k).
    rewrite commentLoop by lia. cbv zeta. cbn [app].
    fold (keptOfDay sent weights pos k).
    set (kk := keptOfDay sent weights pos k).
    set (r1 := if 0 <? Z.of_nat (length (map fst kk))
               then Reduce.putDay k (foldl F32.add F32.zero (map snd kk))
                      (map fst kk) r
               else r).
    destruct (IH (pos + length (dayComments sent k))%nat r1 Hnd)
      as (r' & Hfold & Hcom & Hmaps); [lia|].
    exists r'. split; [|split].
    + rewrite Hfold. f_equal. f_equal. rewrite length_app. lia.
    + rewrite Hcom. unfold r1. by destruct (0 <? _).
    + intros d. specialize (Hmaps d). cbv zeta in Hmaps.
      destruct (Z.eqb_spec k d) as [->|Hne].
      * rewrite Nat.add_0_r. fold kk.
        case_decide as Hd1; [destruct Hd1 as [Hd1 _]; done|].
        destruct Hmaps as [He Hc]. rewrite He, Hc. unfold r1.
        case_decide as Hd2.
        -- destruct Hd2 as [_ Hd2].
           assert ((0 <? Z.of_nat (length (map fst kk))) = true) as ->.
           { destruct kk; [done|]. reflexivity. }
           unfold Reduce.putDay, mean. cbn [EmotionsByDay CommentsByDay].
           rewrite !lookup_insert_eq, !length_map. done.
        -- assert (kk = []) as ->.
           { destruct kk; [done|]. exfalso. apply Hd2.
             split; [left|done]. }
           done.
      * replace (pos + (length (dayComments sent k) + offsetOf sent ds d))%nat
          with (pos + length (dayComments sent k) + offsetOf sent ds d)%nat
          by lia.
        assert (Hr1 : EmotionsByDay r1 !! d = EmotionsByDay r !! d
                      /\ CommentsByDay r1 !! d = CommentsByDay r !! d).
        { unfold r1. destruct (0 <? _); [|done]. simpl.
          by rewrite !lookup_insert_ne. }
        destruct Hr1 as [Hr1e Hr1c].
        case_decide as Hd1; case_decide as Hd2; try done.
        -- exfalso. apply Hd2. destruct Hd1. split; [by right|done].
        -- exfalso. apply Hd1. destruct Hd2 as [Hd2 ?].
           apply elem_of_cons in Hd2 as [->|?]; done.
        -- by rewrite <- Hr1e, <- Hr1c.
Qed.

Lemma flatTexts_concat (sent : CommentSentimentAnalysis) (ds : list Z) :
  flatTexts sent ds = concat (map (dayComments sent) ds).
Proof.
  unfold flatTexts.
  assert (H : forall acc,
    foldl (fun texts key => texts ++ default [] (commentsByDay sent !! key))
      acc ds = acc ++ concat (map (dayComments sent) ds)).
  { induction ds as [|k ds IH]; intros acc; simpl.
    - by rewrite app_nil_r.
    - rewrite IH, <- app_assoc. reflexivity. }
  apply (H []).
Qed.

Lemma offsetOf_lookup (sent : CommentSentimentAnalysis) (ds : list Z)
    (d : Z) (j : nat) (c : gostring) :
  d ∈ ds -> dayComments sent d !! j = Some c ->
  concat (map (dayComments sent) ds) !! (offsetOf sent ds d + j)%nat = Some c.
Proof.
  intros Hd Hj. induction ds as [|k ds IH]; simpl.
  - by apply not_elem_of_nil in Hd.
  - destruct (Z.eqb_spec k d) as [->|Hne].
    + by apply lookup_app_l_Some.
    + apply elem_of_cons in Hd as [->|Hd]; [done|].
      rewrite lookup_app_r by lia.
      replace (length (dayComments sent k) + offsetOf sent ds d + j
               - length (dayComments sent k))%nat
        with (offsetOf sent ds d + j)%nat by lia.
      by apply IH.
Qed.

Lemma scoresAt_lookup (weights : list F32.f32) (pos n j : nat) :
  (j < n)%nat -> scoresAt weights pos n !! j = weights !! (pos + j)%nat.
Proof.
  intros Hj. unfold scoresAt. by rewrite lookup_take_lt, lookup_drop.
Qed.

Lemma keptPairs_sublist gap (cs : list gostring) (ws : list F32.f32) :
  map fst (keptPairs gap cs ws) `sublist_of` cs.
Proof.
  unfold keptPairs. revert ws.
  induction cs as [|c cs IH]; intros [|w ws]; simpl;
    try apply sublist_nil_l.
  destruct (Reduce.kept gap w); simpl.
  - by apply sublist_skip.
  - by apply sublist_cons.
Qed.

(** [Finalize] on a scorer that answers: one call, on the flat list, and
    every day reduced from the scores at its positions. *)
Lemma Finalize_spec (sent : CommentSentimentAnalysis) (scorer : Scorer)
    (weights : list F32.f32) :
  let days := sortedKeys (commentsByDay sent) in
  let texts := concat (map (dayComments sent) days) in
  OpenSession scorer = true ->
  EvaluateWithProgress scorer texts = Some weights ->
  (length texts <= length weights)%nat ->
  exists r,
    Finalize sent scorer = ([texts], Returned r)
    /\ resultCommitsByDay r = commitsByDay sent
    /\ forall d,
         let kept := keptOfDay sent weights (dayOffset sent d) d in
         if decide (d ∈ days /\ kept <> []) then
           EmotionsByDay r !! d = Some (mean (map snd kept))
           /\ CommentsByDay r !! d = Some (map fst kept)
         else
           EmotionsByDay r !! d = None /\ CommentsByDay r !! d = None.
Proof.
  intros days texts Hopen Heval Hlen.
  unfold Finalize. rewrite Hopen. simpl negb. cbv iota.
  rewrite flatTexts_concat. fold days. fold texts. rewrite Heval.
  destruct (dayLoop sent weights days O
              {| EmotionsByDay := ∅; CommentsByDay := ∅;
                 resultCommitsByDay := commitsByDay sent |})
    as (r & Hfold & Hcom & Hmaps).
  { apply sortedKeys_NoDup. }
  { unfold totalComments. fold texts. lia. }
  exists r. rewrite Hfold. split; [reflexivity|]. split; [exact Hcom|].
  intros d. specialize (Hmaps d). cbv zeta in Hmaps |- *.
  unfold dayOffset. fold days. rewrite Nat.add_0_l in Hmaps.
  destruct (decide _); [exact Hmaps|].
  cbn [EmotionsByDay CommentsByDay] in Hmaps.
  by rewrite !lookup_empty in Hmaps.
Qed.

Example scenario_C :
  exists r,
    Finalize (exampleState F32.half) exampleScorer
    = ([[str "bad"; str "so so"; str "good"; str "later"]], Returned r)
    /\ EmotionsByDay r !! 5 = Some F32.half
    /\ CommentsByDay r !! 5 = Some [str "bad"; str "good"]
    /\ EmotionsByDay r !! 7 = None
    /\ CommentsByDay r !! 7 = None.
Proof. eexists. split; [vm_compute; reflexivity|]. vm_compute. auto. Qed.

(** C3. When the scorer answers with a score for every text, [Finalize]
    returns a result in which a day none of whose pairs survives the
    deadzone is absent from both maps, and any other day maps to the mean
    of the kept scores and to the kept comments, a sublist of the day's
    comments in their order. *)
Theorem finalize_reduces_each_day (sent : CommentSentimentAnalysis)
    (scorer : Scorer) (weights : list F32.f32) :
  OpenSession scorer = true ->
  EvaluateWithProgress scorer (allTexts sent) = Some weights ->
  length weights = length (allTexts sent) ->
  exists r,
    snd (Finalize sent scorer) = Returned r /\ dayReduced sent weights r.
Proof.
  intros Hopen Heval Hlen.
  destruct (Finalize_spec sent scorer weights Hopen Heval)
    as (r & Hfin & _ & Hmaps); [unfold allTexts in Hlen; lia|].
  exists r. rewrite Hfin. split; [reflexivity|].
  intros d cs Hd kept.
  assert (Hdc : dayComments sent d = cs) by (unfold dayComments; by rewrite Hd).
  specialize (Hmaps d). cbv zeta in Hmaps.
  unfold keptOfDay in Hmaps. rewrite Hdc in Hmaps. fold kept in Hmaps.
  split; [apply keptPairs_sublist|].
  destruct (decide _) as [[_ Hk]|Hn]; split; intros Hk'; try done.
  exfalso. apply Hn. split; [|done]. apply sortedKeys_elem. eauto.
Qed.

Lemma finalize_reduces_each_day_witness :
  OpenSession exampleScorer = true
  /\ EvaluateWithProgress exampleScorer (allTexts (exampleState F32.half))
     = Some exampleWeights
  /\ length exampleWeights = length (allTexts (exampleState F32.half))
  /\ exists r,
       snd (Finalize (exampleState F32.half) exampleScorer) = Returned r
       /\ dayReduced (exampleState F32.half) exampleWeights r.
Proof.
  assert (H1 : OpenSession exampleScorer = true) by reflexivity.
  assert (H2 : EvaluateWithProgress exampleScorer
                 (allTexts (exampleState F32.half))
               = Some exampleWeights) by reflexivity.
  assert (H3 : length exampleWeights
               = length (allTexts (exampleState F32.half)))
    by (vm_compute; reflexivity).
  exact (conj H1 (conj H2 (conj H3
    (finalize_reduces_each_day _ _ _ H1 H2 H3)))).
Defined.

(** C7. The days are enumerated in strictly ascending order; the flat
    list is the concatenation of their comment lists in that order; once
    the session is open the scorer is called exactly once, on that list;
    and when it answers with a score for every text, the [j]-th comment of
    a day, found at its position of the flat list, is decided by the score
    at the same position. *)
Theorem finalize_scores_by_position (sent : CommentSentimentAnalysis)
    (scorer : Scorer) :
  let days := sortedKeys (commentsByDay sent) in
  StronglySorted Z.lt days
  /\ (forall d, d ∈ days <-> is_Some (commentsByDay sent !! d))
  /\ flatTexts sent days = concat (map (dayComments sent) days)
  /\ (OpenSession scorer = true ->
      fst (Finalize sent scorer) = [allTexts sent])
  /\ forall weights,
       OpenSession scorer = true ->
       EvaluateWithProgress scorer (allTexts sent) = Some weights ->
       length weights = length (allTexts sent) ->
       exists r,
         snd (Finalize sent scorer) = Returned r
         /\ scoredByPosition sent weights r.
Proof.
  intros days. split; [apply sortedKeys_sorted|].
  split; [apply sortedKeys_elem|].
  split; [apply flatTexts_concat|]. split.
  - intros Hopen. unfold Finalize. rewrite Hopen. simpl negb. cbv iota.
    rewrite flatTexts_concat. fold (allTexts sent).
    by destruct (EvaluateWithProgress scorer (allTexts sent)).
  - intros weights Hopen Heval Hlen.
    destruct (Finalize_spec sent scorer weights Hopen Heval)
      as (r & Hfin & _ & Hmaps); [unfold allTexts in Hlen; lia|].
    exists r. rewrite Hfin. split; [reflexivity|].
    intros d cs Hd ws kept.
    assert (Hdc : dayComments sent d = cs)
      by (unfold dayComments; by rewrite Hd).
    assert (Hin : d ∈ days) by (apply sortedKeys_elem; eauto).
    split.
    + intros j c Hj. split.
      * apply offsetOf_lookup; [done|by rewrite Hdc].
      * apply scoresAt_lookup. by apply lookup_lt_Some in Hj.
    + specialize (Hmaps d). cbv zeta in Hmaps.
      unfold keptOfDay in Hmaps. rewrite Hdc in Hmaps.
      fold ws in Hmaps. fold kept in Hmaps.
      destruct (decide (d ∈ _ /\ _)) as [[_ Hk]|Hn];
        destruct (decide (kept = [])) as [He|He]; try done.
      exfalso. apply Hn. done.
Qed.

Lemma finalize_scores_by_position_witness :
  OpenSession exampleScorer = true
  /\ EvaluateWithProgress exampleScorer (allTexts (exampleState F32.half))
     = Some exampleWeights
  /\ length exampleWeights = length (allTexts (exampleState F32.half))
  /\ fst (Finalize (exampleState F32.half) exampleScorer)
     = [allTexts (exampleState F32.half)]
  /\ exists r,
       snd (Finalize (exampleState F32.half) exampleScorer) = Returned r
       /\ scoredByPosition (exampleState F32.half) exampleWeights r.
Proof.
  assert (H1 : OpenSession exampleScorer = true) by reflexivity.
  assert (H2 : EvaluateWithProgress exampleScorer
                 (allTexts (exampleState F32.half))
               = Some exampleWeights) by reflexivity.
  assert (H3 : length exampleWeights
               = length (allTexts (exampleState F32.half)))
    by (vm_compute; reflexivity).
  destruct (finalize_scores_by_position (exampleState F32.half)
              exampleScorer) as (_ & _ & _ & Hcall & Hres).
  exact (conj H1 (conj H2 (conj H3 (conj (Hcall H1)
    (Hres exampleWeights H1 H2 H3))))).
Defined.

(** ** Consume *)

(** C10. [Consume] returns a nil map and a nil error, whatever [deps]
    holds, and the state after it differs from the state before only in
    the commit's day, whose list has the commit's filtered comments
    appended; the lists of the other days are those of before. *)
Theorem consume_appends_to_the_day (UASTChange : Type)
    (Extract : list UASTChange -> list Node)
    (sent : CommentSentimentAnalysis) (deps : Deps UASTChange) :
  let sent' := fst (Consume Extract sent deps) in
  snd (Consume Extract sent deps) = (None, None)
  /\ commentsByDay sent' !! day deps
     = Some (dayComments sent (day deps)
             ++ Merge.mergeComments (MinCommentLength sent)
                  (Extract (uastChanges deps)))
  /\ (forall d, d <> day deps ->
        commentsByDay sent' !! d = commentsByDay sent !! d)
  /\ MinCommentLength sent' = MinCommentLength sent
  /\ Gap sent' = Gap sent
  /\ commitsByDay sent' = commitsByDay sent.
Proof.
  simpl. repeat split.
  - by rewrite lookup_insert_eq.
  - intros d Hd. by rewrite lookup_insert_ne.
Qed.

(** ** validate *)

(** What [validate] does to a gap that compares below 0 or at least 1,
    to a gap inside [0, 1), and to the minimum length. *)
Lemma validate_clamps (sent : CommentSentimentAnalysis) :
  let sent' := fst (validate sent) in
  let log := snd (validate sent) in
  (F32.lt (Gap sent) F32.zero = true \/ F32.ge (Gap sent) F32.one = true ->
     Gap sent' = DefaultCommentSentimentGap
     /\ GapTooBig (Gap sent) DefaultCommentSentimentGap ∈ log
     /\ sent' = fst (validate (setGap DefaultCommentSentimentGap sent)))
  /\ (F32.ge (Gap sent) F32.zero = true /\ F32.lt (Gap sent) F32.one = true ->
     Gap sent' = Gap sent /\ List.filter isGapWarning log = [])
  /\ (MinCommentLength sent < 10 ->
     MinCommentLength sent' = DefaultCommentSentimentCommentMinLength
     /\ MinLengthTooSmall (MinCommentLength sent)
          DefaultCommentSentimentCommentMinLength ∈ log
     /\ sent' = fst (validate
          (setMinCommentLength DefaultCommentSentimentCommentMinLength sent))
     /\ forall nodes,
          Merge.mergeComments (MinCommentLength sent') nodes
          = Merge.mergeComments 20 nodes)
  /\ (10 <= MinCommentLength sent ->
     MinCommentLength sent' = MinCommentLength sent)
  /\ commentsByDay sent' = commentsByDay sent
  /\ commitsByDay sent' = commitsByDay sent.
Proof.
  assert (Hexcl : F32.ge (Gap sent) F32.zero = true ->
                  F32.lt (Gap sent) F32.one = true ->
                  F32.lt (Gap sent) F32.zero || F32.ge (Gap sent) F32.one
                  = false).
  { unfold F32.ge, F32.lt. intros H0 H1.
    rewrite (SFltb_not_leb _ _ H1), orb_false_r.
    revert H0. unfold SFleb, SFltb.
    rewrite (SFcompare_antisym F32.zero (Gap sent)).
    by destruct (SFcompare F32.zero (Gap sent)) as [[]|]. }
  assert (Hd : (F32.lt DefaultCommentSentimentGap F32.zero
               || F32.ge DefaultCommentSentimentGap F32.one) = false)
    by reflexivity.
  unfold validate, validateGap, validateMinLength.
  destruct sent as [minLen gap comments commits].
  cbn [MinCommentLength Gap setGap setMinCommentLength] in *.
  destruct (F32.lt gap F32.zero || F32.ge gap F32.one) eqn:Hgap;
    destruct (minLen <? 10) eqn:Hmin;
    cbn [MinCommentLength Gap commentsByDay commitsByDay
         setGap setMinCommentLength fst snd app];
    rewrite ?Hd, ?Hmin, ?Hgap;
    cbn [MinCommentLength Gap commentsByDay commitsByDay
         setGap setMinCommentLength fst snd app];
    rewrite ?Hmin;
    cbn [MinCommentLength Gap commentsByDay commitsByDay
         setGap setMinCommentLength fst snd app];
    (split; [intros Hor|split; [intros [H0 H1]|split; [intros Hlt|split;
       [intros Hge|split; reflexivity]]]]);
    try (specialize (Hexcl H0 H1); discriminate);
    try (apply orb_false_iff in Hgap as [? ?];
         destruct Hor; congruence);
    try lia;
    repeat split; try reflexivity;
    try (by left); try (by right; left).
Qed.

(** C5, at the failing input.  A NaN gap compares neither below 0 nor
    at least 1: [Configure] leaves it in place and logs nothing, and with
    it [Finalize] keeps no pair at all, both comparisons of the deadzone
    being false. *)
Theorem configure_keeps_nan_gap :
  let facts := {| factGap := Some S754_nan; factMinLength := Some 20;
                  factCommitsByDay := ∅ |} in
  let sent := exampleState F32.half in
  Configure sent facts = (exampleState S754_nan, [])
  /\ validate (exampleState S754_nan) = (exampleState S754_nan, [])
  /\ (forall w, Reduce.kept (Gap (fst (Configure sent facts))) w = false)
  /\ exists r,
       snd (Finalize (fst (Configure sent facts)) exampleScorer) = Returned r
       /\ EmotionsByDay r = ∅ /\ CommentsByDay r = ∅.
Proof.
  split; [reflexivity|]. split; [reflexivity|]. split.
  - intros w. unfold Reduce.kept, F32.lt, F32.gt, SFltb.
    cbn. destruct w; reflexivity.
  - eexists. split; [vm_compute; reflexivity|]. split; reflexivity.
Qed.

(** ** The text serializer *)

Lemma Sprintf_line (d : Z) (x : F32.f32) (hashes comments : gostring) :
  Fmt.Sprintf lineFormat
    [Fmt.Int d; Fmt.Float32 x; Fmt.String hashes; Fmt.String comments]
  = str "  " ++ Fmt.formatInt d ++ str ": [" ++ Fmt.formatFloat4 x
    ++ str ", [" ++ hashes ++ str "], " ++ [Fmt.quote] ++ comments
    ++ [Fmt.quote] ++ str "]" ++ Merge.newline.
Proof. reflexivity. Qed.

Lemma writeDay_foldl (result : CommentSentimentResult) (days : list Z) :
  forall writer,
    foldl (writeDay result) writer days
    = writer ++ concat (map (lineOf result) days).
Proof.
  induction days as [|d days IH]; intros writer; simpl.
  - by rewrite app_nil_r.
  - rewrite IH. unfold writeDay at 1. rewrite Sprintf_line.
    rewrite <- app_assoc. reflexivity.
Qed.

Example serialize_example :
  serializeText
    {| EmotionsByDay := <[12 := tenth 9]> (<[5 := F32.half]> ∅);
       CommentsByDay :=
         <[12 := [str "nice"]]> (<[5 := [str "bad"; str "good"]]> ∅);
       resultCommitsByDay :=
         <[5 := [[ascii_of_nat 171; ascii_of_nat 5];
                 [ascii_of_nat 255]]]> ∅ |}
  = str "  5: [0.5000, [ab05,ff], " ++ [Fmt.quote] ++ str "bad|good"
    ++ [Fmt.quote] ++ str "]" ++ Merge.newline
    ++ str "  12: [0.9000, [], " ++ [Fmt.quote] ++ str "nice"
    ++ [Fmt.quote] ++ str "]" ++ Merge.newline.
Proof. vm_compute. reflexivity. Qed.

(** C9. The text written is the concatenation of one line per day of
    the result, the days taken in strictly ascending order; each line is
    two spaces, the day, a colon and a space, an opening bracket, the score
    with four decimals, a comma, the bracketed comma-joined hashes, a comma,
    the quoted pipe-joined comments, a closing bracket and a newline. *)
Theorem serializeText_lines (result : CommentSentimentResult) :
  let days := sortedKeys (EmotionsByDay result) in
  serializeText result = concat (map (lineOf result) days)
  /\ StronglySorted Z.lt days
  /\ (forall d, d ∈ days <-> is_Some (EmotionsByDay result !! d))
  /\ length (map (lineOf result) days) = size (EmotionsByDay result).
Proof.
  intros days. split; [|split; [|split]].
  - unfold serializeText. apply (writeDay_foldl result days []).
  - apply sortedKeys_sorted.
  - apply sortedKeys_elem.
  - rewrite length_map. unfold days.
    rewrite sortedKeys_Permutation, length_map.
    by rewrite length_map_to_list.
Qed.

(** ** The comment merger *)

Lemma bucket_lookup (nodes : list Node) (l : Z) :
  forall acc : gmap Z (list Node),
    default [] (foldl Merge.addNode acc nodes !! l)
    = default [] (acc !! l) ++ nodesAt nodes l
    /\ (is_Some (foldl Merge.addNode acc nodes !! l)
        <-> is_Some (acc !! l) \/ nodesAt nodes l <> []).
Proof.
  unfold nodesAt.
  induction nodes as [|n nodes IH]; intros acc; simpl.
  - rewrite app_nil_r. split; [reflexivity|]. intuition.
  - destruct (IH (Merge.addNode acc n)) as [IH1 IH2].
    rewrite IH1, IH2. clear IH IH1 IH2.
    unfold Merge.addNode, startsAt.
    destruct (StartPosition n) as [[ln]|]; simpl.
    2:{ split; [reflexivity|]. intuition. }
    destruct (Z.eqb_spec ln l) as [->|Hne].
    + rewrite lookup_insert_eq. simpl. rewrite <- app_assoc. simpl.
      split; [reflexivity|]. split; [|eauto]. intros _. by right.
    + rewrite lookup_insert_ne by done. split; [reflexivity|]. intuition.
Qed.

Lemma bucketLines_lookup (nodes : list Node) (l : Z) :
  default [] (Merge.bucketLines nodes !! l) = nodesAt nodes l
  /\ (is_Some (Merge.bucketLines nodes !! l) <-> nodesAt nodes l <> []).
Proof.
  destruct (bucket_lookup nodes l ∅) as [H1 H2].
  unfold Merge.bucketLines. rewrite H1, H2, lookup_empty. simpl.
  split; [reflexivity|]. split; [|by right].
  intros [[? [=]]|?]; done.
Qed.

Lemma nodesAt_nonempty (nodes : list Node) (l : Z) :
  nodesAt nodes l <> []
  <-> exists n, n ∈ nodes /\ StartPosition n = Some {| Line := l |}.
Proof.
  unfold nodesAt. split.
  - intros Hne. destruct (List.filter _ _) as [|n ns] eqn:Hf; [done|].
    assert (Hin : In n (List.filter (startsAt l) nodes))
      by (rewrite Hf; left; reflexivity).
    apply filter_In in Hin as [Hin Hs]. exists n.
    split; [by apply list_elem_of_In|].
    unfold startsAt in Hs. destruct (StartPosition n) as [[ln]|]; [|done].
    apply Z.eqb_eq in Hs. by subst.
  - intros (n & Hin & Hs) Hnil.
    assert (Hin' : In n (List.filter (startsAt l) nodes)).
    { apply filter_In. split; [by apply list_elem_of_In|].
      unfold startsAt. rewrite Hs. apply Z.eqb_refl. }
    by rewrite Hnil in Hin'.
Qed.

Lemma nodeLoop (ns : list Node) :
  forall line buf,
    foldl Merge.nodeStep (line, buf) ns
    = (maxEndOf line ns, buf ++ tokensOf ns).
Proof.
  unfold maxEndOf, tokensOf.
  induction ns as [|n ns IH]; intros line buf; simpl.
  - by rewrite app_nil_r.
  - assert (Hmax : forall m e : Z, (if m <? e then e else m) = Z.max m e).
    { intros m e. destruct (Z.ltb_spec m e); lia. }
    destruct (EndPosition n) as [e|]; rewrite ?Hmax, IH;
      destruct (isEmpty (Strings.TrimSpace (Token n))); simpl;
      by rewrite <- ?app_assoc.
Qed.

Lemma maxEndOf_ge (ns : list Node) (line : Z) : line <= maxEndOf line ns.
Proof.
  unfold maxEndOf. revert line.
  induction ns as [|n ns IH]; intros line; simpl; [lia|].
  destruct (EndPosition n); etransitivity; [|apply IH| |apply IH]; lia.
Qed.

(** [maxEndOf] is the largest number among [line] and the end lines. *)
Lemma maxEndOf_largest (ns : list Node) (line : Z) :
  (forall n e, n ∈ ns -> EndPosition n = Some e ->
     Line e <= maxEndOf line ns)
  /\ (maxEndOf line ns = line
      \/ exists n e, n ∈ ns /\ EndPosition n = Some e
                     /\ Line e = maxEndOf line ns).
Proof.
  unfold maxEndOf. revert line.
  induction ns as [|n ns IH]; intros line; simpl.
  - split; [|by left]. intros n e Hn. by apply not_elem_of_nil in Hn.
  - pose proof (maxEndOf_ge ns) as Hge. unfold maxEndOf in Hge.
    destruct (EndPosition n) as [e|] eqn:He.
    + destruct (IH (Z.max line (Line e))) as [IH1 IH2]. split.
      * intros n' e' Hn' He'. apply elem_of_cons in Hn' as [->|Hn'].
        -- assert (e' = e) as -> by congruence.
           specialize (Hge (Z.max line (Line e))). lia.
        -- eauto.
      * destruct IH2 as [IH2|(n' & e' & Hn' & He' & Hm)].
        -- destruct (Z.max_spec line (Line e)) as [[_ Hm]|[_ Hm]].
           ++ right. exists n, e. split; [left|]. split; [done|].
              rewrite IH2. lia.
           ++ left. rewrite IH2. lia.
        -- right. exists n', e'. split; [by right|]. done.
    + destruct (IH line) as [IH1 IH2]. split.
      * intros n' e' Hn' He'. apply elem_of_cons in Hn' as [->|Hn'].
        -- congruence.
        -- eauto.
      * destruct IH2 as [IH2|(n' & e' & Hn' & He' & Hm)]; [by left|].
        right. exists n', e'. split; [by right|]. done.
Qed.

Lemma lineLoop (nodes : list Node) (lineNums : list Z) :
  forall (todo seen : list Z) (st : Merge.state),
    lineNums = seen ++ todo ->
    Merge.mergedComments
      (rangeLoop (Merge.lineStep (Merge.bucketLines nodes) lineNums)
         (length seen) todo st)
    = Merge.mergedComments st ++ runs nodes todo (Merge.buffer st).
Proof.
  induction todo as [|line rest IH]; intros seen st Heq; simpl.
  - by rewrite app_nil_r.
  - assert (Heq' : lineNums = (seen ++ [line]) ++ rest)
      by (by rewrite <- app_assoc).
    specialize (IH (seen ++ [line])).
    rewrite length_app, Nat.add_1_r in IH.
    rewrite IH by done. clear IH.
    unfold Merge.lineStep.
    destruct (bucketLines_lookup nodes line) as [-> _].
    rewrite nodeLoop.
    assert (Hnext : lineNums !! S (length seen) = rest !! O).
    { rewrite Heq', lookup_app_r; rewrite length_app; simpl; [|lia].
      f_equal. lia. }
    rewrite Hnext.
    assert (Hlen : length lineNums = (length seen + S (length rest))%nat)
      by (rewrite Heq, length_app; reflexivity).
    rewrite Hlen.
    destruct rest as [|next rest']; simpl.
    + rewrite andb_false_r. simpl. by rewrite app_nil_r.
    + assert ((Z.of_nat (length seen)
               <? Z.of_nat (length seen + S (S (length rest'))) - 1) = true)
        as -> by (apply Z.ltb_lt; lia).
      simpl. destruct (next <=? _); simpl; [reflexivity|].
      by rewrite <- app_assoc.
Qed.

Lemma mergePhase_runs (nodes : list Node) :
  Merge.mergePhase nodes
  = runs nodes (sortedKeys (Merge.bucketLines nodes)) [].
Proof.
  exact (lineLoop nodes _ (sortedKeys (Merge.bucketLines nodes)) []
           {| Merge.buffer := []; Merge.mergedComments := [] |} eq_refl).
Qed.

(** Two nodes on consecutive lines end in one merged comment. *)
Lemma adjacent_lines_merge (n1 n2 : Node) (l : Z) :
  StartPosition n1 = Some {| Line := l |} ->
  StartPosition n2 = Some {| Line := l + 1 |} ->
  Merge.mergePhase [n1; n2]
  = [Strings.Join (tokensOf [n1; n2]) Merge.newline].
Proof.
  intros H1 H2. rewrite mergePhase_runs.
  assert (Hkeys : sortedKeys (Merge.bucketLines [n1; n2]) = [l; l + 1]).
  { apply StronglySorted_lt_unique; [apply sortedKeys_sorted| |].
    - repeat constructor; lia.
    - intros k. rewrite sortedKeys_elem.
      destruct (bucketLines_lookup [n1; n2] k) as [_ ->].
      rewrite nodesAt_nonempty. split.
      + intros (n & Hn & Hs).
        apply elem_of_cons in Hn as [->|Hn];
          [|apply list_elem_of_singleton in Hn as ->].
        * rewrite H1 in Hs. injection Hs as ->. left.
        * rewrite H2 in Hs. injection Hs as ->. right. left.
      + intros Hk. apply elem_of_cons in Hk as [->|Hk];
          [|apply list_elem_of_singleton in Hk as ->].
        * exists n1. split; [left|done].
        * exists n2. split; [right; left|done]. }
  rewrite Hkeys. cbn [Merge.mergedComments Merge.buffer app runs].
  assert (Ha : nodesAt [n1; n2] l = [n1]).
  { unfold nodesAt, startsAt. cbn. rewrite H1, H2. cbn.
    rewrite Z.eqb_refl. by destruct (Z.eqb_spec (l + 1) l); [lia|]. }
  assert (Hb : nodesAt [n1; n2] (l + 1) = [n2]).
  { unfold nodesAt, startsAt. cbn. rewrite H1, H2. cbn.
    rewrite Z.eqb_refl. by destruct (Z.eqb_spec l (l + 1)); [lia|]. }
  rewrite Ha, Hb.
  pose proof (maxEndOf_ge [n1] l) as Hge.
  destruct (Z.leb_spec (l + 1) (maxEndOf l [n1] + 1)); [|lia].
  unfold tokensOf. cbn [map List.filter].
  by destruct (negb _), (negb _).
Qed.

(** C6. The merger buckets the nodes by start line, a node without a
    start position being in no bucket; it walks the distinct start lines
    in ascending order; and its output is that of [runs], where a run goes
    on from a line to the next exactly when the next line is at most
    [maxEnd + 1], [maxEnd] being the largest number among the line and the
    end lines of its nodes (the line itself when no node has an end
    position, the largest end line when one has and none ends before the
    line), and where a run that ends is joined with newlines.  In particular a node on line 10 and a node on line 11 give
    one merged comment, their trimmed tokens joined by a newline. *)
Theorem merge_phase_groups_runs (nodes : list Node) :
  let lines := Merge.bucketLines nodes in
  let lineNums := sortedKeys lines in
  (forall l, default [] (lines !! l) = nodesAt nodes l)
  /\ (forall n, n ∈ nodes -> StartPosition n = None ->
        forall l, n ∉ default [] (lines !! l))
  /\ StronglySorted Z.lt lineNums
  /\ (forall l, l ∈ lineNums
        <-> exists n, n ∈ nodes /\ StartPosition n = Some {| Line := l |})
  /\ Merge.mergePhase nodes = runs nodes lineNums []
  /\ (forall l,
        l <= maxEndOf l (nodesAt nodes l)
        /\ (forall n e, n ∈ nodesAt nodes l -> EndPosition n = Some e ->
              Line e <= maxEndOf l (nodesAt nodes l))
        /\ (maxEndOf l (nodesAt nodes l) = l
            \/ exists n e, n ∈ nodesAt nodes l /\ EndPosition n = Some e
                 /\ Line e = maxEndOf l (nodesAt nodes l)))
  /\ (forall l,
        (forall n e, n ∈ nodesAt nodes l -> EndPosition n = Some e ->
           l <= Line e) ->
        (forall n, n ∈ nodesAt nodes l -> EndPosition n = None) ->
        maxEndOf l (nodesAt nodes l) = l)
  /\ (forall l n e,
        (forall n e, n ∈ nodesAt nodes l -> EndPosition n = Some e ->
           l <= Line e) ->
        n ∈ nodesAt nodes l -> EndPosition n = Some e ->
        exists n' e', n' ∈ nodesAt nodes l /\ EndPosition n' = Some e'
          /\ Line e' = maxEndOf l (nodesAt nodes l))
  /\ (forall n1 n2,
        nodes = [n1; n2] ->
        StartPosition n1 = Some {| Line := 10 |} ->
        StartPosition n2 = Some {| Line := 11 |} ->
        Merge.mergePhase nodes
        = [Strings.Join (tokensOf [n1; n2]) Merge.newline]).
Proof.
  cbv zeta.
  split; [intros l; apply bucketLines_lookup|].
  split.
  { intros n Hn Hs l. destruct (bucketLines_lookup nodes l) as [-> _].
    unfold nodesAt. intros Hin. apply list_elem_of_In, filter_In in Hin.
    destruct Hin as [_ Hin]. unfold startsAt in Hin. by rewrite Hs in Hin. }
  split; [apply sortedKeys_sorted|].
  split.
  { intros l. rewrite sortedKeys_elem.
    destruct (bucketLines_lookup nodes l) as [_ ->].
    apply nodesAt_nonempty. }
  split.
  { apply mergePhase_runs. }
  split.
  { intros l. split; [apply maxEndOf_ge|apply maxEndOf_largest]. }
  split.
  { intros l _ Hnone.
    destruct (maxEndOf_largest (nodesAt nodes l) l)
      as [_ [Heq|(n & e & Hn & He & _)]]; [exact Heq|].
    rewrite (Hnone n Hn) in He. discriminate. }
  split.
  { intros l n e Hwf Hn He.
    destruct (maxEndOf_largest (nodesAt nodes l) l)
      as [Hle [Heq|(n' & e' & Hn' & He' & Hm)]]; [|by exists n', e'].
    exists n, e. split; [exact Hn|]. split; [exact He|].
    specialize (Hle n e Hn He). specialize (Hwf n e Hn He). lia. }
  intros n1 n2 -> H1 H2. by apply (adjacent_lines_merge n1 n2 10).
Qed.

Lemma merge_phase_groups_runs_witness :
  Merge.mergePhase [mkNode "// first" 10 10; mkNode " // second " 11 11]
  = [str "// first" ++ Merge.newline ++ str "// second"].
Proof.
  exact (proj2 (proj2 (proj2 (proj2 (proj2 (proj2 (proj2 (proj2
    (merge_phase_groups_runs
       [mkNode "// first" 10 10; mkNode " // second " 11 11]))))))))
    _ _ eq_refl eq_refl eq_refl).
Defined.

(** ** Binary32 arithmetic on the bounds of the deadzone

    [SpecFloat] gives the operations and no lemma about them; what the
    deadzone needs is proved here from the definitions: how a positive
    integer mantissa is rounded, that halving a normal number is exact, and
    from these that [0.5*(1-gap)] never exceeds [0.5*(1+gap)]. *)

Lemma iter_pos_nat {A : Type} (f : A -> A) (p : positive) (x : A) :
  SpecFloat.iter_pos f p x = Nat.iter (Pos.to_nat p) f x.
Proof.
  revert x. induction p as [p IH|p IH|]; intros x; cbn [SpecFloat.iter_pos].
  - rewrite !IH, Pos2Nat.inj_xI, <- Nat.iter_add.
    replace (S (2 * Pos.to_nat p)) with (S (Pos.to_nat p + Pos.to_nat p))
      by lia.
    rewrite Nat.iter_succ_r. reflexivity.
  - rewrite !IH, Pos2Nat.inj_xO, <- Nat.iter_add. f_equal. lia.
  - reflexivity.
Qed.

Lemma shr_1_m (r : shr_record) :
  0 <= shr_m r -> shr_m (shr_1 r) = shr_m r / 2 /\ 0 <= shr_m (shr_1 r).
Proof.
  destruct r as [m r s]. cbn [shr_m]. intros Hm.
  destruct m as [|[p|p|]|p]; cbn [shr_1 shr_m].
  - split; [reflexivity|lia].
  - split; [|lia]. change (Z.pos p~1) with (2 * Z.pos p + 1).
    apply Z.div_unique with 1; lia.
  - split; [|lia]. change (Z.pos p~0) with (2 * Z.pos p).
    apply Z.div_unique with 0; lia.
  - split; [reflexivity|lia].
  - lia.
Qed.

Lemma shr_iter_m (n : nat) (r : shr_record) :
  0 <= shr_m r ->
  shr_m (Nat.iter n shr_1 r) = shr_m r / 2 ^ Z.of_nat n
  /\ 0 <= shr_m (Nat.iter n shr_1 r).
Proof.
  intros Hm. induction n as [|n [IH1 IH2]].
  - simpl. rewrite Z.div_1_r. auto.
  - rewrite Nat2Z.inj_succ, Z.pow_succ_r by lia. simpl Nat.iter.
    destruct (shr_1_m _ IH2) as [H1 H2]. split; [|exact H2].
    rewrite H1, IH1, Z.div_div by lia. f_equal. lia.
Qed.

Lemma shr_iter_exact (n : nat) (a : Z) :
  0 <= a ->
  Nat.iter n shr_1 {| shr_m := a * 2 ^ Z.of_nat n; shr_r := false; shr_s := false |}
  = {| shr_m := a; shr_r := false; shr_s := false |}.
Proof.
  intros Ha. revert a Ha. induction n as [|n IH]; intros a Ha.
  - simpl. f_equal. lia.
  - rewrite Nat2Z.inj_succ, Z.pow_succ_r by lia.
    rewrite Nat.iter_succ_r.
    replace (a * (2 * 2 ^ Z.of_nat n)) with (2 * (a * 2 ^ Z.of_nat n)) by lia.
    assert (H : shr_1 {| shr_m := 2 * (a * 2 ^ Z.of_nat n); shr_r := false; shr_s := false |}
              = {| shr_m := a * 2 ^ Z.of_nat n; shr_r := false; shr_s := false |}).
    { assert (0 <= a * 2 ^ Z.of_nat n) by (apply Z.mul_nonneg_nonneg; lia).
      destruct (a * 2 ^ Z.of_nat n) as [|p|p]; simpl; try reflexivity; lia. }
    rewrite H. apply IH, Ha.
Qed.

Lemma digits2_size (p : positive) : digits2_pos p = Pos.size p.
Proof. induction p; simpl; congruence. Qed.

Lemma digits2_bounds (p : positive) (d : Z) :
  2 ^ (d - 1) <= Zpos p < 2 ^ d -> Zpos (digits2_pos p) = d.
Proof.
  intros [Hlo Hhi]. rewrite digits2_size.
  pose proof (Pos.size_gt p) as Hgt. pose proof (Pos.size_le p) as Hle.
  apply Pos2Z.pos_lt_pos in Hgt. apply Pos2Z.pos_le_pos in Hle.
  rewrite Pos2Z.inj_pow in Hgt, Hle.
  change (Z.pos p~0) with (2 * Z.pos p) in Hle.
  remember (Zpos (Pos.size p)) as s eqn:Es.
  assert (Hs : 0 < s) by lia.
  assert (Hle' : 2 ^ (s - 1) <= Zpos p).
  { assert (2 ^ s = 2 * 2 ^ (s - 1)).
    { rewrite <- Z.pow_succ_r by lia. f_equal. lia. }
    lia. }
  assert (Hd : 0 < d).
  { destruct (Z.ltb_spec 0 d) as [|Hd]; [assumption|].
    destruct (Z.eq_dec d 0) as [->|Hne]; [simpl in Hhi; lia|].
    rewrite (Z.pow_neg_r 2 d) in Hhi by lia. lia. }
  destruct (Z.lt_trichotomy s d) as [Hlt|[Heq|Hlt]]; [|assumption|].
  - assert (2 ^ s <= 2 ^ (d - 1)) by (apply Z.pow_le_mono_r; lia). lia.
  - assert (2 ^ d <= 2 ^ (s - 1)) by (apply Z.pow_le_mono_r; lia). lia.
Qed.

Lemma fexp32_eq (x : Z) : fexp 24 128 x = Z.max (x - 24) (-149).
Proof. reflexivity. Qed.

Lemma shr_fexp_noshift (x : positive) (e : Z) :
  fexp 24 128 (Zpos (digits2_pos x) + e) <= e ->
  shr_fexp 24 128 (Zpos x) e loc_Exact
  = ({| shr_m := Zpos x; shr_r := false; shr_s := false |}, e).
Proof.
  intros H. unfold shr_fexp, shr. cbn [Zdigits2 shr_record_of_loc].
  destruct (fexp 24 128 (Z.pos (digits2_pos x) + e) - e) eqn:Hn;
    try reflexivity. lia.
Qed.

Lemma bra_noshift (x : positive) (e : Z) :
  fexp 24 128 (Zpos (digits2_pos x) + e) <= e -> e <= 104 ->
  binary_round_aux 24 128 false (Zpos x) e loc_Exact = S754_finite false x e.
Proof.
  intros H He. unfold binary_round_aux.
  rewrite (shr_fexp_noshift x e H).
  cbn [shr_m loc_of_shr_record round_nearest_even].
  rewrite (shr_fexp_noshift x e H). cbn [shr_m].
  destruct (Z.leb_spec e (128 - 24)); [reflexivity|lia].
Qed.

Lemma shr_fexp_shift (x : positive) (e : Z) :
  e < fexp 24 128 (Zpos (digits2_pos x) + e) ->
  exists r,
    shr_fexp 24 128 (Zpos x) e loc_Exact
    = (r, fexp 24 128 (Zpos (digits2_pos x) + e))
    /\ shr_m r
       = Zpos x / 2 ^ (fexp 24 128 (Zpos (digits2_pos x) + e) - e).
Proof.
  intros H. unfold shr_fexp, shr. cbn [Zdigits2 shr_record_of_loc].
  destruct (fexp 24 128 (Z.pos (digits2_pos x) + e) - e) as [|k|k] eqn:Hn;
    try lia.
  eexists. split; [f_equal; lia|].
  rewrite iter_pos_nat.
  destruct (shr_iter_m (Pos.to_nat k)
              {| shr_m := Zpos x; shr_r := false; shr_s := false |})
    as [-> _]; [cbn; lia|].
  cbn [shr_m]. rewrite positive_nat_Z. reflexivity.
Qed.

Lemma digits2_range (x : positive) :
  2 ^ (Zpos (digits2_pos x) - 1) <= Zpos x < 2 ^ Zpos (digits2_pos x).
Proof.
  rewrite digits2_size.
  pose proof (Pos.size_gt x) as Hgt. pose proof (Pos.size_le x) as Hle.
  apply Pos2Z.pos_lt_pos in Hgt. apply Pos2Z.pos_le_pos in Hle.
  rewrite Pos2Z.inj_pow in Hgt, Hle.
  change (Z.pos x~0) with (2 * Z.pos x) in Hle.
  remember (Zpos (Pos.size x)) as s eqn:Es.
  assert (2 ^ s = 2 * 2 ^ (s - 1)).
  { rewrite <- Z.pow_succ_r by lia. f_equal. lia. }
  lia.
Qed.

Lemma normal_digits (m : positive) : normal m -> Zpos (digits2_pos m) = 24.
Proof. intros H. apply digits2_bounds. exact H. Qed.

Lemma bra_shift (x : positive) (e : Z) :
  let d := Zpos (digits2_pos x) in
  24 < d -> -149 <= d + e - 24 -> d + e - 24 < 104 ->
  exists m' e',
    binary_round_aux 24 128 false (Zpos x) e loc_Exact
    = S754_finite false m' e'
    /\ normal m'
    /\ (e' = d + e - 24 \/ (e' = d + e - 23 /\ Zpos m' = 2 ^ 23)).
Proof.
  intros d Hd Hlo Hhi.
  assert (Hf : fexp 24 128 (d + e) = d + e - 24)
    by (rewrite fexp32_eq; lia).
  destruct (shr_fexp_shift x e) as (r & Hr & Hm); [fold d; lia|].
  fold d in Hr, Hm. rewrite Hf in Hr, Hm.
  replace (d + e - 24 - e) with (d - 24) in Hm by lia.
  unfold binary_round_aux. rewrite Hr.
  pose proof (digits2_range x) as Hx. fold d in Hx.
  assert (Hpow : 2 ^ d = 2 ^ 24 * 2 ^ (d - 24)).
  { rewrite <- Z.pow_add_r by lia. f_equal. lia. }
  assert (Hpow' : 2 ^ (d - 1) = 2 ^ 23 * 2 ^ (d - 24)).
  { rewrite <- Z.pow_add_r by lia. f_equal. lia. }
  assert (Hp : 0 < 2 ^ (d - 24)) by (apply Z.pow_pos_nonneg; lia).
  assert (Hq : 2 ^ 23 <= shr_m r < 2 ^ 24).
  { rewrite Hm. split.
    - apply Z.div_le_lower_bound; [lia|]. lia.
    - apply Z.div_lt_upper_bound; [lia|]. lia. }
  remember (round_nearest_even (shr_m r) (loc_of_shr_record r)) as q'
    eqn:Eq'.
  assert (Hq' : q' = shr_m r \/ q' = shr_m r + 1).
  { rewrite Eq'. unfold round_nearest_even.
    destruct (loc_of_shr_record r) as [|[]]; auto.
    destruct (Z.even (shr_m r)); auto. }
  assert (Hq'r : 2 ^ 23 <= q' <= 2 ^ 24) by lia.
  clear Eq'. destruct q' as [|qp|qp]; try lia.
  destruct (Z.eq_dec (Zpos qp) (2 ^ 24)) as [Heq|Hne].
  - change (2 ^ 24) with (Z.pos 16777216) in Heq. injection Heq as ->.
    exists 8388608%positive, (d + e - 23).
    split; [|split; [unfold normal; lia|right; split; [lia|reflexivity]]].
    unfold shr_fexp.
    change (Zdigits2 (Z.pos 16777216)) with 25.
    rewrite fexp32_eq.
    replace (Z.max (25 + (d + e - 24) - 24) (-149) - (d + e - 24)) with 1
      by lia.
    cbn [shr shr_record_of_loc SpecFloat.iter_pos shr_1 shr_m].
    replace (d + e - 24 + 1) with (d + e - 23) by lia.
    destruct (Z.leb_spec (d + e - 23) (128 - 24)); [reflexivity|lia].
  - assert (Hn : normal qp) by (unfold normal; lia).
    exists qp, (d + e - 24). split; [|split; [exact Hn|left; reflexivity]].
    rewrite shr_fexp_noshift.
    + cbn [shr_m]. destruct (Z.leb_spec (d + e - 24) (128 - 24));
        [reflexivity|lia].
    + rewrite (normal_digits _ Hn), fexp32_eq. lia.
Qed.

Lemma iter_xO (x p : positive) :
  Zpos (Pos.iter xO x p) = Zpos x * 2 ^ Zpos p.
Proof.
  induction p as [|p IH] using Pos.peano_ind.
  - cbn. lia.
  - rewrite Pos.iter_succ, Pos2Z.inj_xO, IH, Pos2Z.inj_succ.
    rewrite Z.pow_succ_r by lia. lia.
Qed.

(** Rounding a positive integer mantissa whose value lies in the normal
    range of binary32: a normal mantissa comes back, and the exponent goes
    up by one only when the mantissa was rounded up to a power of two. *)
Lemma binary_round_normal (x : positive) (e : Z) :
  let d := Zpos (digits2_pos x) in
  -149 <= d + e - 24 -> d + e - 24 < 104 ->
  exists m' e',
    binary_round 24 128 false x e = S754_finite false m' e'
    /\ normal m'
    /\ (e' = d + e - 24 \/ (e' = d + e - 23 /\ Zpos m' = 2 ^ 23)).
Proof.
  intros d Hlo Hhi. unfold binary_round, shl_align. fold d.
  assert (Hf : fexp 24 128 (d + e) = d + e - 24)
    by (rewrite fexp32_eq; lia).
  rewrite Hf.
  pose proof (digits2_range x) as Hx. fold d in Hx.
  destruct (d + e - 24 - e) as [|k|k] eqn:Hk.
  - assert (Hd : d = 24) by lia.
    assert (Hn : normal x) by (unfold normal; rewrite Hd in Hx; exact Hx).
    exists x, e. split; [|split; [exact Hn|left; lia]].
    apply bra_noshift; [fold d; rewrite fexp32_eq|]; lia.
  - destruct (bra_shift x e) as (m' & e' & H1 & H2 & H3);
      fold d; try lia.
    exists m', e'. auto.
  - assert (Hd : d = 24 - Zpos k) by lia.
    assert (Hn : normal (Pos.iter xO x k)).
    { unfold normal. rewrite iter_xO.
      assert (2 ^ 24 = 2 ^ d * 2 ^ Zpos k).
      { rewrite <- Z.pow_add_r by lia. f_equal. lia. }
      assert (2 ^ 23 = 2 ^ (d - 1) * 2 ^ Zpos k).
      { rewrite <- Z.pow_add_r by lia. f_equal. lia. }
      assert (0 < 2 ^ Zpos k) by (apply Z.pow_pos_nonneg; lia).
      nia. }
    exists (Pos.iter xO x k), (d + e - 24).
    split; [|split; [exact Hn|left; reflexivity]].
    apply bra_noshift; [|lia].
    rewrite (normal_digits _ Hn), fexp32_eq. lia.
Qed.

Lemma mul_half_normal (m : positive) (e : Z) :
  normal m -> -148 <= e <= 105 ->
  SFmul 24 128 (S754_finite false 8388608 (-24)) (S754_finite false m e)
  = S754_finite false m (e - 1).
Proof.
  intros Hn He. cbn [SFmul xorb].
  assert (Hd : Zpos (digits2_pos (8388608 * m)) = 47).
  { apply digits2_bounds. rewrite Pos2Z.inj_mul.
    unfold normal in Hn.
    change (2 ^ (47 - 1)) with (2 ^ 23 * 2 ^ 23).
    change (2 ^ 47) with (2 ^ 23 * 2 ^ 24).
    change (Z.pos 8388608) with (2 ^ 23). nia. }
  unfold binary_round_aux, shr_fexp at 1, shr.
  cbn [Zdigits2 shr_record_of_loc]. rewrite Hd, fexp32_eq.
  replace (Z.max (47 + (-24 + e) - 24) (-149) - (-24 + e)) with 23 by lia.
  rewrite iter_pos_nat.
  replace (Zpos (8388608 * m)) with (Zpos m * 2 ^ Z.of_nat (Pos.to_nat 23))
    by (rewrite Pos2Z.inj_mul; change (2 ^ Z.of_nat (Pos.to_nat 23))
          with (Z.pos 8388608); lia).
  rewrite shr_iter_exact by lia.
  cbn [shr_m loc_of_shr_record round_nearest_even].
  rewrite shr_fexp_noshift.
  - cbn [shr_m].
    replace (-24 + e + 23) with (e - 1) by lia.
    destruct (Z.leb_spec (e - 1) (128 - 24)); [reflexivity|lia].
  - rewrite (normal_digits _ Hn), fexp32_eq. lia.
Qed.

Lemma one_bits : F32.one = S754_finite false 8388608 (-23).
Proof. reflexivity. Qed.

Lemma half_bits : F32.half = S754_finite false 8388608 (-24).
Proof. reflexivity. Qed.

Lemma validGap_form (gap : F32.f32) :
  validGap gap ->
  (exists s, gap = S754_zero s)
  \/ exists m e, gap = S754_finite false m e
       /\ -149 <= e <= -24 /\ Zpos m < 2 ^ 24 /\ Zpos m < 2 ^ (- e).
Proof.
  intros (Hv & Hge & Hlt).
  destruct gap as [s|s| |s m e]; [left; eauto| | |].
  - destruct s; discriminate.
  - discriminate.
  - right. destruct s; [discriminate|]. exists m, e. split; [reflexivity|].
    cbn [valid_binary] in Hv. unfold bounded in Hv.
    apply andb_prop in Hv as [Hc _].
    unfold canonical_mantissa in Hc. apply Z.eqb_eq in Hc.
    rewrite fexp32_eq in Hc.
    pose proof (digits2_range m) as Hm.
    remember (Zpos (digits2_pos m)) as d eqn:Ed.
    assert (Hd : d <= 24 /\ -149 <= e) by lia. destruct Hd as [Hd He].
    assert (Hm24 : Zpos m < 2 ^ 24).
    { assert (2 ^ d <= 2 ^ 24) by (apply Z.pow_le_mono_r; lia). lia. }
    assert (He' : e <= -24).
    { unfold F32.lt, SFltb in Hlt. rewrite one_bits in Hlt.
      cbn [SFcompare] in Hlt.
      destruct (Z.compare_spec e (-23)) as [He23|?|?]; [|lia|discriminate].
      exfalso. assert (Hd24 : d = 24) by lia.
      rewrite Pos.compare_cont_spec in Hlt. cbn [Pos.switch_Eq] in Hlt.
      destruct (Pos.compare_spec m 8388608) as [?|Hlt'|?]; try discriminate.
      apply Pos2Z.pos_lt_pos in Hlt'.
      rewrite Hd24 in Hm. change (2 ^ (24 - 1)) with (Z.pos 8388608) in Hm.
      destruct Hm as [Hm _]. exact (Z.lt_irrefl _ (Z.lt_le_trans _ _ _ Hlt' Hm)). }
    split; [split; assumption|]. split; [assumption|].
    assert (2 ^ 24 <= 2 ^ (- e)) by (apply Z.pow_le_mono_r; lia).
    exact (Z.lt_le_trans _ _ _ Hm24 H).
Qed.

(** [1 - gap] and [1 + gap] round the integers [2^-e - m] and
    [2^-e + m], taken at the exponent [e] of the gap. *)
Lemma one_minus_plus (m : positive) (e : Z) :
  e <= -24 -> Zpos m < 2 ^ (- e) ->
  exists x1 x2,
    Zpos x1 = 2 ^ (- e) - Zpos m
    /\ Zpos x2 = 2 ^ (- e) + Zpos m
    /\ F32.sub F32.one (S754_finite false m e) = binary_round 24 128 false x1 e
    /\ F32.add F32.one (S754_finite false m e) = binary_round 24 128 false x2 e.
Proof.
  intros He Hm.
  assert (Hone : fst (shl_align 8388608%positive (-23) e)
                 = Pos.iter xO 8388608%positive (Z.to_pos (-23 - e))).
  { unfold shl_align. destruct (e - -23) as [|k|k] eqn:Hk; try lia.
    cbn [fst]. f_equal. lia. }
  assert (Hgap : fst (shl_align m e e) = m).
  { unfold shl_align. rewrite Z.sub_diag. reflexivity. }
  assert (Hval : Zpos (Pos.iter xO 8388608%positive (Z.to_pos (-23 - e)))
                 = 2 ^ (- e)).
  { rewrite iter_xO, Z2Pos.id by lia.
    change (Z.pos 8388608) with (2 ^ 23).
    rewrite <- Z.pow_add_r by lia. f_equal. lia. }
  rewrite one_bits. unfold F32.sub, F32.add, F32.prec, F32.emax.
  cbn [SFsub SFadd cond_Zopp].
  rewrite (Z.min_r (-23) e) by lia.
  rewrite Hone, Hgap, Hval.
  destruct (2 ^ (- e) - Zpos m) as [|x1|x1] eqn:H1; try lia.
  destruct (2 ^ (- e) + Zpos m) as [|x2|x2] eqn:H2; try lia.
  exists x1, x2. cbn [binary_normalize]. auto.
Qed.

(** For a valid gap both bounds are positive finite numbers, and the
    upper one is not below the lower one. *)
Lemma deadzone_bounds (gap : F32.f32) :
  validGap gap ->
  exists m1 e1 m2 e2,
    Reduce.lower gap = S754_finite false m1 e1
    /\ Reduce.upper gap = S754_finite false m2 e2
    /\ SFltb (Reduce.upper gap) (Reduce.lower gap) = false.
Proof.
  intros Hv. destruct (validGap_form gap Hv)
    as [[s ->]|(m & e & -> & He & Hm24 & Hm)].
  { destruct s; do 4 eexists; (split; [|split]); vm_compute; reflexivity. }
  destruct (one_minus_plus m e) as (x1 & x2 & Hx1 & Hx2 & Hsub & Hadd);
    [lia|lia|].
  unfold Reduce.upper, Reduce.lower. rewrite Hsub, Hadd, half_bits.
  pose proof (digits2_range x1) as Hd1. pose proof (digits2_range x2) as Hd2.
  set (d1 := Zpos (digits2_pos x1)) in *.
  set (d2 := Zpos (digits2_pos x2)) in *.
  assert (Hpe : 2 ^ 24 <= 2 ^ (- e)) by (apply Z.pow_le_mono_r; lia).
  assert (Hd2e : d2 = 1 - e).
  { apply (digits2_bounds x2). replace (1 - e - 1) with (- e) by lia.
    replace (1 - e) with (Z.succ (- e)) by lia.
    rewrite Z.pow_succ_r by lia. lia. }
  assert (Hd1hi : d1 <= - e).
  { destruct (Z.le_gt_cases d1 (- e)) as [|Hgt]; [assumption|].
    assert (2 ^ (- e) <= 2 ^ (d1 - 1)) by (apply Z.pow_le_mono_r; lia). lia. }
  assert (Hd1lo : -23 <= d1 + e).
  { destruct (Z.eq_dec e (-24)) as [->|Hne]; [unfold d1; lia|].
    assert (2 ^ (- e) = 2 * 2 ^ (- e - 1)).
    { rewrite <- Z.pow_succ_r by lia. f_equal. lia. }
    assert (2 ^ 24 <= 2 ^ (- e - 1)) by (apply Z.pow_le_mono_r; lia).
    assert (Hlt : 2 ^ (- e - 1) < 2 ^ d1) by lia.
    apply Z.pow_lt_mono_r_iff in Hlt; lia. }
  destruct (binary_round_normal x1 e) as (m1 & e1 & -> & Hn1 & He1);
    fold d1; try lia.
  destruct (binary_round_normal x2 e) as (m2 & e2 & -> & Hn2 & He2);
    fold d2; try lia.
  fold d1 in He1. fold d2 in He2.
  unfold F32.mul, F32.prec, F32.emax.
  rewrite !mul_half_normal by (trivial; lia).
  exists m1, (e1 - 1), m2, (e2 - 1).
  split; [reflexivity|]. split; [reflexivity|].
  unfold SFltb. cbn [SFcompare].
  destruct (Z.compare_spec (e2 - 1) (e1 - 1)) as [Heq|Hlt|Hgt];
    [|lia|reflexivity].
  assert (Zpos m1 = 2 ^ 23) by lia.
  rewrite Pos.compare_cont_spec. cbn [Pos.switch_Eq].
  destruct (Pos.compare_spec m2 m1) as [?|Hlt|?]; try reflexivity.
  unfold normal in Hn2. lia.
Qed.

(** A score that compares equal to a finite nonzero number is that
    number. *)
Lemma SFeqb_finite (w : spec_float) (s : bool) (m : positive) (e : Z) :
  SFeqb w (S754_finite s m e) = true -> w = S754_finite s m e.
Proof.
  unfold SFeqb. destruct w as [sw|sw| |sw mw ew]; cbn [SFcompare].
  - destruct s; discriminate.
  - destruct sw; discriminate.
  - discriminate.
  - destruct sw, s; try discriminate;
      destruct (Z.compare_spec ew e) as [->|?|?]; try discriminate;
      rewrite Pos.compare_cont_spec; cbn [Pos.switch_Eq];
      destruct (Pos.compare_spec mw m) as [->|?|?]; try discriminate;
      reflexivity.
Qed.

(** ** The deadzone *)

(** C1 fails on the boundary: with the gap 0.5 the lower bound is 0.25,
    and a comment scored exactly 0.25 is dropped, here with its day. *)
Lemma boundary_score_is_discarded :
  validGap F32.half
  /\ Reduce.lower F32.half = quarter
  /\ onBoundary F32.half quarter
  /\ Reduce.kept F32.half quarter = false
  /\ (exists r,
        Finalize
          {| MinCommentLength := 20; Gap := F32.half;
             commentsByDay := <[5 := [str "on the boundary"]]> ∅;
             commitsByDay := ∅ |}
          {| OpenSession := true;
             EvaluateWithProgress := fun _ => Some [quarter] |}
        = ([[str "on the boundary"]], Returned r)
        /\ EmotionsByDay r !! 5 = None /\ CommentsByDay r !! 5 = None)
  /\ ~ deadzoneClaim.
Proof.
  assert (Hv : validGap F32.half) by (repeat split; reflexivity).
  assert (Hb : onBoundary F32.half quarter) by (left; reflexivity).
  assert (Hk : Reduce.kept F32.half quarter = false) by reflexivity.
  split; [exact Hv|]. split; [reflexivity|]. split; [exact Hb|].
  split; [exact Hk|]. split.
  - eexists. split; [vm_compute; reflexivity|]. split; reflexivity.
  - intros Hclaim. destruct (Hclaim F32.half quarter Hv) as [_ H].
    specialize (H Hb). rewrite Hk in H. discriminate.
Qed.

(** C1, amended. For a valid gap, a pair whose score lies strictly
    inside the interval or equals one of its boundaries is dropped: the
    sum and the kept comments are left as they were; a pair is kept, its
    score added to the sum and its comment appended, exactly when the score
    is below the lower bound or above the upper bound. *)
Theorem deadzone_is_closed (gap w : F32.f32) (weights : list F32.f32)
    (pos : nat) (sum : F32.f32) (comments : list gostring)
    (comment : gostring) :
  validGap gap ->
  weights !! pos = Some w ->
  (strictlyInside gap w \/ onBoundary gap w ->
     Reduce.kept gap w = false
     /\ Reduce.commentStep gap weights (Some (pos, sum, comments)) comment
        = Some (S pos, sum, comments))
  /\ (Reduce.kept gap w = true
      <-> F32.lt w (Reduce.lower gap) = true
          \/ F32.gt w (Reduce.upper gap) = true)
  /\ (Reduce.kept gap w = true ->
      Reduce.commentStep gap weights (Some (pos, sum, comments)) comment
      = Some (S pos, F32.add sum w, comments ++ [comment])).
Proof.
  intros Hv Hw.
  destruct (deadzone_bounds gap Hv)
    as (m1 & e1 & m2 & e2 & Hlo & Hup & Hord).
  assert (Hstep : forall b, Reduce.kept gap w = b ->
    Reduce.commentStep gap weights (Some (pos, sum, comments)) comment
    = if b then Some (S pos, F32.add sum w, comments ++ [comment])
      else Some (S pos, sum, comments)).
  { intros b Hb. unfold Reduce.commentStep. by rewrite Hw, Hb. }
  split; [|split].
  - intros Hin.
    assert (Hk : Reduce.kept gap w = false).
    { unfold Reduce.kept, F32.lt, F32.gt. apply orb_false_iff.
      destruct Hin as [[H1 H2]|[Heq|Heq]].
      - unfold F32.lt in H1, H2.
        split; [exact (SFltb_asym _ _ H1)|exact (SFltb_asym _ _ H2)].
      - rewrite Hlo in Heq. apply SFeqb_finite in Heq. rewrite <- Hlo in Heq.
        subst w. split; [apply SFltb_irrefl|exact Hord].
      - rewrite Hup in Heq. apply SFeqb_finite in Heq. rewrite <- Hup in Heq.
        subst w. split; [exact Hord|apply SFltb_irrefl]. }
    split; [exact Hk|]. exact (Hstep false Hk).
  - unfold Reduce.kept. rewrite orb_true_iff. reflexivity.
  - intros Hk. exact (Hstep true Hk).
Qed.

Lemma deadzone_is_closed_witness :
  validGap F32.half
  /\ [tenth 6] !! O = Some (tenth 6)
  /\ strictlyInside F32.half (tenth 6)
  /\ Reduce.kept F32.half (tenth 6) = false
  /\ Reduce.commentStep F32.half [tenth 6] (Some (O, F32.zero, []))
       (str "so so")
     = Some (1%nat, F32.zero, []).
Proof.
  assert (Hv : validGap F32.half) by (repeat split; reflexivity).
  assert (Hw : [tenth 6] !! O = Some (tenth 6)) by reflexivity.
  assert (Hin : strictlyInside F32.half (tenth 6))
    by (split; reflexivity).
  split; [exact Hv|]. split; [exact Hw|]. split; [exact Hin|].
  exact (proj1 (deadzone_is_closed F32.half (tenth 6) [tenth 6] O F32.zero
                  [] (str "so so") Hv Hw) (or_introl Hin)).
Defined.

(** ** The letter-density threshold *)

Lemma thresholdIsFloor_range (k : nat) :
  forall n, thresholdIsFloor n k = true ->
  forall i, n <= i < n + Z.of_nat k -> Merge.thresholdOf i = 3 * i / 5.
Proof.
  induction k as [|k IH]; intros n Hk i Hi; [lia|].
  cbn [thresholdIsFloor] in Hk. apply andb_prop in Hk as [H1 H2].
  destruct (Z.eq_dec i n) as [->|Hne].
  - by apply Z.eqb_eq.
  - apply (IH (n + 1)); [exact H2|lia].
Qed.

(** For a comment shorter than 2^16 bytes the threshold of the
    letter-density step is the integer part of 60% of its length: the
    comment is rejected there exactly when its letters are fewer than that
    integer part. *)
Lemma lettersThreshold_floor (comment : gostring) :
  Merge.len comment < 2 ^ 16 ->
  Merge.lettersThreshold comment = 3 * Merge.len comment / 5
  /\ ((Merge.charsCount comment <? Merge.lettersThreshold comment) = true
      <-> 5 * (countLetters comment + 1) <= 3 * Merge.len comment).
Proof.
  intros Hlen.
  assert (Hfloor : thresholdIsFloor 0 (Z.to_nat (2 ^ 16)) = true)
    by (vm_compute; reflexivity).
  assert (Ht : Merge.lettersThreshold comment = 3 * Merge.len comment / 5).
  { apply (thresholdIsFloor_range _ 0 Hfloor).
    rewrite Z2Nat.id by lia. unfold Merge.len in *. lia. }
  split; [exact Ht|].
  rewrite Ht, charsCount_countLetters, Z.ltb_lt.
  pose proof (Z.div_mod (3 * Merge.len comment) 5 ltac:(lia)) as Hdm.
  pose proof (Z.mod_pos_bound (3 * Merge.len comment) 5 ltac:(lia)) as Hmb.
  lia.
Qed.

(** * Further properties *)

(** ** The configuration after [validate] *)

Lemma SFcompare_None (x y : spec_float) :
  SFcompare x y = None -> x = S754_nan \/ y = S754_nan.
Proof.
  destruct x as [sx|sx| |sx mx ex], y as [sy|sy| |sy my ey]; simpl;
    try discriminate; auto.
Qed.

(** The test of the first [if] of [validate] fails exactly on a NaN and
    on the gaps of [0, 1). *)
Lemma gap_guard_false (g : F32.f32) :
  F32.lt g F32.zero || F32.ge g F32.one = false
  <-> F32.is_nan g = true
      \/ (F32.ge g F32.zero = true /\ F32.lt g F32.one = true).
Proof.
  unfold F32.lt, F32.ge, SFltb, SFleb.
  rewrite (SFcompare_antisym g F32.zero), (SFcompare_antisym g F32.one).
  destruct (SFcompare g F32.zero) as [c0|] eqn:H0.
  2:{ apply SFcompare_None in H0 as [->|H0]; [|discriminate].
      simpl. split; [by left|reflexivity]. }
  destruct (SFcompare g F32.one) as [c1|] eqn:H1.
  2:{ apply SFcompare_None in H1 as [->|H1]; [discriminate|].
      rewrite one_bits in H1. discriminate. }
  assert (Hn : F32.is_nan g = false) by (by destruct g).
  rewrite Hn. destruct c0, c1; simpl; split;
    try discriminate; try (intros [?|[? ?]]; discriminate);
    try (intros _; by right); try reflexivity.
Qed.

Lemma validate_unfold (sent : CommentSentimentAnalysis) :
  validate sent
  = (let g := F32.lt (Gap sent) F32.zero || F32.ge (Gap sent) F32.one in
     let m := MinCommentLength sent <? 10 in
     ({| MinCommentLength :=
           if m then DefaultCommentSentimentCommentMinLength
           else MinCommentLength sent;
         Gap := if g then DefaultCommentSentimentGap else Gap sent;
         commentsByDay := commentsByDay sent;
         commitsByDay := commitsByDay sent |},
      (if g then [GapTooBig (Gap sent) DefaultCommentSentimentGap] else [])
      ++ (if m then [MinLengthTooSmall (MinCommentLength sent)
                       DefaultCommentSentimentCommentMinLength]
          else []))).
Proof.
  unfold validate, validateGap, validateMinLength.
  destruct sent as [minLen gap comments commits].
  cbn [MinCommentLength Gap commentsByDay commitsByDay].
  destruct (F32.lt gap F32.zero || F32.ge gap F32.one);
    cbn [MinCommentLength Gap commentsByDay commitsByDay
         setGap setMinCommentLength];
    destruct (minLen <? 10); reflexivity.
Qed.

Lemma default_gap_passes :
  F32.lt DefaultCommentSentimentGap F32.zero
  || F32.ge DefaultCommentSentimentGap F32.one = false.
Proof. reflexivity. Qed.

Lemma validate_validated (sent : CommentSentimentAnalysis) :
  validated (fst (validate sent)).
Proof.
  rewrite validate_unfold. cbv zeta. unfold validated.
  cbn [fst MinCommentLength Gap]. split.
  - destruct (Z.ltb_spec (MinCommentLength sent) 10);
      [unfold DefaultCommentSentimentCommentMinLength|]; lia.
  - apply gap_guard_false.
    destruct (F32.lt (Gap sent) F32.zero || F32.ge (Gap sent) F32.one)
      eqn:Hg; [apply default_gap_passes|exact Hg].
Qed.

Lemma validated_passes (sent : CommentSentimentAnalysis) :
  validated sent -> validate sent = (sent, []).
Proof.
  intros [Hmin Hgap]. rewrite validate_unfold. cbv zeta.
  apply gap_guard_false in Hgap. rewrite Hgap.
  destruct (Z.ltb_spec (MinCommentLength sent) 10); [lia|].
  by destruct sent.
Qed.

(** X1. Whatever the configuration, the one [validate] leaves has a
    minimum length of at least 10 and a gap that is a NaN or lies in
    [0, 1); each of the two is the value of before or the default; the
    caches are untouched.  [validate] changes nothing and logs nothing
    exactly on the configurations of that form, so that a second
    [validate] is silent. *)
Theorem validate_establishes_valid_configuration
    (sent : CommentSentimentAnalysis) :
  let sent' := fst (validate sent) in
  validated sent'
  /\ (Gap sent' = Gap sent \/ Gap sent' = DefaultCommentSentimentGap)
  /\ (MinCommentLength sent' = MinCommentLength sent
      \/ MinCommentLength sent' = DefaultCommentSentimentCommentMinLength)
  /\ commentsByDay sent' = commentsByDay sent
  /\ commitsByDay sent' = commitsByDay sent
  /\ (validate sent = (sent, []) <-> validated sent)
  /\ (snd (validate sent) = [] <-> validated sent)
  /\ validate sent' = (sent', []).
Proof.
  cbv zeta.
  split; [apply validate_validated|].
  assert (Hlog : snd (validate sent) = [] -> validated sent).
  { rewrite validate_unfold. cbv zeta. cbn [snd]. intros Hnil.
    apply app_eq_nil in Hnil as [Hg Hm]. split.
    - destruct (Z.ltb_spec (MinCommentLength sent) 10); [discriminate|lia].
    - apply gap_guard_false.
      by destruct (F32.lt (Gap sent) F32.zero || F32.ge (Gap sent) F32.one). }
  split; [|split; [|split; [|split; [|split; [|split]]]]].
  - rewrite validate_unfold. cbv zeta. cbn [fst Gap].
    destruct (F32.lt _ _ || F32.ge _ _); auto.
  - rewrite validate_unfold. cbv zeta. cbn [fst MinCommentLength].
    destruct (_ <? _); auto.
  - by rewrite validate_unfold.
  - by rewrite validate_unfold.
  - split; [|apply validated_passes].
    intros Heq. apply Hlog. exact (f_equal snd Heq).
  - split; [exact Hlog|].
    intros Hv. by rewrite (validated_passes _ Hv).
  - apply validated_passes, validate_validated.
Qed.

(** ** [Configure] followed by [Initialize] *)

(** X2. [Configure] stores the options that were supplied and keeps the
    others, always passing the outcome through [validate]; it takes the
    commits of the facts and leaves the comment cache alone.  The
    [Initialize] that follows empties the cache, keeps the configuration
    and the commits, and logs nothing: the warnings of a rejected option
    are printed once. *)
Theorem configure_then_initialize (sent : CommentSentimentAnalysis)
    (facts : Facts) :
  let configured := fst (Configure sent facts) in
  let initialized := fst (Initialize configured) in
  let supplied :=
    {| MinCommentLength :=
         default (MinCommentLength sent) (factMinLength facts);
       Gap := default (Gap sent) (factGap facts);
       commentsByDay := commentsByDay sent;
       commitsByDay := commitsByDay sent |} in
  Gap configured = Gap (fst (validate supplied))
  /\ MinCommentLength configured = MinCommentLength (fst (validate supplied))
  /\ snd (Configure sent facts) = snd (validate supplied)
  /\ commentsByDay configured = commentsByDay sent
  /\ commitsByDay configured = factCommitsByDay facts
  /\ validated configured
  /\ snd (Initialize configured) = []
  /\ Gap initialized = Gap configured
  /\ MinCommentLength initialized = MinCommentLength configured
  /\ commitsByDay initialized = factCommitsByDay facts
  /\ commentsByDay initialized = ∅.
Proof.
  cbv zeta.
  assert (Hsup :
    match factMinLength facts with
    | Some val =>
        setMinCommentLength val
          match factGap facts with
          | Some val0 => setGap val0 sent
          | None => sent
          end
    | None => match factGap facts with
              | Some val => setGap val sent
              | None => sent
              end
    end
    = {| MinCommentLength :=
           default (MinCommentLength sent) (factMinLength facts);
         Gap := default (Gap sent) (factGap facts);
         commentsByDay := commentsByDay sent;
         commitsByDay := commitsByDay sent |}).
  { destruct sent, (factMinLength facts), (factGap facts); reflexivity. }
  unfold Configure. rewrite Hsup.
  set (supplied := {| MinCommentLength := _ |}).
  pose proof (validate_validated supplied) as Hv.
  destruct (validate supplied) as [s1 log1] eqn:Hval.
  cbn [fst snd MinCommentLength Gap commentsByDay commitsByDay] in *.
  assert (Hc : commentsByDay s1 = commentsByDay sent).
  { replace s1 with (fst (validate supplied)) by (by rewrite Hval).
    by rewrite validate_unfold. }
  set (configured := {| MinCommentLength := MinCommentLength s1 |}).
  assert (Hvc : validated configured) by exact Hv.
  assert (Hvi : validated (setCommentsByDay ∅ configured)) by exact Hv.
  unfold Initialize. rewrite (validated_passes _ Hvi).
  repeat split; try reflexivity; try exact Hc; apply Hv.
Qed.

(** ** [Consume] over a history *)

Lemma consumeAll_cons {UASTChange : Type}
    (Extract : list UASTChange -> list Node)
    (sent : CommentSentimentAnalysis) (c : Deps UASTChange) (cs : list (Deps UASTChange)) :
  consumeAll Extract sent (c :: cs)
  = consumeAll Extract (fst (Consume Extract sent c)) cs.
Proof. reflexivity. Qed.

Lemma consumeAll_config {UASTChange : Type}
    (Extract : list UASTChange -> list Node)
    (commits : list (Deps UASTChange)) :
  forall sent,
    MinCommentLength (consumeAll Extract sent commits) = MinCommentLength sent
    /\ Gap (consumeAll Extract sent commits) = Gap sent
    /\ commitsByDay (consumeAll Extract sent commits) = commitsByDay sent.
Proof.
  induction commits as [|c cs IH]; intros sent; [done|].
  rewrite consumeAll_cons.
  destruct (IH (fst (Consume Extract sent c))) as (-> & -> & ->). done.
Qed.

Lemma consumeAll_lookup {UASTChange : Type}
    (Extract : list UASTChange -> list Node)
    (commits : list (Deps UASTChange)) (d : Z) :
  forall sent,
    commentsByDay (consumeAll Extract sent commits) !! d
    = if decide (commitsOfDay d commits = []) then commentsByDay sent !! d
      else Some (dayComments sent d
                 ++ concat (map (commitComments Extract
                                   (MinCommentLength sent))
                              (commitsOfDay d commits))).
Proof.
  induction commits as [|c cs IH]; intros sent; [done|].
  rewrite consumeAll_cons, IH. clear IH.
  unfold commitsOfDay, dayComments. cbn [List.filter].
  cbn [Consume fst setCommentsByDay commentsByDay MinCommentLength].
  fold (commitComments Extract (MinCommentLength sent) c).
  destruct (Z.eqb_spec (day c) d) as [->|Hne].
  - rewrite lookup_insert_eq. cbn [default from_option id].
    rewrite (decide_False (P := _ :: _ = [])) by done.
    cbn [map concat].
    case_decide as Hrest.
    + rewrite Hrest. cbn [map concat]. by rewrite app_nil_r.
    + by rewrite <- app_assoc.
  - rewrite lookup_insert_ne by done. reflexivity.
Qed.

(** X3. After [Consume] has run over a history, the list of a day none
    of whose commits was seen is the one of before, and the list of any
    other day is the one of before followed by the comments of the
    commits of that day, in their order; a commit without comments still
    gives its day an entry.  The configuration and the commits per day are
    never touched.  So two histories with, day by day, the same commits in
    the same order leave the same state. *)
Theorem consume_accumulates_per_day {UASTChange : Type}
    (Extract : list UASTChange -> list Node)
    (sent : CommentSentimentAnalysis) (commits : list (Deps UASTChange)) :
  let sent' := consumeAll Extract sent commits in
  MinCommentLength sent' = MinCommentLength sent
  /\ Gap sent' = Gap sent
  /\ commitsByDay sent' = commitsByDay sent
  /\ (forall d,
        commitsOfDay d commits = [] ->
        commentsByDay sent' !! d = commentsByDay sent !! d)
  /\ (forall d,
        commitsOfDay d commits <> [] ->
        commentsByDay sent' !! d
        = Some (dayComments sent d
                ++ concat (map (commitComments Extract
                                  (MinCommentLength sent))
                             (commitsOfDay d commits))))
  /\ (forall commits2,
        (forall d, commitsOfDay d commits2 = commitsOfDay d commits) ->
        consumeAll Extract sent commits2 = sent').
Proof.
  cbv zeta. destruct (consumeAll_config Extract commits sent) as (Hm & Hg & Hc).
  split; [exact Hm|]. split; [exact Hg|]. split; [exact Hc|].
  split; [|split].
  - intros d Hd. rewrite consumeAll_lookup. by rewrite decide_True.
  - intros d Hd. rewrite consumeAll_lookup. by rewrite decide_False.
  - intros commits2 Hsame.
    destruct (consumeAll_config Extract commits2 sent) as (Hm2 & Hg2 & Hc2).
    assert (Hmap : commentsByDay (consumeAll Extract sent commits2)
                   = commentsByDay (consumeAll Extract sent commits)).
    { apply map_eq. intros d. rewrite !consumeAll_lookup. by rewrite Hsame. }
    destruct (consumeAll Extract sent commits2) as [m2 g2 cm2 ch2],
             (consumeAll Extract sent commits) as [m1 g1 cm1 ch1].
    cbn [MinCommentLength Gap commentsByDay commitsByDay] in *.
    congruence.
Qed.

(** ** The ways [Finalize] ends *)

Lemma commentLoop_None gap (weights : list F32.f32) (cs : list gostring) :
  foldl (Reduce.commentStep gap weights) None cs = None.
Proof. induction cs as [|c cs IH]; [reflexivity|exact IH]. Qed.

Lemma dayLoop_None (sent : CommentSentimentAnalysis)
    (weights : list F32.f32) (ds : list Z) :
  foldl (Reduce.dayStep sent weights) None ds = None.
Proof. induction ds as [|k ds IH]; [reflexivity|exact IH]. Qed.

(** The loop over a day's comments reads [weights] out of range as soon
    as fewer scores than comments are left. *)
Lemma commentLoop_short gap (weights : list F32.f32) (cs : list gostring) :
  forall (pos : nat) sum acc,
    (pos <= length weights)%nat ->
    (length weights < pos + length cs)%nat ->
    foldl (Reduce.commentStep gap weights) (Some (pos, sum, acc)) cs = None.
Proof.
  induction cs as [|c cs IH]; intros pos sum acc Hpos Hlen; simpl in *.
  - lia.
  - destruct (weights !! pos) as [w|] eqn:Hw.
    + apply lookup_lt_Some in Hw.
      destruct (Reduce.kept gap w); apply IH; lia.
    + apply commentLoop_None.
Qed.

Lemma dayLoop_short (sent : CommentSentimentAnalysis)
    (weights : list F32.f32) (ds : list Z) :
  forall (pos : nat) (r : CommentSentimentResult),
    (pos <= length weights)%nat ->
    (length weights < pos + totalComments sent ds)%nat ->
    foldl (Reduce.dayStep sent weights) (Some (pos, r)) ds = None.
Proof.
  unfold totalComments.
  induction ds as [|k ds IH]; intros pos r Hpos Hlen; simpl in *.
  - lia.
  - rewrite length_app in Hlen. fold (dayComments sent k).
    destruct (le_lt_dec (pos + length (dayComments sent k))
                (length weights)) as [Hk|Hk].
    + rewrite commentLoop by lia. cbv zeta. apply IH; lia.
    + rewrite commentLoop_short by lia. apply dayLoop_None.
Qed.

Lemma Finalize_texts (sent : CommentSentimentAnalysis) :
  flatTexts sent (sortedKeys (commentsByDay sent)) = allTexts sent.
Proof. apply flatTexts_concat. Qed.

(** The three ways [Finalize] panics. *)
Lemma Finalize_panics (sent : CommentSentimentAnalysis) (scorer : Scorer) :
  (OpenSession scorer = false -> Finalize sent scorer = ([], Panicked))
  /\ (OpenSession scorer = true ->
      EvaluateWithProgress scorer (allTexts sent) = None ->
      Finalize sent scorer = ([allTexts sent], Panicked))
  /\ (forall weights,
        OpenSession scorer = true ->
        EvaluateWithProgress scorer (allTexts sent) = Some weights ->
        (length weights < length (allTexts sent))%nat ->
        Finalize sent scorer = ([allTexts sent], Panicked)).
Proof.
  unfold Finalize. rewrite Finalize_texts. split; [|split].
  - intros ->. reflexivity.
  - intros -> ->. reflexivity.
  - intros weights -> -> Hlen. cbn [negb].
    rewrite dayLoop_short; [reflexivity|lia|].
    unfold totalComments. fold (allTexts sent). lia.
Qed.

(** When [Finalize] returns, the scorer has answered with a score for
    every text. *)
Lemma Finalize_returned (sent : CommentSentimentAnalysis) (scorer : Scorer)
    (r : CommentSentimentResult) :
  snd (Finalize sent scorer) = Returned r ->
  exists weights,
    OpenSession scorer = true
    /\ EvaluateWithProgress scorer (allTexts sent) = Some weights
    /\ (length (allTexts sent) <= length weights)%nat.
Proof.
  intros Hret.
  destruct (Finalize_panics sent scorer) as (Hclosed & Herr & Hshort).
  destruct (OpenSession scorer) eqn:Hopen.
  2:{ rewrite Hclosed in Hret by done. discriminate. }
  destruct (EvaluateWithProgress scorer (allTexts sent)) as [weights|]
    eqn:Heval.
  2:{ rewrite Herr in Hret by done. discriminate. }
  exists weights. split; [done|]. split; [done|].
  destruct (le_lt_dec (length (allTexts sent)) (length weights)) as [?|Hlt];
    [done|].
  rewrite (Hshort weights) in Hret by done. discriminate.
Qed.

(** X4. [Finalize] panics in exactly three cases: the session cannot be
    opened, and then the scorer is not called; the scorer returns an
    error; or it returns fewer scores than it was given texts, the index
    then running out of range.  When the session opens the scorer is
    called once, on all the texts. *)
Theorem finalize_panics_exactly_when (sent : CommentSentimentAnalysis)
    (scorer : Scorer) :
  let texts := allTexts sent in
  (snd (Finalize sent scorer) = Panicked
   <-> OpenSession scorer = false
       \/ EvaluateWithProgress scorer texts = None
       \/ exists weights,
            EvaluateWithProgress scorer texts = Some weights
            /\ (length weights < length texts)%nat)
  /\ fst (Finalize sent scorer)
     = (if OpenSession scorer then [texts] else []).
Proof.
  cbv zeta.
  destruct (Finalize_panics sent scorer) as (Hclosed & Herr & Hshort).
  destruct (OpenSession scorer) eqn:Hopen.
  2:{ rewrite Hclosed by done. split; [|reflexivity]. split; auto. }
  destruct (EvaluateWithProgress scorer (allTexts sent)) as [weights|]
    eqn:Heval.
  2:{ rewrite Herr by done. split; [|reflexivity]. split; auto. }
  destruct (le_lt_dec (length (allTexts sent)) (length weights)) as [Hle|Hlt].
  - destruct (Finalize_spec sent scorer weights Hopen Heval Hle)
      as (r & -> & _).
    split; [|reflexivity]. split; [discriminate|].
    intros [?|[?|(w & [= <-] & Hw)]]; try discriminate. lia.
  - rewrite (Hshort weights) by done. split; [|reflexivity].
    split; [|done]. intros _. right. right. by exists weights.
Qed.

(** ** The result of [Finalize] *)

(** What a returned result holds, day by day. *)
Lemma Finalize_returned_spec (sent : CommentSentimentAnalysis)
    (scorer : Scorer) (r : CommentSentimentResult) :
  snd (Finalize sent scorer) = Returned r ->
  exists weights,
    EvaluateWithProgress scorer (allTexts sent) = Some weights
    /\ (length (allTexts sent) <= length weights)%nat
    /\ resultCommitsByDay r = commitsByDay sent
    /\ forall d,
         let kept := keptOfDay sent weights (dayOffset sent d) d in
         if decide (d ∈ sortedKeys (commentsByDay sent) /\ kept <> []) then
           EmotionsByDay r !! d = Some (mean (map snd kept))
           /\ CommentsByDay r !! d = Some (map fst kept)
         else
           EmotionsByDay r !! d = None /\ CommentsByDay r !! d = None.
Proof.
  intros Hret.
  destruct (Finalize_returned sent scorer r Hret)
    as (weights & Hopen & Heval & Hlen).
  destruct (Finalize_spec sent scorer weights Hopen Heval Hlen)
    as (r' & Hfin & Hcom & Hdays).
  rewrite Hfin in Hret. injection Hret as <-.
  exists weights. done.
Qed.

Lemma keptPairs_kept gap (cs : list gostring) (ws : list F32.f32) :
  Forall (fun w => Reduce.kept gap w = true) (map snd (keptPairs gap cs ws)).
Proof.
  unfold keptPairs. apply Forall_forall. intros w Hw.
  apply list_elem_of_fmap in Hw as ([c w'] & -> & Hin).
  apply list_elem_of_In, filter_In in Hin. apply Hin.
Qed.

(** X5. In a result [Finalize] returns, the commits per day are those of
    the state; the two maps have the same days; the comments of a day are
    never an empty list, they are comments accumulated for that day, in
    their order; and the score of the day is the mean of as many scores,
    each outside the deadzone. *)
Theorem finalize_result_is_consistent (sent : CommentSentimentAnalysis)
    (scorer : Scorer) (r : CommentSentimentResult) :
  snd (Finalize sent scorer) = Returned r ->
  resultCommitsByDay r = commitsByDay sent
  /\ (forall d,
        is_Some (EmotionsByDay r !! d) <-> is_Some (CommentsByDay r !! d))
  /\ (forall d cs,
        CommentsByDay r !! d = Some cs ->
        cs <> []
        /\ is_Some (commentsByDay sent !! d)
        /\ cs `sublist_of` dayComments sent d
        /\ exists ws,
             EmotionsByDay r !! d = Some (mean ws)
             /\ length ws = length cs
             /\ Forall (fun w => Reduce.kept (Gap sent) w = true) ws).
Proof.
  intros Hret.
  destruct (Finalize_returned_spec sent scorer r Hret)
    as (weights & _ & _ & Hcom & Hdays).
  split; [exact Hcom|]. split.
  - intros d. specialize (Hdays d). cbv zeta in Hdays.
    destruct (decide _); destruct Hdays as [-> ->]; [by split; eauto|].
    split; intros [? [=]].
  - intros d cs Hcs. specialize (Hdays d). cbv zeta in Hdays.
    destruct (decide _) as [[Hd Hkept]|_]; destruct Hdays as [He Hc];
      rewrite Hc in Hcs; [|discriminate].
    injection Hcs as <-. split; [|split; [|split]].
    + by destruct (keptOfDay _ _ _ _).
    + by apply sortedKeys_elem.
    + apply keptPairs_sublist.
    + eexists. split; [exact He|]. split; [by rewrite !length_map|].
      apply keptPairs_kept.
Qed.

Lemma finalize_result_is_consistent_witness :
  exists r,
    snd (Finalize (exampleState F32.half) exampleScorer) = Returned r
    /\ forall d cs,
         CommentsByDay r !! d = Some cs ->
         cs <> []
         /\ is_Some (commentsByDay (exampleState F32.half) !! d)
         /\ cs `sublist_of` dayComments (exampleState F32.half) d
         /\ exists ws,
              EmotionsByDay r !! d = Some (mean ws)
              /\ length ws = length cs
              /\ Forall (fun w => Reduce.kept F32.half w = true) ws.
Proof.
  eexists.
  assert (H : snd (Finalize (exampleState F32.half) exampleScorer)
              = Returned _) by (vm_compute; reflexivity).
  exact (conj H
    (proj2 (proj2
       (finalize_result_is_consistent (exampleState F32.half)
          exampleScorer _ H)))).
Defined.

(** ** The scores [Finalize] reads *)

Lemma offsetOf_bound (sent : CommentSentimentAnalysis) (ds : list Z)
    (d : Z) :
  d ∈ ds ->
  (offsetOf sent ds d + length (dayComments sent d)
   <= totalComments sent ds)%nat.
Proof.
  unfold totalComments. intros Hd.
  induction ds as [|k ds IH]; simpl.
  - by apply not_elem_of_nil in Hd.
  - rewrite length_app. destruct (Z.eqb_spec k d) as [->|Hne]; [lia|].
    apply elem_of_cons in Hd as [->|Hd]; [done|].
    specialize (IH Hd). lia.
Qed.

Lemma scoresAt_take (weights : list F32.f32) (total pos n : nat) :
  (pos + n <= total)%nat ->
  scoresAt (take total weights) pos n = scoresAt weights pos n.
Proof.
  intros Hle. unfold scoresAt.
  rewrite !take_drop_commute, take_take. f_equal. f_equal. lia.
Qed.

Lemma result_eq (r1 r2 : CommentSentimentResult) :
  (forall d, EmotionsByDay r1 !! d = EmotionsByDay r2 !! d) ->
  (forall d, CommentsByDay r1 !! d = CommentsByDay r2 !! d) ->
  resultCommitsByDay r1 = resultCommitsByDay r2 ->
  r1 = r2.
Proof.
  destruct r1 as [e1 c1 h1], r2 as [e2 c2 h2]. simpl.
  intros He Hc ->. f_equal; by apply map_eq.
Qed.

(** X6. [Finalize] reads one score per text and no more: two scorers
    whose answers agree on the first [length texts] scores give the same
    result, whatever follows in either answer. *)
Theorem finalize_ignores_surplus_scores (sent : CommentSentimentAnalysis)
    (scorer1 scorer2 : Scorer) (weights1 weights2 : list F32.f32) :
  let texts := allTexts sent in
  OpenSession scorer1 = true ->
  OpenSession scorer2 = true ->
  EvaluateWithProgress scorer1 texts = Some weights1 ->
  EvaluateWithProgress scorer2 texts = Some weights2 ->
  (length texts <= length weights1)%nat ->
  take (length texts) weights1 = take (length texts) weights2 ->
  Finalize sent scorer1 = Finalize sent scorer2
  /\ exists r, snd (Finalize sent scorer1) = Returned r.
Proof.
  cbv zeta. intros Hopen1 Hopen2 Heval1 Heval2 Hlen1 Htake.
  assert (Hlen2 : (length (allTexts sent) <= length weights2)%nat).
  { apply (f_equal length) in Htake. rewrite !length_take in Htake. lia. }
  destruct (Finalize_spec sent scorer1 weights1 Hopen1 Heval1 Hlen1)
    as (r1 & Hfin1 & Hcom1 & Hdays1).
  destruct (Finalize_spec sent scorer2 weights2 Hopen2 Heval2 Hlen2)
    as (r2 & Hfin2 & Hcom2 & Hdays2).
  split; [|exists r1; by rewrite Hfin1].
  rewrite Hfin1, Hfin2. f_equal. f_equal.
  assert (Hsame : forall d,
    d ∈ sortedKeys (commentsByDay sent) ->
    keptOfDay sent weights1 (dayOffset sent d) d
    = keptOfDay sent weights2 (dayOffset sent d) d).
  { intros d Hd. unfold keptOfDay. f_equal.
    pose proof (offsetOf_bound sent _ d Hd) as Hb.
    unfold totalComments in Hb. fold (allTexts sent) in Hb.
    fold (dayOffset sent d) in Hb.
    rewrite <- (scoresAt_take weights1 (length (allTexts sent))) by done.
    rewrite <- (scoresAt_take weights2 (length (allTexts sent))) by done.
    by rewrite Htake. }
  assert (Hboth : forall d,
    EmotionsByDay r1 !! d = EmotionsByDay r2 !! d
    /\ CommentsByDay r1 !! d = CommentsByDay r2 !! d).
  { intros d. specialize (Hdays1 d). specialize (Hdays2 d).
    cbv zeta in Hdays1, Hdays2.
    destruct (decide (d ∈ sortedKeys (commentsByDay sent))) as [Hd|Hd].
    - rewrite <- (Hsame d Hd) in Hdays2.
      destruct (decide _); destruct Hdays1 as [-> ->], Hdays2 as [-> ->];
        done.
    - rewrite decide_False in Hdays1 by (intros [? _]; done).
      rewrite decide_False in Hdays2 by (intros [? _]; done).
      destruct Hdays1 as [-> ->], Hdays2 as [-> ->]. done. }
  apply result_eq; [apply Hboth|apply Hboth|congruence].
Qed.

Lemma finalize_ignores_surplus_scores_witness :
  Finalize (exampleState F32.half) exampleScorer
  = Finalize (exampleState F32.half) verboseScorer
  /\ exists r,
       snd (Finalize (exampleState F32.half) exampleScorer) = Returned r.
Proof.
  assert (Hlen : (length (allTexts (exampleState F32.half))
                  <= length exampleWeights)%nat) by (vm_compute; lia).
  assert (Htake :
    take (length (allTexts (exampleState F32.half))) exampleWeights
    = take (length (allTexts (exampleState F32.half)))
        (exampleWeights ++ [F32.zero; F32.one])) by reflexivity.
  exact (finalize_ignores_surplus_scores (exampleState F32.half)
           exampleScorer verboseScorer exampleWeights
           (exampleWeights ++ [F32.zero; F32.one])
           eq_refl eq_refl eq_refl eq_refl Hlen Htake).
Defined.

(** X7. When no day holds a comment, as right after [Initialize] or
    after commits without comments, [Finalize] still opens the session
    and calls the scorer, on the empty list; whatever scores come back,
    the result has no day at all. *)
Theorem finalize_without_comments (sent : CommentSentimentAnalysis)
    (scorer : Scorer) (weights : list F32.f32) :
  (forall d cs, commentsByDay sent !! d = Some cs -> cs = []) ->
  OpenSession scorer = true ->
  EvaluateWithProgress scorer [] = Some weights ->
  Finalize sent scorer
  = ([[]], Returned {| EmotionsByDay := ∅; CommentsByDay := ∅;
                       resultCommitsByDay := commitsByDay sent |}).
Proof.
  intros Hnone Hopen Heval.
  assert (Hday : forall d, dayComments sent d = []).
  { intros d. unfold dayComments.
    destruct (commentsByDay sent !! d) as [cs|] eqn:Hd; [|reflexivity].
    exact (Hnone d cs Hd). }
  assert (Htexts : allTexts sent = []).
  { unfold allTexts.
    induction (sortedKeys (commentsByDay sent)) as [|k ks IH];
      [reflexivity|].
    simpl. by rewrite Hday, IH. }
  pose proof (Finalize_spec sent scorer weights Hopen) as Hspec.
  cbv zeta in Hspec. fold (allTexts sent) in Hspec.
  rewrite Htexts in Hspec.
  destruct (Hspec Heval (Nat.le_0_l _)) as (r & -> & Hcom & Hdays).
  f_equal. f_equal. apply result_eq; [| |exact Hcom].
  - intros d. specialize (Hdays d). cbv zeta in Hdays.
    unfold keptOfDay in Hdays. rewrite Hday in Hdays.
    rewrite decide_False in Hdays by (intros [_ ?]; done).
    destruct Hdays as [-> _]. cbn [EmotionsByDay]. by rewrite lookup_empty.
  - intros d. specialize (Hdays d). cbv zeta in Hdays.
    unfold keptOfDay in Hdays. rewrite Hday in Hdays.
    rewrite decide_False in Hdays by (intros [_ ?]; done).
    destruct Hdays as [_ ->]. cbn [CommentsByDay]. by rewrite lookup_empty.
Qed.

Lemma finalize_without_comments_witness :
  Finalize idleState exampleScorer
  = ([[]], Returned {| EmotionsByDay := ∅; CommentsByDay := ∅;
                       resultCommitsByDay := ∅ |}).
Proof.
  assert (Hnone : forall d cs,
            commentsByDay idleState !! d = Some cs -> cs = []).
  { intros d cs. unfold idleState. cbn [commentsByDay].
    destruct (decide (d = 3)) as [->|Hne].
    - rewrite lookup_insert_eq. congruence.
    - rewrite lookup_insert_ne by done. rewrite lookup_empty.
      discriminate. }
  exact (finalize_without_comments idleState exampleScorer exampleWeights
           Hnone eq_refl eq_refl).
Defined.

(** ** From the commits to the result *)

Lemma Initialize_commentsByDay (sent : CommentSentimentAnalysis) :
  commentsByDay (fst (Initialize sent)) = ∅.
Proof. unfold Initialize. by rewrite validate_unfold. Qed.

(** X8. Run as the pipeline runs it, [Initialize], then [Consume] on
    every commit, then [Finalize], the analysis reports a day only if a
    commit of that day was consumed, and the comments it reports for the
    day are comments extracted from the commits of that day, in the order
    of the commits, under the minimum length [Initialize] left, which is
    at least 10. *)
Theorem pipeline_reports_days_of_commits {UASTChange : Type}
    (Extract : list UASTChange -> list Node)
    (sent : CommentSentimentAnalysis) (commits : list (Deps UASTChange))
    (scorer : Scorer) (r : CommentSentimentResult) :
  let started := fst (Initialize sent) in
  snd (Finalize (consumeAll Extract started commits) scorer) = Returned r ->
  10 <= MinCommentLength started
  /\ forall d cs,
       CommentsByDay r !! d = Some cs ->
       commitsOfDay d commits <> []
       /\ cs `sublist_of`
            concat (map (commitComments Extract (MinCommentLength started))
                      (commitsOfDay d commits)).
Proof.
  cbv zeta. intros Hret. split; [apply validate_validated|].
  intros d cs Hcs.
  destruct (Finalize_returned_spec _ scorer r Hret)
    as (weights & _ & _ & _ & Hdays).
  specialize (Hdays d). cbv zeta in Hdays.
  destruct (decide _) as [[Hd _]|_]; destruct Hdays as [_ Hc];
    rewrite Hc in Hcs; [|discriminate].
  injection Hcs as <-.
  apply sortedKeys_elem in Hd.
  rewrite consumeAll_lookup in Hd.
  rewrite Initialize_commentsByDay, lookup_empty in Hd.
  case_decide as Hnil; [by destruct Hd|].
  split; [exact Hnil|].
  assert (Hday :
    dayComments (consumeAll Extract (fst (Initialize sent)) commits) d
    = concat (map (commitComments Extract
                     (MinCommentLength (fst (Initialize sent))))
                (commitsOfDay d commits))).
  { unfold dayComments at 1. rewrite consumeAll_lookup.
    rewrite decide_False by done. unfold dayComments.
    by rewrite Initialize_commentsByDay, lookup_empty. }
  rewrite <- Hday. apply keptPairs_sublist.
Qed.

Lemma pipeline_reports_days_of_commits_witness :
  exists r,
    snd (Finalize (consumeAll (fun nodes => nodes)
                     (fst (Initialize (exampleState F32.half)))
                     exampleHistory) exampleScorer)
    = Returned r
    /\ CommentsByDay r !! 2
       = Some [str "this loop is slow and ugly, sorry"]
    /\ forall d cs,
       CommentsByDay r !! d = Some cs ->
       commitsOfDay d exampleHistory <> []
       /\ cs `sublist_of`
            concat (map (commitComments (fun nodes => nodes)
                           (MinCommentLength
                              (fst (Initialize (exampleState F32.half)))))
                      (commitsOfDay d exampleHistory)).
Proof.
  eexists.
  assert (H : snd (Finalize (consumeAll (fun nodes => nodes)
                     (fst (Initialize (exampleState F32.half)))
                     exampleHistory) exampleScorer)
              = Returned _) by (vm_compute; reflexivity).
  split; [exact H|]. split; [vm_compute; reflexivity|].
  exact (proj2 (pipeline_reports_days_of_commits (fun nodes => nodes)
                  (exampleState F32.half) exampleHistory exampleScorer _ H)).
Defined.

(** ** The merger and the order of its input *)

Lemma runs_ext (nodes nodes' : list Node) :
  (forall l, nodesAt nodes l = nodesAt nodes' l) ->
  forall lineNums cur, runs nodes lineNums cur = runs nodes' lineNums cur.
Proof.
  intros Hsame lineNums.
  induction lineNums as [|line rest IH]; intros cur; [reflexivity|].
  cbn [runs]. rewrite Hsame.
  destruct rest as [|next rest']; [reflexivity|].
  by rewrite !IH.
Qed.

Lemma sortedKeys_bucketLines (nodes : list Node) (l : Z) :
  l ∈ sortedKeys (Merge.bucketLines nodes) <-> nodesAt nodes l <> [].
Proof.
  rewrite sortedKeys_elem. apply bucketLines_lookup.
Qed.

(** The merged comments depend on the nodes only through the list of
    the nodes that start on each line. *)
Lemma mergePhase_ext (nodes nodes' : list Node) :
  (forall l, nodesAt nodes l = nodesAt nodes' l) ->
  Merge.mergePhase nodes = Merge.mergePhase nodes'.
Proof.
  intros Hsame. rewrite !mergePhase_runs.
  rewrite (runs_ext nodes nodes' Hsame). f_equal.
  apply StronglySorted_lt_unique; try apply sortedKeys_sorted.
  intros k. by rewrite !sortedKeys_bucketLines, Hsame.
Qed.

Lemma nodesAt_app (a b : list Node) (l : Z) :
  nodesAt (a ++ b) l = nodesAt a l ++ nodesAt b l.
Proof. apply List.filter_app. Qed.

Lemma nodesAt_hasStart (nodes : list Node) (l : Z) :
  nodesAt (List.filter hasStart nodes) l = nodesAt nodes l.
Proof.
  unfold nodesAt. induction nodes as [|n nodes IH]; [reflexivity|].
  cbn [List.filter]. unfold hasStart at 1, startsAt at 2.
  destruct (StartPosition n) as [p|] eqn:Hp.
  - cbn [List.filter]. unfold startsAt at 1. rewrite Hp.
    destruct (Line p =? l); by rewrite IH.
  - exact IH.
Qed.

(** X9. The merger does not depend on where the nodes without a start
    position stand in its input, nor on how the nodes of different lines
    are interleaved: dropping the former, or swapping two parts of the
    input that share no start line, leaves the merged comments, and so
    the output of [mergeComments], the same. *)
Theorem merge_ignores_order_across_lines (minLen : Z) (a b : list Node) :
  Merge.mergePhase (List.filter hasStart a) = Merge.mergePhase a
  /\ Merge.mergeComments minLen (List.filter hasStart a)
     = Merge.mergeComments minLen a
  /\ ((forall n1 n2 p1 p2,
         n1 ∈ a -> n2 ∈ b ->
         StartPosition n1 = Some p1 -> StartPosition n2 = Some p2 ->
         Line p1 <> Line p2) ->
      Merge.mergePhase (a ++ b) = Merge.mergePhase (b ++ a)
      /\ Merge.mergeComments minLen (a ++ b)
         = Merge.mergeComments minLen (b ++ a)).
Proof.
  assert (H1 : Merge.mergePhase (List.filter hasStart a)
               = Merge.mergePhase a)
    by (apply mergePhase_ext, nodesAt_hasStart).
  split; [exact H1|]. split; [unfold Merge.mergeComments; by rewrite H1|].
  intros Hdisj.
  assert (H2 : Merge.mergePhase (a ++ b) = Merge.mergePhase (b ++ a)).
  { apply mergePhase_ext. intros l. rewrite !nodesAt_app.
    destruct (nodesAt a l) as [|x xs] eqn:Ha; [by rewrite app_nil_r|].
    destruct (nodesAt b l) as [|y ys] eqn:Hb; [by rewrite app_nil_r|].
    exfalso.
    assert (Hna : nodesAt a l <> []) by (by rewrite Ha).
    assert (Hnb : nodesAt b l <> []) by (by rewrite Hb).
    apply nodesAt_nonempty in Hna as (n1 & Hn1 & Hs1).
    apply nodesAt_nonempty in Hnb as (n2 & Hn2 & Hs2).
    by apply (Hdisj n1 n2 _ _ Hn1 Hn2 Hs1 Hs2). }
  split; [exact H2|]. unfold Merge.mergeComments. by rewrite H2.
Qed.

(** ** How many merged comments *)

Lemma runs_length (nodes : list Node) (lineNums : list Z) :
  forall cur,
    (length (runs nodes lineNums cur) <= length lineNums)%nat
    /\ (lineNums <> [] -> runs nodes lineNums cur <> []).
Proof.
  induction lineNums as [|line rest IH]; intros cur; [done|].
  cbn [runs]. destruct rest as [|next rest'].
  - split; [simpl; lia|done].
  - destruct (next <=? _).
    + destruct (IH (cur ++ tokensOf (nodesAt nodes line))) as [IH1 IH2].
      split; [simpl in *; lia|]. intros _. by apply IH2.
    + destruct (IH []) as [IH1 _]. split; [simpl in *; lia|done].
Qed.

Lemma bucket_size (nodes : list Node) :
  forall acc : gmap Z (list Node),
    (size (foldl Merge.addNode acc nodes) <= size acc + length nodes)%nat.
Proof.
  induction nodes as [|n nodes IH]; intros acc; simpl; [lia|].
  etransitivity; [apply IH|].
  unfold Merge.addNode. destruct (StartPosition n) as [p|]; [|lia].
  cbv zeta.
  destruct (acc !! Line p) as [ns|] eqn:Hp.
  - rewrite map_size_insert_Some by eauto. lia.
  - rewrite map_size_insert_None by done. lia.
Qed.

Lemma sortedKeys_length {A : Type} (m : gmap Z A) :
  length (sortedKeys m) = size m.
Proof.
  rewrite sortedKeys_Permutation, length_map. apply length_map_to_list.
Qed.

Lemma omap_length {A B : Type} (f : A -> option B) (l : list A) :
  (length (omap f l) <= length l)%nat.
Proof.
  induction l as [|x l IH]; csimpl; [lia|].
  destruct (f x); csimpl; lia.
Qed.

(** X10. [mergeComments] returns at most as many comments as the merger
    produced, the merger at most one per distinct start line, and there
    are at most as many such lines as nodes.  The merger produces nothing
    exactly when no node has a start position; in particular an empty
    input gives an empty output. *)
Theorem merge_counts (minLen : Z) (nodes : list Node) :
  (length (Merge.mergeComments minLen nodes)
   <= length (Merge.mergePhase nodes))%nat
  /\ (length (Merge.mergePhase nodes) <= size (Merge.bucketLines nodes))%nat
  /\ (size (Merge.bucketLines nodes) <= length nodes)%nat
  /\ (Merge.mergePhase nodes = []
      <-> forall n, n ∈ nodes -> StartPosition n = None)
  /\ ((forall n, n ∈ nodes -> StartPosition n = None) ->
      Merge.mergeComments minLen nodes = []).
Proof.
  assert (Hempty : Merge.mergePhase nodes = []
                   <-> forall n, n ∈ nodes -> StartPosition n = None).
  { rewrite mergePhase_runs. split.
    - intros Hnil n Hn.
      destruct (StartPosition n) as [[l]|] eqn:Hs; [|reflexivity].
      exfalso.
      assert (Hl : l ∈ sortedKeys (Merge.bucketLines nodes)).
      { apply sortedKeys_bucketLines, nodesAt_nonempty. eauto. }
      destruct (runs_length nodes (sortedKeys (Merge.bucketLines nodes)) [])
        as [_ Hne].
      apply Hne; [|exact Hnil]. intros Hk. rewrite Hk in Hl.
      by apply not_elem_of_nil in Hl.
    - intros Hnone.
      destruct (sortedKeys (Merge.bucketLines nodes)) as [|l ls] eqn:Hk;
        [reflexivity|].
      exfalso.
      assert (Hl : l ∈ sortedKeys (Merge.bucketLines nodes))
        by (rewrite Hk; left).
      apply sortedKeys_bucketLines, nodesAt_nonempty in Hl
        as (n & Hn & Hs).
      rewrite (Hnone n Hn) in Hs. discriminate. }
  split; [apply omap_length|]. split.
  { rewrite mergePhase_runs, <- sortedKeys_length. apply runs_length. }
  split.
  { pose proof (bucket_size nodes ∅) as Hb.
    rewrite map_size_empty in Hb. exact Hb. }
  split; [exact Hempty|].
  intros Hnone. unfold Merge.mergeComments.
  apply Hempty in Hnone. by rewrite Hnone.
Qed.

(** ** Two comments *)

(** X11. Of two nodes that start on different lines, the lower one
    first, the merger makes one comment when the second starts at most
    one line below the end of the first (or below its start, when the
    first has no end position or ends above its start), and two comments
    otherwise. *)
Theorem two_comments_merge_iff (n1 n2 : Node) (l1 l2 : Z) :
  StartPosition n1 = Some {| Line := l1 |} ->
  StartPosition n2 = Some {| Line := l2 |} ->
  l1 < l2 ->
  Merge.mergePhase [n1; n2]
  = if l2 <=? maxEndOfNode l1 n1 + 1
    then [Strings.Join (tokensOf [n1; n2]) Merge.newline]
    else [Strings.Join (tokensOf [n1]) Merge.newline;
          Strings.Join (tokensOf [n2]) Merge.newline].
Proof.
  intros H1 H2 Hlt. rewrite mergePhase_runs.
  assert (Hkeys : sortedKeys (Merge.bucketLines [n1; n2]) = [l1; l2]).
  { apply StronglySorted_lt_unique; [apply sortedKeys_sorted| |].
    - repeat constructor; lia.
    - intros k. rewrite sortedKeys_bucketLines, nodesAt_nonempty. split.
      + intros (n & Hn & Hs).
        apply elem_of_cons in Hn as [->|Hn];
          [|apply list_elem_of_singleton in Hn as ->].
        * rewrite H1 in Hs. injection Hs as ->. left.
        * rewrite H2 in Hs. injection Hs as ->. right. left.
      + intros Hk. apply elem_of_cons in Hk as [->|Hk];
          [|apply list_elem_of_singleton in Hk as ->].
        * exists n1. split; [left|done].
        * exists n2. split; [right; left|done]. }
  rewrite Hkeys. cbn [runs app].
  assert (Ha : nodesAt [n1; n2] l1 = [n1]).
  { unfold nodesAt, startsAt. cbn. rewrite H1, H2. cbn.
    rewrite Z.eqb_refl. by destruct (Z.eqb_spec l2 l1); [lia|]. }
  assert (Hb : nodesAt [n1; n2] l2 = [n2]).
  { unfold nodesAt, startsAt. cbn. rewrite H1, H2. cbn.
    rewrite Z.eqb_refl. by destruct (Z.eqb_spec l1 l2); [lia|]. }
  rewrite Ha, Hb.
  assert (Hmax : maxEndOf l1 [n1] = maxEndOfNode l1 n1) by reflexivity.
  rewrite Hmax.
  destruct (l2 <=? maxEndOfNode l1 n1 + 1); [|reflexivity].
  unfold tokensOf. cbn [map List.filter].
  by destruct (negb _), (negb _).
Qed.

Lemma two_comments_merge_iff_witness :
  Merge.mergePhase [mkNode "/* a block" 3 5; mkNode "// next" 6 6]
  = [str "/* a block" ++ Merge.newline ++ str "// next"]
  /\ Merge.mergePhase [mkNode "/* a block" 3 5; mkNode "// far" 7 7]
     = [str "/* a block"; str "// far"].
Proof.
  split.
  - exact (two_comments_merge_iff (mkNode "/* a block" 3 5)
             (mkNode "// next" 6 6) 3 6 eq_refl eq_refl eq_refl).
  - exact (two_comments_merge_iff (mkNode "/* a block" 3 5)
             (mkNode "// far" 7 7) 3 7 eq_refl eq_refl eq_refl).
Defined.

(** ** What a filtered comment looks like *)

Lemma collapseSpace_bytes (s : gostring) :
  forall inRun,
    Forall (fun c => Regexp.isAllowed c = true) s ->
    Forall (fun c => isOutputByte c = true) (Regexp.collapseSpace inRun s).
Proof.
  induction s as [|c s IH]; intros inRun Hs; [constructor|].
  apply Forall_cons in Hs as [Hc Hs]. cbn [Regexp.collapseSpace].
  destruct (Regexp.isSpace c) eqn:Hsp.
  - destruct inRun; [by apply IH|].
    constructor; [reflexivity|by apply IH].
  - constructor; [|by apply IH].
    unfold isOutputByte. by rewrite Hc, Hsp.
Qed.

Lemma isSpace_32 (c : ascii) :
  Regexp.isSpace c = false -> byteIs 32 c = false.
Proof.
  unfold Regexp.isSpace. intros H.
  repeat (apply orb_false_iff in H as [H ?]). done.
Qed.

Lemma collapseSpace_single (s : gostring) :
  forall inRun,
    singleSpaced (Regexp.collapseSpace inRun s) = true
    /\ (inRun = true ->
        forall c r, Regexp.collapseSpace inRun s = c :: r ->
                    byteIs 32 c = false).
Proof.
  induction s as [|c s IH]; intros inRun; [done|].
  cbn [Regexp.collapseSpace].
  destruct (Regexp.isSpace c) eqn:Hsp.
  - destruct inRun; [apply IH|].
    split; [|discriminate].
    destruct (IH true) as [IH1 IH2]. cbn [singleSpaced].
    destruct (Regexp.collapseSpace true s) as [|c2 r] eqn:Hr; [done|].
    rewrite (IH2 eq_refl c2 r eq_refl), andb_false_r. exact IH1.
  - destruct (IH false) as [IH1 _].
    pose proof (isSpace_32 c Hsp) as H32. split.
    + cbn [singleSpaced].
      destruct (Regexp.collapseSpace false s) as [|c2 r] eqn:Hr; [done|].
      rewrite H32. exact IH1.
    + intros _ c' r [= <- _]. exact H32.
Qed.

Lemma collapseSpace_nil (s : gostring) :
  Regexp.collapseSpace false s = [] -> s = [].
Proof.
  destruct s as [|c s]; [done|]. cbn [Regexp.collapseSpace].
  by destruct (Regexp.isSpace c).
Qed.

Lemma isOutputByte_excludes (c : ascii) :
  isOutputByte c = true ->
  c <> ascii_of_nat 10 /\ c <> ascii_of_nat 9 /\ c <> "|"%char
  /\ c <> Fmt.quote.
Proof.
  intros H. repeat split; intros ->; discriminate H.
Qed.

Lemma mergeComments_elem minLen (nodes : list Node) (out : gostring) :
  out ∈ Merge.mergeComments minLen nodes ->
  exists c, c ∈ Merge.mergePhase nodes
            /\ Merge.filterComment minLen c = Some out.
Proof. apply filterPhase_elem. Qed.

(** X12. A comment [mergeComments] returns is one line of plain text:
    every byte is one of those the filter allows, no byte is a newline or
    a tab, no two spaces follow each other, and neither the separator nor
    the quote of the text serializer occurs; with a minimum length of at
    least 1 the comment is not empty. *)
Theorem filtered_comment_is_one_line minLen (nodes : list Node)
    (out : gostring) :
  out ∈ Merge.mergeComments minLen nodes ->
  Forall (fun c => isOutputByte c = true) out
  /\ singleSpaced out = true
  /\ (forall c, c ∈ out ->
        c <> ascii_of_nat 10 /\ c <> ascii_of_nat 9 /\ c <> "|"%char
        /\ c <> Fmt.quote)
  /\ (1 <= minLen -> out <> []).
Proof.
  intros Hin. apply mergeComments_elem in Hin as (c & _ & Hf).
  apply filterComment_Some in Hf as (-> & _ & Hlen & _).
  assert (Hbytes : Forall (fun c => isOutputByte c = true)
                     (Regexp.whitespaceRE_Collapse (stripped c))).
  { apply collapseSpace_bytes. unfold stripped, Regexp.filteredCharsRE_Delete.
    apply Forall_forall. intros x Hx.
    apply list_elem_of_In, filter_In in Hx. apply Hx. }
  split; [exact Hbytes|]. split; [apply collapseSpace_single|]. split.
  - intros x Hx. apply isOutputByte_excludes.
    rewrite Forall_forall in Hbytes. by apply Hbytes.
  - intros Hmin Hnil. apply collapseSpace_nil in Hnil.
    rewrite Hnil in Hlen. unfold Merge.len in Hlen. simpl in Hlen. lia.
Qed.

Lemma filtered_comment_is_one_line_witness :
  let out := str "this is a plain comment about" in
  let nodes := [mkNode "  this is   a plain" 4 4;
                mkNode "comment about foo() " 5 5] in
  out ∈ Merge.mergeComments 20 nodes
  /\ Forall (fun c => isOutputByte c = true) out
  /\ singleSpaced out = true
  /\ (forall c, c ∈ out ->
        c <> ascii_of_nat 10 /\ c <> ascii_of_nat 9 /\ c <> "|"%char
        /\ c <> Fmt.quote)
  /\ (1 <= 20 -> out <> []).
Proof.
  assert (H : str "this is a plain comment about"
              ∈ Merge.mergeComments 20
                  [mkNode "  this is   a plain" 4 4;
                   mkNode "comment about foo() " 5 5]).
  { vm_compute. left. }
  exact (conj H (filtered_comment_is_one_line 20 _ _ H)).
Defined.

(** ** The comments the filter keeps *)

(** X13. For a comment whose stripped form is shorter than 2^16 bytes,
    [filterComment] keeps the comment exactly when its trimmed form
    starts with a letter or a digit, its stripped form has at least the
    minimum length, the cleaned form has at least as many letters as the
    integer part of 60% of its length, and the cleaned form does not
    match the license pattern; what is kept is the cleaned form. *)
Theorem filterComment_keeps_iff minLen (c out : gostring) :
  Merge.len (stripped c) < 2 ^ 16 ->
  Merge.filterComment minLen c = Some out
  <-> (exists a rest,
         Strings.TrimSpace c = a :: rest /\ Regexp.isAlnum a = true)
      /\ minLen <= Merge.len (stripped c)
      /\ 3 * Merge.len (cleaned c) / 5 <= countLetters (cleaned c)
      /\ Regexp.licenseRE_Match (cleaned c) = false
      /\ out = cleaned c.
Proof.
  intros Hshort.
  assert (Hlen : Merge.len (cleaned c) < 2 ^ 16).
  { pose proof (collapseSpace_length false (stripped c)) as Hle.
    unfold cleaned, Regexp.whitespaceRE_Collapse, Merge.len in *. lia. }
  destruct (lettersThreshold_floor (cleaned c) Hlen) as [Ht _].
  split.
  - intros Hf.
    apply filterComment_Some in Hf as (-> & Hfirst & Hmin & Hden & Hlic).
    fold (cleaned c) in *.
    rewrite Ht, charsCount_countLetters in Hden. done.
  - intros ((a & rest & Htrim & Ha) & Hmin & Hden & Hlic & ->).
    unfold Merge.filterComment. fold (stripped c). fold (cleaned c).
    rewrite Htrim. cbn [isEmpty take orb].
    unfold Regexp.filteredFirstCharRE_Match. cbn [existsb].
    rewrite Ha. cbn [negb orb].
    destruct (Z.ltb_spec (Merge.len (stripped c)) minLen); [lia|].
    rewrite Ht, charsCount_countLetters.
    destruct (Z.ltb_spec (countLetters (cleaned c))
                (3 * Merge.len (cleaned c) / 5)); [lia|].
    by rewrite Hlic.
Qed.

Lemma filterComment_keeps_iff_witness :
  let c := str "  this is   a plain comment about foo() " in
  let out := str "this is a plain comment about" in
  Merge.len (stripped c) < 2 ^ 16
  /\ (Merge.filterComment 20 c = Some out
      <-> (exists a rest,
             Strings.TrimSpace c = a :: rest /\ Regexp.isAlnum a = true)
          /\ 20 <= Merge.len (stripped c)
          /\ 3 * Merge.len (cleaned c) / 5 <= countLetters (cleaned c)
          /\ Regexp.licenseRE_Match (cleaned c) = false
          /\ out = cleaned c).
Proof.
  assert (H : Merge.len (stripped
                (str "  this is   a plain comment about foo() ")) < 2 ^ 16)
    by reflexivity.
  exact (conj H (filterComment_keeps_iff 20 _ _ H)).
Defined.

(** ** The license heuristic *)







Example the_word_sense_is_a_license :
  Merge.filterComment 10 (str "This makes sense, thanks") = None
  /\ Merge.filterComment 10 (str "This makes a point, thanks")
     = Some (str "This makes a point, thanks").
Proof. split; vm_compute; reflexivity. Qed.

(** ** The binary message *)

Lemma int32_small (n : Z) : inInt32 n -> int32 n = n.
Proof.
  unfold inInt32, int32. intros Hn.
  rewrite Z.mod_small by lia. lia.
Qed.

Lemma messageLoop (result : CommentSentimentResult)
    (entries : list (Z * F32.f32)) :
  forall acc : gmap Z Sentiment,
    (forall e, e ∈ entries -> inInt32 (fst e)) ->
    NoDup (map fst entries) ->
    (forall k v, (k, v) ∈ entries ->
       foldl (messageStep result) acc entries !! k
       = Some (sentimentOf result k v))
    /\ (forall k, k ∉ map fst entries ->
          foldl (messageStep result) acc entries !! k = acc !! k).
Proof.
  induction entries as [|[k0 v0] entries IH]; intros acc Hrange Hnd.
  - split; [|done]. intros k v Hin. by apply not_elem_of_nil in Hin.
  - cbn [map fst] in Hnd. apply NoDup_cons in Hnd as [Hk0 Hnd].
    assert (Hrange' : forall e, e ∈ entries -> inInt32 (fst e))
      by (intros e He; apply Hrange; by right).
    assert (Hstep : messageStep result acc (k0, v0)
                    = <[k0 := sentimentOf result k0 v0]> acc).
    { unfold messageStep. rewrite int32_small; [reflexivity|].
      apply (Hrange (k0, v0)). left. }
    cbn [foldl]. rewrite Hstep.
    destruct (IH (<[k0 := sentimentOf result k0 v0]> acc) Hrange' Hnd)
      as [IH1 IH2].
    split.
    + intros k v Hin. apply elem_of_cons in Hin as [[= -> ->]|Hin].
      * rewrite IH2 by done. by rewrite lookup_insert_eq.
      * by apply IH1.
    + intros k Hk. cbn [map fst] in Hk.
      apply not_elem_of_cons in Hk as [Hne Hk].
      rewrite IH2 by done. by rewrite lookup_insert_ne.
Qed.

(** The message does not depend on the order in which the map is
    ranged over, as long as every day fits an int32. *)
Lemma message_of_range (result : CommentSentimentResult)
    (entries : list (Z * F32.f32)) :
  entries ≡ₚ map_to_list (EmotionsByDay result) ->
  (forall d, is_Some (EmotionsByDay result !! d) -> inInt32 d) ->
  foldl (messageStep result) ∅ entries = messageOf result.
Proof.
  intros Hperm Hrange.
  assert (Hin : forall k v,
            (k, v) ∈ entries <-> EmotionsByDay result !! k = Some v).
  { intros k v. rewrite Hperm. apply elem_of_map_to_list. }
  destruct (messageLoop result entries ∅) as [H1 H2].
  { intros [k v] He. apply Hrange. apply Hin in He. by eexists. }
  { rewrite Hperm. apply NoDup_fst_map_to_list. }
  apply map_eq. intros k. unfold messageOf. rewrite map_lookup_imap.
  destruct (EmotionsByDay result !! k) as [v|] eqn:Hk; cbn.
  - apply H1. by apply Hin.
  - rewrite H2; [apply lookup_empty|].
    intros Hk'. apply list_elem_of_fmap in Hk' as ([k' v] & -> & He).
    apply Hin in He. cbn [fst] in Hk. congruence.
Qed.

(** X15. When every day of the result fits an int32, the message
    [serializeBinary] hands to [proto.Marshal] has exactly the days of
    [EmotionsByDay], each with its score, its comments and the
    hexadecimal hashes of its commits, in whatever order the map was
    ranged over.  The bytes [Marshal] answers with are written in one
    call; when it fails, its error is returned and nothing is written. *)
Theorem serializeBinary_message {Writer WriteError MarshalError : Type}
    (Write : Writer -> gostring -> Writer * option WriteError)
    (Marshal : gmap Z Sentiment -> gostring + MarshalError)
    (mapRange : gmap Z F32.f32 -> list (Z * F32.f32))
    (result : CommentSentimentResult) (writer : Writer) :
  mapRange (EmotionsByDay result) ≡ₚ map_to_list (EmotionsByDay result) ->
  (forall d, is_Some (EmotionsByDay result !! d) -> inInt32 d) ->
  serializeBinary Write Marshal mapRange result writer
  = match Marshal (messageOf result) with
    | inl serialized => (fst (Write writer serialized), None)
    | inr err => (writer, Some err)
    end
  /\ forall d,
       messageOf result !! d
       = match EmotionsByDay result !! d with
         | Some val =>
             Some {| Value := val;
                     Comments := default [] (CommentsByDay result !! d);
                     Commits :=
                       map Fmt.hashString
                         (default [] (resultCommitsByDay result !! d)) |}
         | None => None
         end.
Proof.
  intros Hperm Hrange. split.
  - unfold serializeBinary. cbv zeta.
    by rewrite (message_of_range result _ Hperm Hrange).
  - intros d. unfold messageOf. rewrite map_lookup_imap.
    by destruct (EmotionsByDay result !! d).
Qed.

Lemma exampleResult_days (d : Z) :
  is_Some (EmotionsByDay exampleResult !! d) -> d = 12 \/ d = 5.
Proof.
  unfold exampleResult. cbn [EmotionsByDay]. intros [v Hv].
  destruct (decide (d = 12)) as [->|H12]; [by left|].
  rewrite lookup_insert_ne in Hv by done.
  destruct (decide (d = 5)) as [->|H5]; [by right|].
  rewrite lookup_insert_ne in Hv by done.
  by rewrite lookup_empty in Hv.
Qed.

Lemma serializeBinary_message_witness :
  serializeBinary bufferWrite exampleMarshal map_to_list exampleResult
    (str "seen:")
  = (str "seen:dd", None)
  /\ Value <$> messageOf exampleResult !! 12 = Some (tenth 9).
Proof.
  assert (Hrange : forall d,
            is_Some (EmotionsByDay exampleResult !! d) -> inInt32 d).
  { intros d Hd. unfold inInt32.
    destruct (exampleResult_days d Hd) as [-> | ->]; lia. }
  destruct (serializeBinary_message bufferWrite exampleMarshal map_to_list
              exampleResult (str "seen:") (reflexivity _) Hrange)
    as [Hser Hmsg].
  split.
  - rewrite Hser. vm_compute. reflexivity.
  - rewrite (Hmsg 12). vm_compute. reflexivity.
Defined.

(** Two days that agree modulo 2^32 share one entry of the message. *)
Example int32_days_collide :
  size (foldl (messageStep exampleResult) ∅ [(0, F32.half); (2 ^ 32, F32.one)])
  = 1%nat.
Proof. vm_compute. reflexivity. Qed.

(** ** The errors of [Serialize] *)

Lemma serializeTextTo_lines {Writer WriteError : Type}
    (Write : Writer -> gostring -> Writer * option WriteError)
    (result : CommentSentimentResult) (days : list Z) :
  forall writer,
    foldl (fun w day => fst (Write w (writeDay result [] day))) writer days
    = foldl (fun w line => fst (Write w line)) writer
        (map (lineOf result) days).
Proof.
  induction days as [|d days IH]; intros writer; [reflexivity|].
  cbn [foldl map]. rewrite IH.
  unfold writeDay at 1. by rewrite Sprintf_line.
Qed.

(** X16. The only error [Serialize] ever returns is the one of
    [proto.Marshal]: in text mode it returns nil after one [Write] a day,
    on the line of that day, and in binary mode after the one [Write] of
    the marshalled bytes, whatever the writer answers to these calls.
    On a writer that keeps its bytes, text mode appends what
    [serializeText] writes. *)
Theorem serialize_reports_only_marshal_errors
    {Writer WriteError MarshalError : Type}
    (Write : Writer -> gostring -> Writer * option WriteError)
    (Marshal : gmap Z Sentiment -> gostring + MarshalError)
    (mapRange : gmap Z F32.f32 -> list (Z * F32.f32))
    (result : CommentSentimentResult) (writer : Writer) :
  let message :=
    foldl (messageStep result) ∅ (mapRange (EmotionsByDay result)) in
  Serialize Write Marshal mapRange result false writer
  = (foldl (fun w line => fst (Write w line)) writer
       (map (lineOf result) (sortedKeys (EmotionsByDay result))), None)
  /\ (forall serialized,
        Marshal message = inl serialized ->
        Serialize Write Marshal mapRange result true writer
        = (fst (Write writer serialized), None))
  /\ (forall err,
        Marshal message = inr err ->
        Serialize Write Marshal mapRange result true writer
        = (writer, Some err))
  /\ forall buffer,
       Serialize bufferWrite Marshal mapRange result false buffer
       = (buffer ++ serializeText result, None).
Proof.
  cbv zeta. unfold Serialize, serializeBinary, serializeTextTo.
  split; [by rewrite serializeTextTo_lines|].
  split; [by intros serialized ->|]. split; [by intros err ->|].
  intros buffer. f_equal. unfold serializeText.
  rewrite (writeDay_foldl result _ []), serializeTextTo_lines. cbn [app].
  generalize (map (lineOf result) (sortedKeys (EmotionsByDay result))).
  intros lines. revert buffer.
  induction lines as [|line lines IH]; intros buffer; cbn.
  - by rewrite app_nil_r.
  - rewrite IH. by rewrite <- app_assoc.
Qed.

Example failing_writer_goes_unreported :
  Serialize failingWrite exampleMarshal map_to_list exampleResult false O
  = (2%nat, None)
  /\ Serialize failingWrite exampleMarshal map_to_list exampleResult true O
     = (1%nat, None).
Proof. split; vm_compute; reflexivity. Qed.

(** ** One line a day *)

Lemma countNewlines_app (s t : gostring) :
  countNewlines (s ++ t) = (countNewlines s + countNewlines t)%nat.
Proof. unfold countNewlines. by rewrite List.filter_app, length_app. Qed.

Lemma countNewlines_concat (lines : list gostring) (n : nat) :
  Forall (fun line => countNewlines line = n) lines ->
  countNewlines (concat lines) = (length lines * n)%nat.
Proof.
  induction 1 as [|line lines Hline _ IH]; [reflexivity|].
  cbn [concat length]. rewrite countNewlines_app, Hline, IH. lia.
Qed.

Lemma countNewlines_Join (a : list gostring) (sep : gostring) :
  countNewlines sep = O ->
  Forall (fun x => countNewlines x = O) a ->
  countNewlines (Strings.Join a sep) = O.
Proof.
  intros Hsep. induction 1 as [|x a Hx Ha IH]; [reflexivity|].
  cbn [Strings.Join]. destruct a as [|y a]; [exact Hx|].
  rewrite !countNewlines_app, Hx, Hsep. exact IH.
Qed.

Lemma digit_newlines (n : Z) :
  0 <= n < 10 -> countNewlines [Fmt.digit n] = O.
Proof.
  intros Hn. rewrite <- (Z2Nat.id n) by lia.
  assert (Hk : (Z.to_nat n < 10)%nat) by lia.
  revert Hk. generalize (Z.to_nat n). intros k Hk.
  do 10 (destruct k as [|k]; [reflexivity|]). lia.
Qed.

Lemma hexDigit_newlines (n : Z) :
  0 <= n < 16 -> countNewlines [Fmt.hexDigit n] = O.
Proof.
  intros Hn. rewrite <- (Z2Nat.id n) by lia.
  assert (Hk : (Z.to_nat n < 16)%nat) by lia.
  revert Hk. generalize (Z.to_nat n). intros k Hk.
  do 16 (destruct k as [|k]; [reflexivity|]). lia.
Qed.

Lemma uint_newlines (d : Decimal.uint) :
  countNewlines (str (DecimalString.NilEmpty.string_of_uint d)) = O.
Proof. induction d; [reflexivity|exact IHd..]. Qed.

Lemma formatInt_newlines (n : Z) : countNewlines (Fmt.formatInt n) = O.
Proof.
  unfold Fmt.formatInt.
  assert (H : forall d,
            countNewlines (str (DecimalString.NilZero.string_of_uint d)) = O).
  { intros d. destruct d; try reflexivity;
      apply (uint_newlines (_ d)). }
  destruct (Z.to_int n) as [d|d]; cbn [DecimalString.NilZero.string_of_int].
  - apply H.
  - exact (H d).
Qed.

Lemma formatFloat4_newlines (x : F32.f32) :
  countNewlines (Fmt.formatFloat4 x) = O.
Proof.
  destruct x as [s|s| |s m e]; cbn [Fmt.formatFloat4];
    try (destruct s; reflexivity); try reflexivity.
  cbv zeta.
  set (f := Fmt.roundHalfEven (Z.pos m * 10000) e mod 10000).
  assert (Hf : 0 <= f < 10000) by (apply Z.mod_pos_bound; lia).
  assert (H1 : 0 <= f / 1000 < 10).
  { split; [apply Z.div_pos; lia|apply Z.div_lt_upper_bound; lia]. }
  pose proof (Z.mod_pos_bound (f / 100) 10 ltac:(lia)) as H2.
  pose proof (Z.mod_pos_bound (f / 10) 10 ltac:(lia)) as H3.
  pose proof (Z.mod_pos_bound f 10 ltac:(lia)) as H4.
  rewrite !countNewlines_app, formatInt_newlines.
  change [Fmt.digit (f / 1000); Fmt.digit (f / 100 mod 10);
          Fmt.digit (f / 10 mod 10); Fmt.digit (f mod 10)]
    with ([Fmt.digit (f / 1000)] ++ [Fmt.digit (f / 100 mod 10)]
          ++ [Fmt.digit (f / 10 mod 10)] ++ [Fmt.digit (f mod 10)]).
  rewrite !countNewlines_app, !digit_newlines by done.
  by destruct s.
Qed.

Lemma hashString_newlines (h : Hash) : countNewlines (Fmt.hashString h) = O.
Proof.
  unfold Fmt.hashString. induction h as [|b h IH]; [reflexivity|].
  cbn [flat_map].
  assert (Hb : 0 <= code b < 256).
  { unfold code. pose proof (N_ascii_bounded b). lia. }
  change [Fmt.hexDigit (code b / 16); Fmt.hexDigit (code b mod 16)]
    with ([Fmt.hexDigit (code b / 16)] ++ [Fmt.hexDigit (code b mod 16)]).
  rewrite !countNewlines_app, IH.
  rewrite !hexDigit_newlines; [reflexivity| |].
  - apply Z.mod_pos_bound. lia.
  - split; [apply Z.div_pos; lia|apply Z.div_lt_upper_bound; lia].
Qed.

(** The line of a day whose comments hold no newline holds one newline,
    its last byte. *)
Lemma lineOf_newlines (result : CommentSentimentResult) (d : Z) :
  Forall (fun c => countNewlines c = O)
    (default [] (CommentsByDay result !! d)) ->
  countNewlines (lineOf result d) = 1%nat.
Proof.
  intros Hcs. unfold lineOf.
  rewrite !countNewlines_app, formatInt_newlines, formatFloat4_newlines.
  rewrite !countNewlines_Join; try done.
  apply Forall_forall. intros h Hh.
  apply list_elem_of_fmap in Hh as (h' & -> & _). apply hashString_newlines.
Qed.

Lemma serializeText_newlines (result : CommentSentimentResult) :
  (forall d cs c,
     CommentsByDay result !! d = Some cs -> c ∈ cs -> countNewlines c = O) ->
  countNewlines (serializeText result) = size (EmotionsByDay result).
Proof.
  intros Hplain. unfold serializeText.
  rewrite (writeDay_foldl result _ []). cbn [app].
  rewrite (countNewlines_concat _ 1).
  - by rewrite length_map, sortedKeys_length, Nat.mul_1_r.
  - apply Forall_forall. intros line Hline.
    apply list_elem_of_fmap in Hline as (d & -> & _).
    apply lineOf_newlines.
    destruct (CommentsByDay result !! d) as [cs|] eqn:Hd; [|constructor].
    apply Forall_forall. intros c Hc. exact (Hplain d cs c Hd Hc).
Qed.

(** X17. When no comment of the result holds a newline, the text
    [serializeText] writes holds exactly one newline a day of
    [EmotionsByDay], the one that ends the line of that day: the day, the
    score and the hashes never print one. *)
Theorem serializeText_one_line_per_day (result : CommentSentimentResult) :
  (forall d cs c,
     CommentsByDay result !! d = Some cs -> c ∈ cs -> countNewlines c = O) ->
  countNewlines (serializeText result) = size (EmotionsByDay result)
  /\ forall d, countNewlines (lineOf result d) = 1%nat
               /\ exists body, lineOf result d = body ++ Merge.newline.
Proof.
  intros Hplain. split; [by apply serializeText_newlines|].
  intros d. split.
  - apply lineOf_newlines.
    destruct (CommentsByDay result !! d) as [cs|] eqn:Hd; [|constructor].
    apply Forall_forall. intros c Hc. exact (Hplain d cs c Hd Hc).
  - unfold lineOf. eexists. rewrite !app_assoc. reflexivity.
Qed.

Lemma serializeText_one_line_per_day_witness :
  countNewlines (serializeText exampleResult) = 2%nat.
Proof.
  assert (Hplain : forall d cs c,
            CommentsByDay exampleResult !! d = Some cs -> c ∈ cs ->
            countNewlines c = O).
  { intros d cs c. unfold exampleResult. cbn [CommentsByDay].
    destruct (decide (d = 12)) as [->|H12].
    { rewrite lookup_insert_eq. intros [= <-] Hc.
      apply list_elem_of_singleton in Hc as ->. reflexivity. }
    rewrite lookup_insert_ne by done.
    destruct (decide (d = 5)) as [->|H5].
    { rewrite lookup_insert_eq. intros [= <-] Hc.
      apply elem_of_cons in Hc as [->|Hc]; [reflexivity|].
      apply list_elem_of_singleton in Hc as ->. reflexivity. }
    rewrite lookup_insert_ne by done. by rewrite lookup_empty. }
  exact (proj1 (serializeText_one_line_per_day exampleResult Hplain)).
Defined.

(** ** From the commits to the text *)

Lemma isOutputByte_newlines (s : gostring) :
  Forall (fun c => isOutputByte c = true) s -> countNewlines s = O.
Proof.
  unfold countNewlines. induction 1 as [|c s Hc _ IH]; [reflexivity|].
  cbn [List.filter].
  destruct (byteIs 10 c) eqn:H10; [|exact IH].
  exfalso. apply Z.eqb_eq in H10.
  assert (c = ascii_of_nat 10) as ->.
  { unfold code in H10. rewrite <- (ascii_N_embedding c).
    replace (N_of_ascii c) with 10%N by lia. reflexivity. }
  discriminate Hc.
Qed.

Lemma mergeComments_newlines minLen (nodes : list Node) (out : gostring) :
  out ∈ Merge.mergeComments minLen nodes -> countNewlines out = O.
Proof.
  intros Hin. apply mergeComments_elem in Hin as (c & _ & Hf).
  apply filterComment_Some in Hf as (-> & _).
  apply isOutputByte_newlines, collapseSpace_bytes.
  unfold stripped, Regexp.filteredCharsRE_Delete.
  apply Forall_forall. intros x Hx.
  apply list_elem_of_In, filter_In in Hx. apply Hx.
Qed.

(** X18. Whatever the commits and the scores, the text written for the
    result of a run of the pipeline, [Initialize], [Consume] on every
    commit, [Finalize], holds exactly one newline for every day of the
    result: the comments that [Consume] accumulates come out of
    [mergeComments], which leaves no newline in them. *)
Theorem pipeline_prints_one_line_per_day {UASTChange : Type}
    (Extract : list UASTChange -> list Node)
    (sent : CommentSentimentAnalysis) (commits : list (Deps UASTChange))
    (scorer : Scorer) (r : CommentSentimentResult) :
  snd (Finalize (consumeAll Extract (fst (Initialize sent)) commits) scorer)
  = Returned r ->
  countNewlines (serializeText r) = size (EmotionsByDay r).
Proof.
  intros Hret. apply serializeText_newlines. intros d cs c Hcs Hc.
  set (final := consumeAll Extract (fst (Initialize sent)) commits) in *.
  destruct (Finalize_returned_spec final scorer r Hret)
    as (weights & _ & _ & _ & Hdays).
  specialize (Hdays d). cbv zeta in Hdays.
  destruct (decide _) as [[Hd _]|_]; destruct Hdays as [_ Hr];
    rewrite Hr in Hcs; [|discriminate].
  injection Hcs as <-.
  assert (Hin : c ∈ dayComments final d).
  { eapply elem_of_sublist; [exact Hc|]. apply keptPairs_sublist. }
  clear Hc Hr. unfold dayComments, final in Hin.
  rewrite consumeAll_lookup in Hin.
  case_decide as Hnil.
  { rewrite Initialize_commentsByDay, lookup_empty in Hin.
    by apply not_elem_of_nil in Hin. }
  cbn [default from_option id] in Hin. unfold dayComments in Hin.
  rewrite Initialize_commentsByDay, lookup_empty in Hin.
  cbn [default from_option id app] in Hin.
  apply list_elem_of_In, in_concat in Hin as (cc & Hcc & Hc).
  apply list_elem_of_In in Hc.
  apply in_map_iff in Hcc as (deps & <- & _).
  exact (mergeComments_newlines _ _ _ Hc).
Qed.

Lemma pipeline_prints_one_line_per_day_witness :
  countNewlines
    (serializeText
       {| EmotionsByDay := <[2 := tenth 1]> ∅;
          CommentsByDay :=
            <[2 := [str "this loop is slow and ugly, sorry"]]> ∅;
          resultCommitsByDay := ∅ |})
  = 1%nat.
Proof.
  assert (H : snd (Finalize (consumeAll (fun nodes => nodes)
                     (fst (Initialize (exampleState F32.half)))
                     exampleHistory) exampleScorer)
              = Returned {| EmotionsByDay := <[2 := tenth 1]> ∅;
                            CommentsByDay :=
                              <[2 := [str "this loop is slow and ugly, sorry"]]>
                                ∅;
                            resultCommitsByDay := ∅ |})
    by (vm_compute; reflexivity).
  exact (pipeline_prints_one_line_per_day (fun nodes => nodes)
           (exampleState F32.half) exampleHistory exampleScorer _ H).
Defined.

(** ** The published defaults *)

(** X19. The defaults [ListConfigurationOptions] publishes are the
    values [validate] falls back to, and they pass [validate]: whatever
    the state, [Configure] on a run that sets no option installs a
    minimum length of 20 and a gap of one half and logs nothing.  The two
    options have distinct names and flags, and each default has the type
    its option declares. *)
Theorem published_defaults_are_valid (sent : CommentSentimentAnalysis)
    (commits : gmap Z (list Hash)) :
  Configure sent (defaultFacts commits)
  = ({| MinCommentLength := DefaultCommentSentimentCommentMinLength;
        Gap := DefaultCommentSentimentGap;
        commentsByDay := commentsByDay sent;
        commitsByDay := commits |}, [])
  /\ validated (fst (Configure sent (defaultFacts commits)))
  /\ map optionDefault ListConfigurationOptions
     = [IntValue DefaultCommentSentimentCommentMinLength;
        Float32Value DefaultCommentSentimentGap]
  /\ NoDup (map optionName ListConfigurationOptions)
  /\ NoDup (map optionFlag ListConfigurationOptions)
  /\ forallb wellTyped ListConfigurationOptions = true.
Proof.
  assert (Hfacts : defaultFacts commits
                   = {| factGap := Some DefaultCommentSentimentGap;
                        factMinLength :=
                          Some DefaultCommentSentimentCommentMinLength;
                        factCommitsByDay := commits |}) by reflexivity.
  assert (Hconf : Configure sent (defaultFacts commits)
    = ({| MinCommentLength := DefaultCommentSentimentCommentMinLength;
          Gap := DefaultCommentSentimentGap;
          commentsByDay := commentsByDay sent;
          commitsByDay := commits |}, [])).
  { rewrite Hfacts. unfold Configure.
    cbn [factGap factMinLength factCommitsByDay].
    rewrite validate_unfold. cbv zeta.
    cbn [setGap setMinCommentLength MinCommentLength Gap commentsByDay
         commitsByDay].
    rewrite default_gap_passes. reflexivity. }
  split; [exact Hconf|]. split.
  { rewrite Hconf. split; [cbn; unfold DefaultCommentSentimentCommentMinLength;
                           lia|].
    apply gap_guard_false, default_gap_passes. }
  split; [reflexivity|].
  split; [|split; [|reflexivity]].
  - apply NoDup_cons. split; [|apply NoDup_singleton].
    intros Hin. apply list_elem_of_singleton in Hin. discriminate Hin.
  - apply NoDup_cons. split; [|apply NoDup_singleton].
    intros Hin. apply list_elem_of_singleton in Hin. discriminate Hin.
Qed.

(** ** What the scorer is given *)

Lemma commitsOfDay_nonempty {UASTChange : Type} (d : Z)
    (commits : list (Deps UASTChange)) :
  commitsOfDay d commits <> [] <-> d ∈ map day commits.
Proof.
  unfold commitsOfDay. induction commits as [|c cs IH]; cbn [List.filter map].
  - split; [done|]. intros H. by apply not_elem_of_nil in H.
  - rewrite elem_of_cons. destruct (Z.eqb_spec (day c) d) as [->|Hne].
    + split; [by left|done].
    + rewrite IH. split; [by right|]. intros [?|?]; [congruence|done].
Qed.

Lemma concat_nils {A B : Type} (f : A -> list B) (l : list A) :
  (forall x, f x = []) -> concat (map f l) = [].
Proof.
  intros Hf. induction l as [|x l IH]; [reflexivity|].
  cbn [map concat]. by rewrite Hf, IH.
Qed.

(** Grouping the commits by day, over any duplicate-free list of days
    that holds the day of every commit, permutes their comments. *)
Lemma grouped_by_day {UASTChange : Type}
    (f : Deps UASTChange -> list gostring)
    (commits : list (Deps UASTChange)) :
  forall ds,
    NoDup ds ->
    (forall d, d ∈ map day commits -> d ∈ ds) ->
    concat (map (fun d => concat (map f (commitsOfDay d commits))) ds)
    ≡ₚ concat (map f commits).
Proof.
  induction commits as [|c cs IH]; intros ds Hnd Hall.
  - by rewrite concat_nils.
  - cbn [map concat]. rewrite <- (IH ds Hnd)
      by (intros d Hd; apply Hall; cbn [map]; by right).
    assert (Hc : day c ∈ ds) by (apply Hall; cbn [map]; left).
    clear IH Hall. revert Hnd Hc.
    assert (Hgen : NoDup ds ->
      concat (map (fun d => concat (map f (commitsOfDay d (c :: cs)))) ds)
      ≡ₚ (if decide (day c ∈ ds) then f c else [])
         ++ concat (map (fun d => concat (map f (commitsOfDay d cs))) ds)).
    { induction ds as [|d ds IHd]; intros Hnd; [reflexivity|].
      apply NoDup_cons in Hnd as [Hd Hnd]. specialize (IHd Hnd).
      cbn [map concat]. rewrite IHd. clear IHd.
      unfold commitsOfDay at 1. cbn [List.filter].
      fold (commitsOfDay d cs).
      destruct (Z.eqb_spec (day c) d) as [Heq|Hne].
      - rewrite Heq. rewrite (decide_False (P := d ∈ ds)) by done.
        rewrite (decide_True (P := d ∈ d :: ds)) by left.
        cbn [map concat app]. by rewrite <- app_assoc.
      - destruct (decide (day c ∈ ds)) as [Hin|Hin].
        + rewrite (decide_True (P := day c ∈ d :: ds)) by (by right).
          rewrite !app_assoc. apply Permutation_app_tail, Permutation_app_comm.
        + rewrite (decide_False (P := day c ∈ d :: ds)).
          * reflexivity.
          * intros H. apply elem_of_cons in H as [?|?]; done. }
    intros Hnd Hc. rewrite (Hgen Hnd). by rewrite decide_True.
Qed.

Lemma consumed_dayComments {UASTChange : Type}
    (Extract : list UASTChange -> list Node)
    (sent : CommentSentimentAnalysis) (commits : list (Deps UASTChange))
    (d : Z) :
  dayComments (consumeAll Extract (fst (Initialize sent)) commits) d
  = concat (map (commitComments Extract
                   (MinCommentLength (fst (Initialize sent))))
              (commitsOfDay d commits)).
Proof.
  unfold dayComments at 1. rewrite consumeAll_lookup.
  unfold dayComments. rewrite Initialize_commentsByDay, lookup_empty.
  case_decide as Hnil; [by rewrite Hnil|reflexivity].
Qed.

(** X20. After [Initialize] and [Consume] on every commit, the days of
    the state are the days of the commits, and [Finalize] hands the
    scorer, in one call, the comments of all the commits, each exactly as
    often as it was extracted: grouped by ascending day and, within a
    day, in the order of the commits. *)
Theorem scorer_receives_every_comment_once {UASTChange : Type}
    (Extract : list UASTChange -> list Node)
    (sent : CommentSentimentAnalysis) (commits : list (Deps UASTChange))
    (scorer : Scorer) :
  let started := fst (Initialize sent) in
  let final := consumeAll Extract started commits in
  let comments := commitComments Extract (MinCommentLength started) in
  let days := sortedKeys (commentsByDay final) in
  (forall d, d ∈ days <-> d ∈ map day commits)
  /\ StronglySorted Z.lt days
  /\ allTexts final
     = concat (map (fun d => concat (map comments (commitsOfDay d commits)))
                 days)
  /\ allTexts final ≡ₚ concat (map comments commits)
  /\ fst (Finalize final scorer)
     = (if OpenSession scorer then [allTexts final] else []).
Proof.
  cbv zeta.
  set (final := consumeAll Extract (fst (Initialize sent)) commits).
  assert (Hdays : forall d,
            d ∈ sortedKeys (commentsByDay final) <-> d ∈ map day commits).
  { intros d. rewrite sortedKeys_elem. unfold final.
    rewrite consumeAll_lookup, Initialize_commentsByDay, lookup_empty.
    rewrite <- commitsOfDay_nonempty.
    case_decide as Hnil; split.
    - by intros [? [=]].
    - intros Hne. by destruct Hne.
    - intros _. exact Hnil.
    - intros _. by eexists. }
  assert (Htexts : allTexts final
     = concat (map (fun d => concat (map (commitComments Extract
                               (MinCommentLength (fst (Initialize sent))))
                            (commitsOfDay d commits)))
                 (sortedKeys (commentsByDay final)))).
  { unfold allTexts. f_equal. apply map_ext. intros d.
    apply consumed_dayComments. }
  split; [exact Hdays|]. split; [apply sortedKeys_sorted|].
  split; [exact Htexts|]. split.
  - rewrite Htexts. apply grouped_by_day; [apply sortedKeys_NoDup|].
    intros d. apply Hdays.
  - unfold Finalize. rewrite Finalize_texts.
    destruct (OpenSession scorer); [|reflexivity]. cbn [negb].
    by destruct (EvaluateWithProgress scorer (allTexts final)).
Qed.

(** ** The minimum length *)

Lemma filterComment_mono (m m' : Z) (c out : gostring) :
  m' <= m ->
  Merge.filterComment m c = Some out ->
  Merge.filterComment m' c = Some out.
Proof.
  intros Hle. unfold Merge.filterComment. cbv zeta.
  destruct (isEmpty _ || _); [done|].
  destruct (Z.ltb_spec (Merge.len (Regexp.filteredCharsRE_Delete
              (Regexp.functionNameRE_Delete (Strings.TrimSpace c)))) m);
    [done|].
  destruct (Z.ltb_spec (Merge.len (Regexp.filteredCharsRE_Delete
              (Regexp.functionNameRE_Delete (Strings.TrimSpace c)))) m');
    [lia|done].
Qed.

Lemma omap_sublist {A B : Type} (f g : A -> option B) (l : list A) :
  (forall x y, f x = Some y -> g x = Some y) ->
  omap f l `sublist_of` omap g l.
Proof.
  intros Hfg. induction l as [|x l IH]; csimpl; [constructor|].
  destruct (f x) as [y|] eqn:Hf.
  - rewrite (Hfg x y Hf). by apply sublist_skip.
  - destruct (g x); [by apply sublist_cons|exact IH].
Qed.

(** X21. Raising the minimum length only removes comments: what
    [mergeComments] returns under a minimum is a sublist of what it
    returns under any smaller one, and the comments that stay are
    unchanged. *)
Theorem raising_the_minimum_only_removes (m m' : Z) (nodes : list Node) :
  m' <= m ->
  Merge.mergeComments m nodes `sublist_of` Merge.mergeComments m' nodes.
Proof.
  intros Hle. unfold Merge.mergeComments, Merge.filterPhase.
  apply omap_sublist. intros c out. by apply filterComment_mono.
Qed.

Lemma raising_the_minimum_only_removes_witness :
  Merge.mergeComments 30
    [mkNode "a short remark here, ok" 1 1;
     mkNode "a much longer remark that goes on and on" 5 5]
  `sublist_of`
  Merge.mergeComments 20
    [mkNode "a short remark here, ok" 1 1;
     mkNode "a much longer remark that goes on and on" 5 5].
Proof.
  exact (raising_the_minimum_only_removes 30 20 _ ltac:(lia)).
Defined.

Example minimum_length_example :
  Merge.mergeComments 30
    [mkNode "a short remark here, ok" 1 1;
     mkNode "a much longer remark that goes on and on" 5 5]
  = [str "a much longer remark that goes on and on"]
  /\ Merge.mergeComments 20
       [mkNode "a short remark here, ok" 1 1;
        mkNode "a much longer remark that goes on and on" 5 5]
     = [str "a short remark here, ok";
        str "a much longer remark that goes on and on"].
Proof. split; vm_compute; reflexivity. Qed.
